(** * The compiler-visible object walker of typed_python

    A shallow embedding of [CompilerVisibleObjectVisitor] and of the helpers
    that sit in the same header ([isCanonicalName], [isSpecialIgnorableName],
    [VisitRecord], [LambdaVisitor]), with the properties of the walker that
    its specification states.

    Pointers are natural numbers, the null pointer is [0].  The walker is
    written against the CPython C API; the interpreter is an explicit value
    of type [PyRuntime] that answers every API call the walker makes. *)

From Stdlib Require Import ZArith NArith Ascii String List Lia Bool.
From stdpp Require Import base decidable countable gmap list sorting strings.

Local Open Scope string_scope.
Local Open Scope list_scope.
Local Open Scope Z_scope.

(** ** [std::string] *)

Module StdString.

(** [std::string::npos], the largest [size_t]. *)
Definition npos : Z := 2 ^ 64 - 1.

Definition size (s : string) : Z := Z.of_nat (String.length s).

(** Subtraction of two [size_t] values: an underflow wraps around. *)
Definition size_t_sub (a b : Z) : Z :=
  if a <? b then a - b + 2 ^ 64 else a - b.

(** [s.substr(pos, count)]: [None] stands for the [std::out_of_range] that
    is thrown when [pos > s.size()]. *)
Definition substr (s : string) (pos count : Z) : option string :=
  if size s <? pos then None
  else Some (String.substring (Z.to_nat pos)
               (Z.to_nat (Z.min count (size s - pos))) s).

(** [s.find(".")]: the position of the first dot, if there is one. *)
Fixpoint find_dot (s : string) : option nat :=
  match s with
  | EmptyString => None
  | String c s' =>
      if Ascii.eqb c "."%char then Some 0%nat
      else option_map S (find_dot s')
  end.

(** Membership in a [std::set<std::string>]. *)
Definition set_contains (set : list string) (s : string) : bool :=
  existsb (String.eqb s) set.

(** [std::less<std::string>]: lexicographic on unsigned bytes. *)
Definition lt (a b : string) : Prop := String.compare a b = Lt.

End StdString.

(** ** Conversions between [size_t] and [int] *)

Module CInt.

(** A [size_t] stored in an [int]: the low 32 bits, read as a signed
    number. *)
Definition of_size_t (n : Z) : Z := (n + 2 ^ 31) mod 2 ^ 32 - 2 ^ 31.

(** An [int] converted to [size_t], as in a comparison with a [size_t]
    or in a [size_t] argument. *)
Definition to_size_t (n : Z) : Z := n mod 2 ^ 64.

End CInt.

(** ** The two allow-lists *)

Definition canonicalPythonModuleNames : list string :=
  [ "abc"; "aifc"; "antigravity"; "argparse"; "ast"; "asynchat"; "asyncio"; "asyncore";
    "base64"; "bdb"; "binhex"; "bisect"; "_bootlocale"; "bz2"; "calendar"; "cgi"; "cgitb";
    "chunk"; "cmd"; "codecs"; "codeop"; "code"; "collections"; "_collections_abc";
    "colorsys"; "_compat_pickle"; "compileall"; "_compression"; "concurrent";
    "configparser"; "contextlib"; "contextvars"; "copy"; "copyreg"; "cProfile"; "crypt";
    "csv"; "ctypes"; "curses"; "dataclasses"; "datetime"; "dbm"; "decimal"; "difflib";
    "dis"; "distutils"; "doctest"; "dummy_threading"; "_dummy_thread"; "email";
    "encodings"; "ensurepip"; "enum"; "filecmp"; "fileinput"; "fnmatch"; "formatter";
    "fractions"; "ftplib"; "functools"; "__future__"; "genericpath"; "getopt"; "getpass";
    "gettext"; "glob"; "gzip"; "hashlib"; "heapq"; "hmac"; "html"; "http"; "idlelib";
    "imaplib"; "imghdr"; "importlib"; "imp"; "inspect"; "io"; "ipaddress"; "json";
    "keyword"; "lib2to3"; "linecache"; "locale"; "logging"; "lzma"; "mailbox"; "mailcap";
    "marshal";
    "_markupbase"; "mimetypes"; "modulefinder"; "msilib"; "multiprocessing"; "netrc";
    "nntplib"; "ntpath"; "nturl2path"; "numbers"; "opcode"; "operator"; "optparse"; "os";
    "_osx_support"; "pathlib"; "pdb"; "pickle"; "pickletools"; "pipes"; "pkgutil";
    "platform"; "plistlib"; "poplib"; "posixpath"; "pprint"; "profile"; "pstats"; "pty";
    "_py_abc"; "pyclbr"; "py_compile"; "_pydecimal"; "pydoc_data"; "pydoc"; "_pyio";
    "queue"; "quopri"; "random"; "reprlib"; "re"; "rlcompleter"; "runpy"; "sched";
    "secrets"; "selectors"; "shelve"; "shlex"; "shutil"; "signal"; "_sitebuiltins";
    "site-packages"; "site"; "smtpd"; "smtplib"; "sndhdr"; "socket"; "socketserver";
    "sqlite3"; "sre_compile"; "sre_constants"; "sre_parse"; "ssl"; "statistics"; "stat";
    "stringprep"; "string"; "_strptime"; "struct"; "subprocess"; "sunau"; "symbol";
    "symtable"; "sysconfig"; "tabnanny"; "tarfile"; "telnetlib"; "tempfile"; "test";
    "textwrap"; "this"; "_threading_local"; "threading"; "timeit"; "tkinter"; "tokenize";
    "token"; "traceback"; "tracemalloc"; "trace"; "tty"; "turtledemo"; "turtle"; "types";
    "typing"; "unittest"; "urllib"; "uuid"; "uu"; "venv"; "warnings"; "wave"; "weakref";
    "_weakrefset"; "webbrowser"; "wsgiref"; "xdrlib"; "xml"; "xmlrpc"; "zipapp";
    "zipfile"; "zipimport"; "pytz"; "psutil";
    "numpy"; "pandas"; "scipy"; "pytest"; "_pytest"; "typed_python"; "object_database"; "llvmlite";
    "requests"; "redis"; "websockets"; "boto3"; "py"; "xdist"; "pytest_jsonreport";
    "pytest_metadata"; "flask"; "flaky"; "coverage"; "pyasn1"; "cryptography"; "paramiko";
    "six"; "torch" ].

(** The root of a dotted module name is looked up in the allow-list.
    The result of [find] is kept in an [int]: [int posOfDot = name.find(".")].
    The comparison with [npos] and the call of [substr] convert it back
    to [size_t]; [substr(0, n)] cannot throw. *)
Definition isCanonicalName (name : string) : bool :=
  let posOfDot :=
    CInt.of_size_t
      match StdString.find_dot name with
      | Some pos => Z.of_nat pos
      | None => StdString.npos
      end in
  let moduleNameRoot :=
    if negb (CInt.to_size_t posOfDot =? StdString.npos)
    then String.substring 0
           (Z.to_nat (Z.min (CInt.to_size_t posOfDot) (StdString.size name))) name
    else name in
  StdString.set_contains canonicalPythonModuleNames moduleNameRoot.

Definition canonicalMagicMethods : list string :=
  [ "__abs__"; "__add__"; "__and__"; "__bool__";
    "__bytes__"; "__call__"; "__contains__"; "__del__";
    "__delattr__"; "__eq__"; "__float__"; "__floordiv__";
    "__format__"; "__ge__"; "__getitem__"; "__gt__";
    "__hash__"; "__iadd__"; "__iand__"; "__ieq__";
    "__ifloordiv__"; "__ige__"; "__igt__"; "__ile__";
    "__ilshift__"; "__ilt__"; "__imatmul__"; "__imod__";
    "__imul__"; "__index__"; "__ine__"; "__init__";
    "__int__"; "__invert__"; "__ior__"; "__ipow__";
    "__irshift__"; "__isub__"; "__itruediv__"; "__ixor__";
    "__le__"; "__len__"; "__lshift__"; "__lt__";
    "__matmul__"; "__mod__"; "__mul__"; "__ne__";
    "__neg__"; "__not__"; "__or__"; "__pos__";
    "__pow__"; "__radd__"; "__rand__"; "__repr__";
    "__rfloordiv__"; "__rlshift__"; "__rmatmul__"; "__rmod__";
    "__rmul__"; "__ror__"; "__round__"; "__round__";
    "__rpow__"; "__rrshift__"; "__rshift__"; "__rsub__";
    "__rtruediv__"; "__rxor__"; "__setattr__"; "__setitem__";
    "__str__"; "__sub__"; "__truediv__"; "__xor__" ].

(** [isSpecialIgnorableName]: the three conjuncts of the C++ expression are
    evaluated left to right and [&&] stops at the first false one; a
    [substr] that throws makes the whole call throw ([None]). *)
Definition isSpecialIgnorableName (name : string) : option bool :=
  match StdString.substr name 0 2 with
  | None => None
  | Some head =>
      if negb (String.eqb head "__") then Some false
      else
        match StdString.substr name
                (StdString.size_t_sub (StdString.size name) 2)
                StdString.npos with
        | None => None
        | Some tail =>
            if negb (String.eqb tail "__") then Some false
            else Some (negb (StdString.set_contains canonicalMagicMethods name))
        end
  end.

(** ** Hashes, graph nodes and visit records *)

(** A pointer ([PyObject*] or [Type*]); [NULL] is the null pointer. *)
Definition addr := N.
Definition NULL : addr := 0%N.
Definition isNull (p : addr) : bool := N.eqb p NULL.

(** Modelled from the spec: the digest type of ShaHash.hpp, which is not
    among the sources.  A hash contribution is either the digest built from
    a small integer ([ShaHash(n)]) or the content hash of a byte string
    ([ShaHash::SHA1(data, size)]); the default [ShaHash()] is [ShaHashOf 0]. *)
Inductive ShaHash : Type :=
| ShaHashOf (n : Z)
| SHA1 (data : string).

Global Instance ShaHash_eq_dec : EqDecision ShaHash.
Proof. solve_decision. Defined.

(** Modelled from the spec: [TypeOrPyobj], the tagged reference to either a
    [Type*] or a [PyObject*], compared by reference identity. *)
Record TypeOrPyobj : Type := MkTypeOrPyobj { mType : addr; mPyObj : addr }.

Global Instance TypeOrPyobj_eq_dec : EqDecision TypeOrPyobj.
Proof. solve_decision. Defined.

Global Instance TypeOrPyobj_countable : Countable TypeOrPyobj.
Proof.
  apply (inj_countable' (fun o => (mType o, mPyObj o))
                        (fun p => MkTypeOrPyobj (fst p) (snd p))).
  by intros [].
Defined.

Definition ofType (t : addr) : TypeOrPyobj := MkTypeOrPyobj t NULL.
Definition ofPyobj (p : addr) : TypeOrPyobj := MkTypeOrPyobj NULL p.
Definition nullTopo : TypeOrPyobj := MkTypeOrPyobj NULL NULL.

Module VisitRecord.

Inductive kind : Type := Hash | String | Topo | NameValuePair | Error.

Global Instance kind_eq_dec : EqDecision kind.
Proof. solve_decision. Defined.

(** The class keeps all five members whatever its kind. *)
Record t : Type := Mk {
  mKind : kind;
  mName : string;
  mErr : string;
  mHash : ShaHash;
  mTopo : TypeOrPyobj
}.

Global Instance t_eq_dec : EqDecision t.
Proof. solve_decision. Defined.

(** The five ways a record is built. *)
Definition ofHash (hash : ShaHash) : t := Mk Hash "" "" hash nullTopo.
Definition ofName (name : string) : t := Mk String name "" (ShaHashOf 0) nullTopo.
Definition ofNameAndTopo (name : string) (topo : TypeOrPyobj) : t :=
  Mk NameValuePair name "" (ShaHashOf 0) topo.
Definition ofTopo (topo : TypeOrPyobj) : t := Mk Topo "" "" (ShaHashOf 0) topo.
Definition Err (err : string) : t := Mk Error "" err (ShaHashOf 0) nullTopo.

(** [operator==]: the kinds are compared first, then only the member
    that the kind uses. *)
Definition eqb (a b : t) : bool :=
  if negb (bool_decide (mKind a = mKind b)) then false
  else match mKind a with
       | Hash => bool_decide (mHash a = mHash b)
       | Topo => bool_decide (mTopo a = mTopo b)
       | String => String.eqb (mName a) (mName b)
       | NameValuePair =>
           String.eqb (mName a) (mName b) && bool_decide (mTopo a = mTopo b)
       | Error => String.eqb (mErr a) (mErr b)
       end.

(** [operator==] of [std::vector<VisitRecord>]: same size and equal
    element by element. *)
Fixpoint vector_eqb (l r : list t) : bool :=
  match l, r with
  | [], [] => true
  | a :: l', b :: r' => eqb a b && vector_eqb l' r'
  | _, _ => false
  end.

(** A record that one of the five constructors can have built. *)
Definition built (r : t) : Prop :=
  (exists h, r = ofHash h) \/ (exists n, r = ofName n) \/
  (exists n o, r = ofNameAndTopo n o) \/ (exists o, r = ofTopo o) \/
  (exists e, r = Err e).

End VisitRecord.

Abbreviation VisitRecord := VisitRecord.t.

(** ** The visitor interface *)

(** The five callbacks of [LambdaVisitor].  A callback changes what the
    lambda captured by reference; [S] is the type of that captured state. *)
Record Visitor (S : Type) : Type := MkVisitor {
  visitHash : ShaHash -> S -> S;
  visitName : string -> S -> S;
  visitTopo : TypeOrPyobj -> S -> S;
  visitNamedTopo : string -> TypeOrPyobj -> S -> S;
  visitErr : string -> S -> S
}.

Arguments MkVisitor {S}.
Arguments visitHash {S}.
Arguments visitName {S}.
Arguments visitTopo {S}.
Arguments visitNamedTopo {S}.
Arguments visitErr {S}.

(** One invocation of a callback, with its arguments. *)
Inductive VisitCall : Type :=
| CallHash (h : ShaHash)
| CallName (name : string)
| CallTopo (topo : TypeOrPyobj)
| CallNamedTopo (name : string) (topo : TypeOrPyobj)
| CallErr (err : string).

Global Instance VisitCall_eq_dec : EqDecision VisitCall.
Proof. solve_decision. Defined.

(** A run of statements over a visitor, as a change of the captured state. *)
Definition Act (S : Type) : Type := S -> S.

Definition skip {S} : Act S := fun s => s.
Definition seq {S} (a b : Act S) : Act S := fun s => b (a s).
Definition for_each {S A} (l : list A) (body : A -> Act S) : Act S :=
  fun s => fold_left (fun s x => body x s) l s.

Declare Scope act_scope.
Delimit Scope act_scope with act.
Bind Scope act_scope with Act.
Notation "a ;; b" := (seq a b)
  (at level 100, b at level 200, right associativity) : act_scope.

(** Delivering one recorded call to a visitor. *)
Definition deliver {S} (v : Visitor S) (c : VisitCall) : Act S :=
  match c with
  | CallHash h => visitHash v h
  | CallName n => visitName v n
  | CallTopo o => visitTopo v o
  | CallNamedTopo n o => visitNamedTopo v n o
  | CallErr e => visitErr v e
  end.

(** ** The interpreter, as the walker sees it *)

(** Addresses of the interpreter's static objects, and of the objects that
    the walker looks up once and keeps in function-level statics.  They are
    fixed for the life of the process. *)
Module Py.
Definition Py_None : addr := 1%N.
Definition Py_True : addr := 2%N.
Definition Py_False : addr := 3%N.
Definition builtinsModule : addr := 4%N.
Definition builtinsModuleDict : addr := 5%N.
Definition PyDict_Type_tp_base : addr := 6%N.
Definition PyType_Type : addr := 7%N.
Definition PyDict_Type : addr := 8%N.
Definition PyList_Type : addr := 9%N.
Definition PySet_Type : addr := 10%N.
Definition PyLong_Type : addr := 11%N.
Definition PyUnicode_Type : addr := 12%N.
Definition PyFloat_Type : addr := 13%N.
Definition PyBytes_Type : addr := 14%N.
Definition PyBool_Type : addr := 15%N.
Definition Py_None_ob_type : addr := 16%N.
Definition PyProperty_Type : addr := 17%N.
Definition PyClassMethodDescr_Type : addr := 18%N.
Definition PyGetSetDescr_Type : addr := 19%N.
Definition PyMemberDescr_Type : addr := 20%N.
Definition PyMethodDescr_Type : addr := 21%N.
Definition PyWrapperDescr_Type : addr := 22%N.
Definition PyDictProxy_Type : addr := 23%N.
Definition _PyMethodWrapper_Type : addr := 24%N.
Definition PyCFunction_Type : addr := 25%N.
Definition PyFunction_Type : addr := 26%N.
Definition PyStaticMethod_Type : addr := 27%N.
Definition PyClassMethod_Type : addr := 28%N.
Definition environType : addr := 29%N.
Definition weakSetType : addr := 30%N.
Definition weakKeyDictType : addr := 31%N.
Definition weakValueDictType : addr := 32%N.
Definition sysModuleModules : addr := 33%N.
End Py.

(** The members of [PyCodeObject] that the walker's block names, read or
    commented out. *)
Record PyCodeObject : Type := MkPyCodeObject {
  co_argcount : Z;
  co_kwonlyargcount : Z;
  co_nlocals : Z;
  co_stacksize : Z;
  co_flags : Z;
  co_firstlineno : Z;
  co_code : addr;
  co_consts : addr;
  co_names : addr;
  co_varnames : addr;
  co_freevars : addr;
  co_cellvars : addr;
  co_filename : addr;
  co_name : addr;
  (** [co_linetable] from Python 3.10 on, [co_lnotab] before *)
  co_linetable : addr
}.

Record PyFunctionObject : Type := MkPyFunctionObject {
  func_closure : addr;
  func_name : addr;
  func_code : addr;
  func_globals : addr;
  func_annotations : addr;
  func_defaults : addr;
  func_kwdefaults : addr
}.

Record PyTypeObject : Type := MkPyTypeObject {
  tp_name : string;
  tp_dict : addr;
  tp_bases : addr
}.

(** What the interpreter and the rest of typed_python answer to the calls
    of the walker.  A call that fails returns [NULL].  Nothing is assumed
    about how the answers relate to each other.

    [PyUnicode_AsUTF8] gives the C string at the [char*] that the call
    returns, which is what the walker makes a [std::string] of: the UTF-8
    bytes of the [str] up to its first NUL.  Two different [str] can so
    have the same name.  The call returns no [char*] for a [str] that has
    no UTF-8 encoding (a lone surrogate), and the walker, which does not
    check, throws [std::logic_error] there: that exception is not
    modelled, and what is proved of a walk is proved of a walk that met
    no such [str]. *)
Record PyRuntime : Type := MkPyRuntime {
  ob_type : addr -> addr;
  PyLong_Check : addr -> bool;
  PyBytes_Check : addr -> bool;
  PyUnicode_Check : addr -> bool;
  PyFloat_Check : addr -> bool;
  PyDict_Check : addr -> bool;
  PyTuple_Check : addr -> bool;
  PySet_Check : addr -> bool;
  PyList_Check : addr -> bool;
  PyModule_Check : addr -> bool;
  PyType_Check : addr -> bool;
  PyCode_Check : addr -> bool;
  PyFunction_Check : addr -> bool;
  PyCell_Check : addr -> bool;
  PyObject_HasAttrString : addr -> string -> bool;
  PyObject_GetAttrString : addr -> string -> addr;
  PyObject_GetAttr : addr -> addr -> addr;
  PyObject_GetItem : addr -> addr -> addr;
  PyUnicode_AsUTF8 : addr -> string;
  PyDict_GetItem : addr -> addr -> addr;
  PyTuple_Size : addr -> Z;
  PyTuple_GetItem : addr -> Z -> addr;
  PyCell_Get : addr -> addr;
  PyDescr_TYPE : addr -> addr;
  PyDescr_NAME : addr -> addr;
  PyBytes_AsString : addr -> string;
  PyBytes_GET_SIZE : addr -> Z;
  (** [iterate(o, f)] of util.hpp: the items that iterating [o] yields *)
  iterate : addr -> list addr;
  (** the object behind a pointer, read as the struct it is cast to *)
  asCode : addr -> PyCodeObject;
  asFunction : addr -> PyFunctionObject;
  asType : addr -> PyTypeObject;
  (** [PyInstance::extractTypeFrom] *)
  extractTypeFrom : addr -> addr;
  (** [Type::visitCompilerVisibleInternals]: the calls it makes *)
  visitCompilerVisibleInternals : addr -> list VisitCall;
  (** [Function::Overload::visitCompilerVisibleGlobals]: the pairs it
      hands to its callback, for a code object and a globals dict *)
  visitCompilerVisibleGlobals : addr -> addr -> list (string * addr)
}.

Definition PyFunction_GetCode (rt : PyRuntime) (f : addr) : addr :=
  func_code (asFunction rt f).
Definition PyFunction_GetAnnotations (rt : PyRuntime) (f : addr) : addr :=
  func_annotations (asFunction rt f).
Definition PyFunction_GetDefaults (rt : PyRuntime) (f : addr) : addr :=
  func_defaults (asFunction rt f).
Definition PyFunction_GetKwDefaults (rt : PyRuntime) (f : addr) : addr :=
  func_kwdefaults (asFunction rt f).

(** ** The error indicator of the interpreter *)

(** [true] when an exception is pending. *)
Definition PyErr : Type := bool.

(** A piece of code that may set or clear the error indicator. *)
Definition PyM (A : Type) : Type := PyErr -> A * PyErr.

Definition py_ret {A} (a : A) : PyM A := fun e => (a, e).
Definition py_bind {A B} (m : PyM A) (k : A -> PyM B) : PyM B :=
  fun e => let (a, e') := m e in k a e'.
Definition PyErr_Clear : PyM unit := fun _ => (tt, false).
(** A call that returns [NULL] with an exception set when it fails. *)
Definition orRaise (p : addr) : PyM addr :=
  fun e => (p, if isNull p then true else e).
(** [PyObject_HasAttrString] clears the exception of a failed lookup. *)
Definition hasAttrString (rt : PyRuntime) (h : addr) (name : string) : PyM bool :=
  fun e => let b := PyObject_HasAttrString rt h name in (b, if b then e else false).

Declare Scope py_scope.
Delimit Scope py_scope with py.
Notation "'let*' x := m 'in' k" := (py_bind m (fun x => k))
  (at level 10, x name, m at level 100, k at level 200) : py_scope.
Notation "'return_' a" := (py_ret a) (at level 10) : py_scope.

(** ** The canonical-identity resolver *)

Definition isPyObjectGloballyIdentifiable (rt : PyRuntime) (h : addr) : PyM bool :=
  (let* hasModule := hasAttrString rt h "__module__" in
   let* hasName := if hasModule then hasAttrString rt h "__name__" else py_ret false in
   if hasModule && hasName then
     let* moduleName := orRaise (PyObject_GetAttrString rt h "__module__") in
     if isNull moduleName then let* _ := PyErr_Clear in return_ false else
     let* clsName := orRaise (PyObject_GetAttrString rt h "__name__") in
     if isNull clsName then let* _ := PyErr_Clear in return_ false else
     if negb (PyUnicode_Check rt moduleName) || negb (PyUnicode_Check rt clsName)
     then return_ false else
     let* moduleObject := orRaise (PyObject_GetItem rt Py.sysModuleModules moduleName) in
     if isNull moduleObject then let* _ := PyErr_Clear in return_ false else
     let* obj := orRaise (PyObject_GetAttr rt moduleObject clsName) in
     if isNull obj then let* _ := PyErr_Clear in return_ false else
     if N.eqb obj h then return_ true else return_ false
   else return_ false)%py.

(** The value a [PyM] computation returns when no exception is pending
    before it. *)
Definition evalPy {A} (m : PyM A) : A := fst (m false).

Definition isPyObjectGloballyIdentifiableAndStable (rt : PyRuntime) (h : addr) : bool :=
  if evalPy (isPyObjectGloballyIdentifiable rt h) then
    let moduleName := PyUnicode_AsUTF8 rt (PyObject_GetAttrString rt h "__module__") in
    if isCanonicalName moduleName || N.eqb (ob_type rt h) Py.PyCFunction_Type
    then true else false
  else false.

Definition isSimpleConstant (rt : PyRuntime) (h : addr) : bool :=
     N.eqb h Py.Py_None
  || N.eqb h Py.Py_True
  || N.eqb h Py.Py_False
  || PyLong_Check rt h
  || PyBytes_Check rt h
  || PyUnicode_Check rt h
  || N.eqb h Py.builtinsModule
  || N.eqb h Py.builtinsModuleDict
  || N.eqb h Py.PyDict_Type_tp_base
  || N.eqb h Py.PyType_Type
  || N.eqb h Py.PyDict_Type
  || N.eqb h Py.PyList_Type
  || N.eqb h Py.PySet_Type
  || N.eqb h Py.PyLong_Type
  || N.eqb h Py.PyUnicode_Type
  || N.eqb h Py.PyFloat_Type
  || N.eqb h Py.PyBytes_Type
  || N.eqb h Py.PyBool_Type
  || N.eqb h Py.Py_None_ob_type
  || N.eqb h Py.PyProperty_Type
  || N.eqb h Py.PyClassMethodDescr_Type
  || N.eqb h Py.PyGetSetDescr_Type
  || N.eqb h Py.PyMemberDescr_Type
  || N.eqb h Py.PyMethodDescr_Type
  || N.eqb h Py.PyWrapperDescr_Type
  || N.eqb h Py.PyDictProxy_Type
  || N.eqb h Py._PyMethodWrapper_Type
  || N.eqb h Py.PyCFunction_Type
  || N.eqb h Py.PyFunction_Type
  || PyFloat_Check rt h
  || N.eqb (ob_type rt h) Py.PyProperty_Type
  || N.eqb (ob_type rt h) Py.PyGetSetDescr_Type
  || N.eqb (ob_type rt h) Py.PyMemberDescr_Type
  || N.eqb (ob_type rt h) Py.PyWrapperDescr_Type
  || N.eqb (ob_type rt h) Py.PyDictProxy_Type
  || N.eqb (ob_type rt h) Py._PyMethodWrapper_Type.

(** ** The walker *)

(** [walk] is a chain of [if (guard) { block; return; }] statements that
    ends in a fallback.  Here the chain of guards is [dispatch], which
    names the block whose guard is the first to hold, each block is a
    definition of its own ([walkCode], [walkFunction], ...), and [walk]
    runs the block that [dispatch] names.

    The blocks of [walk], in the order in which their guards are tried: *)
Inductive Rule : Type :=
| RuleType | RuleEnviron | RuleSimpleConstant | RuleInstance
| RuleCanonicalModule | RuleGloballyIdentifiable | RuleWrappedType
| RuleCode | RuleFunction | RuleClass | RuleMethodWrapper | RuleTuple
| RuleMutableContainer | RuleCell | RuleMethodDescr | RuleFallback.

Global Instance Rule_eq_dec : EqDecision Rule.
Proof. solve_decision. Defined.

(** The guard of the block that stops the walk at a canonical module. *)
Definition isCanonicalModule (rt : PyRuntime) (h : addr) : bool :=
  PyModule_Check rt h &&
  let name := PyObject_GetAttrString rt h "__name__" in
  negb (isNull name) && PyUnicode_Check rt name &&
  let moduleObject := PyObject_GetItem rt Py.sysModuleModules name in
  negb (isNull moduleObject) && N.eqb moduleObject h &&
  isCanonicalName (PyUnicode_AsUTF8 rt name).

(** The guards of [walk] that come after the check for a global name, top
    to bottom: the blocks that look into the object. *)
Definition dispatchStructural (rt : PyRuntime) (h : addr) : Rule :=
  if PyType_Check rt h && negb (isNull (extractTypeFrom rt h)) then RuleWrappedType else
  if PyCode_Check rt h then RuleCode else
  if PyFunction_Check rt h then RuleFunction else
  if PyType_Check rt h then RuleClass else
  if N.eqb (ob_type rt h) Py.PyStaticMethod_Type
     || N.eqb (ob_type rt h) Py.PyClassMethod_Type then RuleMethodWrapper else
  if PyTuple_Check rt h then RuleTuple else
  if PyDict_Check rt h || PySet_Check rt h || PyList_Check rt h
     || N.eqb (ob_type rt h) Py.weakSetType
     || N.eqb (ob_type rt h) Py.weakKeyDictType
     || N.eqb (ob_type rt h) Py.weakValueDictType then RuleMutableContainer else
  if PyCell_Check rt h then RuleCell else
  if N.eqb (ob_type rt h) Py.PyClassMethodDescr_Type
     || N.eqb (ob_type rt h) Py.PyMethodDescr_Type then RuleMethodDescr else
  RuleFallback.

(** The guards of [walk], top to bottom: the block that handles [obj]. *)
Definition dispatch (rt : PyRuntime) (obj : TypeOrPyobj) : Rule :=
  if negb (isNull (mType obj)) then RuleType else
  let h := mPyObj obj in
  if N.eqb (ob_type rt h) Py.environType then RuleEnviron else
  if isSimpleConstant rt h then RuleSimpleConstant else
  if negb (isNull (extractTypeFrom rt (ob_type rt h))) then RuleInstance else
  if isCanonicalModule rt h then RuleCanonicalModule else
  if isPyObjectGloballyIdentifiableAndStable rt h then RuleGloballyIdentifiable else
  dispatchStructural rt h.

(** [std::map<std::string, PyObject*>]: the entries in increasing key
    order.  [map_assign names k v] is [names[k] = v]. *)
Fixpoint map_assign (names : list (string * addr)) (k : string) (v : addr)
  : list (string * addr) :=
  match names with
  | [] => [(k, v)]
  | (k', v') :: rest =>
      match String.compare k k' with
      | Lt => (k, v) :: (k', v') :: rest
      | Eq => (k, v) :: rest
      | Gt => (k', v') :: map_assign rest k v
      end
  end.

(** The filter of [visitDict].  [isSpecialIgnorableName] returns a value
    on every name (this is proved below), so the default is never taken. *)
Definition ignoredName (ignoreSpecialNames : bool) (name : string) : bool :=
  ignoreSpecialNames && default false (isSpecialIgnorableName name).

(** The body of the lambda that [visitDict] hands to [iterate]: a string
    key that the filter lets through is entered under its name, the C
    string of [PyUnicode_AsUTF8]; it takes the place of a key entered
    under that name before. *)
Definition collectName (rt : PyRuntime) (ignoreSpecialNames : bool)
    (names : list (string * addr)) (o : addr) : list (string * addr) :=
  if PyUnicode_Check rt o then
    let name := PyUnicode_AsUTF8 rt o in
    if negb (ignoredName ignoreSpecialNames name)
    then map_assign names name o else names
  else names.

(** The names that [visitDict] collects from a dict, sorted. *)
Definition collectNames (rt : PyRuntime) (d : addr) (ignoreSpecialNames : bool)
  : list (string * addr) :=
  fold_left (collectName rt ignoreSpecialNames) (iterate rt d) [].

Section Walk.
Context {S : Type} (visitor : Visitor S) (rt : PyRuntime).

Local Open Scope act_scope.

Definition visitDict (d : addr) (ignoreSpecialNames : bool) : Act S :=
  if isNull d then visitHash visitor (ShaHashOf 0)
  else if negb (PyDict_Check rt d) then
    visitErr visitor
      (String.append "not a dict: " (tp_name (asType rt (ob_type rt d))))
  else
    let names := collectNames rt d ignoreSpecialNames in
    visitHash visitor (ShaHashOf (Z.of_nat (length names))) ;;
    for_each names (fun nameAndO =>
      let val := PyDict_GetItem rt d (snd nameAndO) in
      if isNull val then visitErr visitor "dict getitem empty"
      else visitNamedTopo visitor (fst nameAndO) (ofPyobj val)).

Definition visitTuple (t : addr) : Act S :=
  if isNull t then visitHash visitor (ShaHashOf 0)
  else
    visitHash visitor (ShaHashOf (PyTuple_Size rt t)) ;;
    for_each (seqZ 0 (PyTuple_Size rt t)) (fun k =>
      visitTopo visitor (ofPyobj (PyTuple_GetItem rt t k))).

Definition visitDictOrTuple (t : addr) : Act S :=
  if isNull t then visitHash visitor (ShaHashOf 0)
  else if PyDict_Check rt t then visitDict t false
  else if PyTuple_Check rt t then visitTuple t
  else visitErr visitor "not a dict or tuple".

Definition walkType (objType : addr) : Act S :=
  visitHash visitor (ShaHashOf 1) ;;
  for_each (visitCompilerVisibleInternals rt objType) (deliver visitor).

Definition walkEnviron : Act S := visitHash visitor (ShaHashOf 13).

Definition walkInstance (h : addr) : Act S :=
  visitHash visitor (ShaHashOf 2) ;;
  visitTopo visitor (ofType (extractTypeFrom rt (ob_type rt h))).

Definition walkCanonicalModule (h : addr) : Act S :=
  let moduleName := PyUnicode_AsUTF8 rt (PyObject_GetAttrString rt h "__name__") in
  visitHash visitor (ShaHashOf 12) ;;
  visitName visitor moduleName.

Definition walkGloballyIdentifiable (h : addr) : Act S :=
  let moduleName := PyUnicode_AsUTF8 rt (PyObject_GetAttrString rt h "__module__") in
  let clsName := PyUnicode_AsUTF8 rt (PyObject_GetAttrString rt h "__name__") in
  visitHash visitor (ShaHashOf 2) ;;
  visitName visitor (String.append moduleName (String.append "|" clsName)).

Definition walkWrappedType (h : addr) : Act S :=
  visitHash visitor (ShaHashOf 3) ;;
  visitTopo visitor (ofType (extractTypeFrom rt h)).

Definition walkCode (h : addr) : Act S :=
  let co := asCode rt h in
  visitHash visitor (ShaHashOf 4) ;;
  visitHash visitor (ShaHashOf (co_argcount co)) ;;
  visitHash visitor (ShaHashOf (co_kwonlyargcount co)) ;;
  visitHash visitor (ShaHashOf (co_nlocals co)) ;;
  visitHash visitor (ShaHashOf (co_stacksize co)) ;;
  visitHash visitor (ShaHashOf (co_firstlineno co)) ;;
  visitHash visitor
    (SHA1 (String.substring 0 (Z.to_nat (PyBytes_GET_SIZE rt (co_code co)))
             (PyBytes_AsString rt (co_code co)))) ;;
  visitTuple (co_consts co) ;;
  visitTuple (co_names co) ;;
  visitTuple (co_varnames co) ;;
  visitTuple (co_freevars co) ;;
  visitTuple (co_cellvars co) ;;
  visitTopo visitor (ofPyobj (co_name co)) ;;
  visitTopo visitor (ofPyobj (co_linetable co)).

(** The closure part of the function block. *)
Definition walkClosure (func_closure : addr) : Act S :=
  if negb (isNull func_closure) then
    visitHash visitor (ShaHashOf (PyTuple_Size rt func_closure)) ;;
    for_each (seqZ 0 (PyTuple_Size rt func_closure)) (fun k =>
      let o := PyTuple_GetItem rt func_closure k in
      if negb (isNull o) && PyCell_Check rt o
      then visitTopo visitor (ofPyobj o) else skip)
  else visitHash visitor (ShaHashOf 0).

(** The globals part of the function block. *)
Definition walkGlobals (f : PyFunctionObject) : Act S :=
  if negb (isNull (func_globals f)) && PyDict_Check rt (func_globals f) then
    for_each (visitCompilerVisibleGlobals rt (func_code f) (func_globals f))
      (fun nameAndVal =>
         if negb (default false (isSpecialIgnorableName (fst nameAndVal)))
         then visitNamedTopo visitor (fst nameAndVal) (ofPyobj (snd nameAndVal))
         else skip)
  else skip.

(** What the function block does after the closure. *)
Definition walkFunctionRest (h : addr) : Act S :=
  let f := asFunction rt h in
  visitTopo visitor (ofPyobj (func_name f)) ;;
  visitTopo visitor (ofPyobj (PyFunction_GetCode rt h)) ;;
  visitDictOrTuple (PyFunction_GetAnnotations rt h) ;;
  visitTuple (PyFunction_GetDefaults rt h) ;;
  visitDictOrTuple (PyFunction_GetKwDefaults rt h) ;;
  visitHash visitor (ShaHashOf 1) ;;
  walkGlobals f ;;
  visitHash visitor (ShaHashOf 0).

Definition walkFunction (h : addr) : Act S :=
  visitHash visitor (ShaHashOf 5) ;;
  walkClosure (func_closure (asFunction rt h)) ;;
  walkFunctionRest h.

Definition walkClass (h : addr) : Act S :=
  let tp := asType rt h in
  visitHash visitor (ShaHashOf 6) ;;
  visitHash visitor (ShaHashOf 0) ;;
  (if negb (isNull (tp_dict tp)) then visitDict (tp_dict tp) true else skip) ;;
  visitHash visitor (ShaHashOf 0) ;;
  (if negb (isNull (tp_bases tp)) then
     for_each (iterate rt (tp_bases tp)) (fun t => visitTopo visitor (ofPyobj t))
   else skip) ;;
  visitHash visitor (ShaHashOf 0).

Definition walkMethodWrapper (h : addr) : Act S :=
  (if N.eqb (ob_type rt h) Py.PyStaticMethod_Type
   then visitHash visitor (ShaHashOf 7)
   else visitHash visitor (ShaHashOf 8)) ;;
  let funcObj := PyObject_GetAttrString rt h "__func__" in
  if isNull funcObj then visitErr visitor "not a func obj"
  else visitTopo visitor (ofPyobj funcObj).

Definition walkTuple (h : addr) : Act S :=
  visitHash visitor (ShaHashOf 9) ;;
  visitHash visitor (ShaHashOf (PyTuple_Size rt h)) ;;
  for_each (seqZ 0 (PyTuple_Size rt h)) (fun k =>
    visitTopo visitor (ofPyobj (PyTuple_GetItem rt h k))).

Definition walkMutableContainer (h : addr) : Act S :=
  visitHash visitor (ShaHashOf 10) ;;
  visitTopo visitor (ofPyobj (ob_type rt h)).

Definition walkCell (h : addr) : Act S :=
  visitHash visitor (ShaHashOf 11) ;;
  if negb (isNull (PyCell_Get rt h)) then
    visitHash visitor (ShaHashOf 1) ;;
    visitTopo visitor (ofPyobj (PyCell_Get rt h))
  else visitHash visitor (ShaHashOf 0).

Definition walkMethodDescr (h : addr) : Act S :=
  visitTopo visitor (ofPyobj (PyDescr_TYPE rt h)) ;;
  visitTopo visitor (ofPyobj (PyDescr_NAME rt h)).

Definition walkFallback (h : addr) : Act S :=
  visitTopo visitor (ofPyobj (ob_type rt h)).

(** [walk(obj, visitor)]: the block of the first guard that holds runs
    and returns. *)
Definition walk (obj : TypeOrPyobj) : Act S :=
  let h := mPyObj obj in
  match dispatch rt obj with
  | RuleType => walkType (mType obj)
  | RuleEnviron => walkEnviron
  | RuleSimpleConstant => skip
  | RuleInstance => walkInstance h
  | RuleCanonicalModule => walkCanonicalModule h
  | RuleGloballyIdentifiable => walkGloballyIdentifiable h
  | RuleWrappedType => walkWrappedType h
  | RuleCode => walkCode h
  | RuleFunction => walkFunction h
  | RuleClass => walkClass h
  | RuleMethodWrapper => walkMethodWrapper h
  | RuleTuple => walkTuple h
  | RuleMutableContainer => walkMutableContainer h
  | RuleCell => walkCell h
  | RuleMethodDescr => walkMethodDescr h
  | RuleFallback => walkFallback h
  end.

End Walk.

(** ** Recording a walk *)

(** The five lambdas of [recordWalk]: each pushes one record at the back. *)
Definition recorder : Visitor (list VisitRecord) :=
  MkVisitor
    (fun h records => records ++ [VisitRecord.ofHash h])
    (fun h records => records ++ [VisitRecord.ofName h])
    (fun o records => records ++ [VisitRecord.ofTopo o])
    (fun n o records => records ++ [VisitRecord.ofNameAndTopo n o])
    (fun err records => records ++ [VisitRecord.Err err]).

Definition recordWalk (rt : PyRuntime) (obj : TypeOrPyobj) : list VisitRecord :=
  walk recorder rt obj [].

(** A visitor that only logs the calls it receives, in order. *)
Definition tracer : Visitor (list VisitCall) :=
  MkVisitor
    (fun h calls => calls ++ [CallHash h])
    (fun n calls => calls ++ [CallName n])
    (fun o calls => calls ++ [CallTopo o])
    (fun n o calls => calls ++ [CallNamedTopo n o])
    (fun err calls => calls ++ [CallErr err]).

(** The record that [recordWalk]'s lambda for a call pushes. *)
Definition recordOfCall (c : VisitCall) : VisitRecord :=
  match c with
  | CallHash h => VisitRecord.ofHash h
  | CallName n => VisitRecord.ofName n
  | CallTopo o => VisitRecord.ofTopo o
  | CallNamedTopo n o => VisitRecord.ofNameAndTopo n o
  | CallErr e => VisitRecord.Err e
  end.

(** ** The walk cache and the stability verifier *)

(** The interpreter is shared mutable state: what a walk reads may have
    changed since the walk before it.  [w n] is the interpreter as the
    walk number [n] of the process finds it. *)
Definition World : Type := nat -> PyRuntime.

(** The visitor singleton: its cache, and how many walks it has made. *)
Record VisitorState : Type := MkVisitorState {
  mPastVisits : gmap TypeOrPyobj (list VisitRecord);
  clock : nat
}.

Definition tick (st : VisitorState) : VisitorState :=
  MkVisitorState (mPastVisits st) (Datatypes.S (clock st)).

(** What the two [throw std::runtime_error] carry.  The message of the
    first is kept as data: the number of unstable objects and, for each of
    the first thousand, the object, its records now and its stored records
    (the message prints them side by side). *)
Inductive runtime_error : Type :=
| FoundUnstableObjects
    (count : nat)
    (report : list (TypeOrPyobj * list VisitRecord * list VisitRecord))
| InstabilityCheckDidNotThrow (obj : TypeOrPyobj).

(** The first loop of [checkForInstability]: the cached objects whose walk
    no longer gives the stored records, in iteration order, and the clock
    after the loop. *)
Fixpoint findUnstable (w : World) (now : nat)
    (entries : list (TypeOrPyobj * list VisitRecord)) : list TypeOrPyobj * nat :=
  match entries with
  | [] => ([], now)
  | (node, stored) :: rest =>
      let fresh := recordWalk (w now) node in
      let (unstable, now') := findUnstable w (Datatypes.S now) rest in
      (if negb (VisitRecord.vector_eqb stored fresh)
       then node :: unstable else unstable, now')
  end.

(** The second loop: each reported object is walked once more. *)
Fixpoint reportUnstable (w : World) (now : nat)
    (cache : gmap TypeOrPyobj (list VisitRecord)) (unstable : list TypeOrPyobj)
  : list (TypeOrPyobj * list VisitRecord * list VisitRecord) :=
  match unstable with
  | [] => []
  | node :: rest =>
      (node, recordWalk (w now) node, default [] (cache !! node))
        :: reportUnstable w (Datatypes.S now) cache rest
  end.

Definition checkForInstability (w : World) (st : VisitorState)
  : runtime_error + VisitorState :=
  let (unstable, now) :=
    findUnstable w (clock st) (map_to_list (mPastVisits st)) in
  if Nat.eqb (length unstable) 0 then inr (MkVisitorState (mPastVisits st) now)
  else inl (FoundUnstableObjects (length unstable)
              (reportUnstable w now (mPastVisits st) (take 1000 unstable))).

Definition visit {S : Type} (w : World) (st : VisitorState) (obj : TypeOrPyobj)
    (visitor : Visitor S) (s : S) : runtime_error + (VisitorState * S) :=
  let records := recordWalk (w (clock st)) obj in
  let st := tick st in
  match mPastVisits st !! obj with
  | None =>
      let st := MkVisitorState (<[obj := records]> (mPastVisits st)) (clock st) in
      inr (tick st, walk visitor (w (clock st)) obj s)
  | Some stored =>
      if negb (VisitRecord.vector_eqb stored records) then
        match checkForInstability w st with
        | inl e => inl e
        | inr _ => inl (InstabilityCheckDidNotThrow obj)
        end
      else inr (tick st, walk visitor (w (clock st)) obj s)
  end.

Definition resetCache (st : VisitorState) : VisitorState :=
  MkVisitorState ∅ (clock st).

(** Some cached object, walked at its turn of the scan (the cache is
    scanned in iteration order, one walk per entry), no longer gives the
    records that the cache holds for it. *)
Definition someUnstable (w : World) (st : VisitorState) : Prop :=
  exists (i : nat) node stored,
    map_to_list (mPastVisits st) !! i = Some (node, stored) /\
    VisitRecord.vector_eqb stored (recordWalk (w (clock st + i)%nat) node) = false.

(** ** The records of the walker's blocks, written out *)

(** The items of a tuple, as the loops over [PyTuple_Size] and
    [PyTuple_GetItem] meet them. *)
Definition tupleItems (rt : PyRuntime) (t : addr) : list addr :=
  map (PyTuple_GetItem rt t) (seqZ 0 (PyTuple_Size rt t)).

(** An ordered sequence: its length, then a reference to each item in
    order; a zero marker when there is no sequence. *)
Definition sequenceRecords (rt : PyRuntime) (t : addr) : list VisitRecord :=
  if isNull t then [VisitRecord.ofHash (ShaHashOf 0)]
  else VisitRecord.ofHash (ShaHashOf (PyTuple_Size rt t))
         :: map (fun o => VisitRecord.ofTopo (ofPyobj o)) (tupleItems rt t).

(** The record of one (name, value) pair of a mapping; a value that the
    dict no longer has is an error entry. *)
Definition pairRecord (p : string * addr) : VisitRecord :=
  if isNull (snd p) then VisitRecord.Err "dict getitem empty"
  else VisitRecord.ofNameAndTopo (fst p) (ofPyobj (snd p)).

(** A key is entered by [visitDict]: it is a string and the filter lets
    its name through. *)
Definition survives (rt : PyRuntime) (ignoreSpecialNames : bool) (o : addr) : bool :=
  PyUnicode_Check rt o
  && negb (ignoredName ignoreSpecialNames (PyUnicode_AsUTF8 rt o)).

(** The (name, value) pairs of the keys [keys] of the dict [d] that are
    entered, in the order of [keys]. *)
Definition survivingOf (rt : PyRuntime) (d : addr) (ignoreSpecialNames : bool)
    (keys : list addr) : list (string * addr) :=
  omap (fun o =>
          if survives rt ignoreSpecialNames o
          then Some (PyUnicode_AsUTF8 rt o, PyDict_GetItem rt d o) else None)
       keys.

(** The string-keyed entries of a dict that the filter lets through, as
    (name, value) pairs in the dict's iteration order. *)
Definition survivingEntries (rt : PyRuntime) (d : addr) (ignoreSpecialNames : bool)
  : list (string * addr) :=
  survivingOf rt d ignoreSpecialNames (iterate rt d).

(** The collected (name, key) pairs, each with the value that the dict
    [d] has for the key. *)
Definition valued (rt : PyRuntime) (d : addr) (names : list (string * addr))
  : list (string * addr) :=
  map (fun nameAndO => (fst nameAndO, PyDict_GetItem rt d (snd nameAndO))) names.

(** The order of the entries of a [std::map] keyed by strings. *)
Definition byName (p q : string * addr) : Prop := StdString.lt (fst p) (fst q).

(** A name -> value mapping: the count of the collected names, then a
    named reference for each in the order of the sorted names. *)
Definition dictRecords (rt : PyRuntime) (d : addr) (ignoreSpecialNames : bool)
  : list VisitRecord :=
  if isNull d then [VisitRecord.ofHash (ShaHashOf 0)]
  else if negb (PyDict_Check rt d) then
    [VisitRecord.Err (String.append "not a dict: " (tp_name (asType rt (ob_type rt d))))]
  else
    let names := collectNames rt d ignoreSpecialNames in
    VisitRecord.ofHash (ShaHashOf (Z.of_nat (length names)))
      :: map (fun nameAndO =>
                pairRecord (fst nameAndO, PyDict_GetItem rt d (snd nameAndO)))
             names.

(** An attribute that is decomposed by its shape: a mapping as a mapping,
    an ordered sequence as a sequence, a zero marker when absent. *)
Definition dictOrTupleRecords (rt : PyRuntime) (t : addr) : list VisitRecord :=
  if isNull t then [VisitRecord.ofHash (ShaHashOf 0)]
  else if PyDict_Check rt t then dictRecords rt t false
  else if PyTuple_Check rt t then sequenceRecords rt t
  else [VisitRecord.Err "not a dict or tuple"].

(** The closure of a function: the length of the closure tuple, then a
    reference to each item that is a cell. *)
Definition closureRecords (rt : PyRuntime) (func_closure : addr) : list VisitRecord :=
  if isNull func_closure then [VisitRecord.ofHash (ShaHashOf 0)]
  else VisitRecord.ofHash (ShaHashOf (PyTuple_Size rt func_closure))
         :: map (fun o => VisitRecord.ofTopo (ofPyobj o))
              (List.filter (fun o => negb (isNull o) && PyCell_Check rt o)
                 (tupleItems rt func_closure)).

(** The globals that the code of a function refers to, without the
    ignorable names. *)
Definition globalsRecords (rt : PyRuntime) (f : PyFunctionObject) : list VisitRecord :=
  if negb (isNull (func_globals f)) && PyDict_Check rt (func_globals f) then
    map (fun p => VisitRecord.ofNameAndTopo (fst p) (ofPyobj (snd p)))
      (List.filter (fun p => negb (default false (isSpecialIgnorableName (fst p))))
         (visitCompilerVisibleGlobals rt (func_code f) (func_globals f)))
  else [].

(** The raw instruction bytes of a code object. *)
Definition codeBytes (rt : PyRuntime) (co : PyCodeObject) : string :=
  String.substring 0 (Z.to_nat (PyBytes_GET_SIZE rt (co_code co)))
    (PyBytes_AsString rt (co_code co)).

(** The records of a code object. *)
Definition codeRecords (rt : PyRuntime) (co : PyCodeObject) : list VisitRecord :=
  [ VisitRecord.ofHash (ShaHashOf 4);
    VisitRecord.ofHash (ShaHashOf (co_argcount co));
    VisitRecord.ofHash (ShaHashOf (co_kwonlyargcount co));
    VisitRecord.ofHash (ShaHashOf (co_nlocals co));
    VisitRecord.ofHash (ShaHashOf (co_stacksize co));
    VisitRecord.ofHash (ShaHashOf (co_firstlineno co));
    VisitRecord.ofHash (SHA1 (codeBytes rt co)) ]
  ++ sequenceRecords rt (co_consts co)
  ++ sequenceRecords rt (co_names co)
  ++ sequenceRecords rt (co_varnames co)
  ++ sequenceRecords rt (co_freevars co)
  ++ sequenceRecords rt (co_cellvars co)
  ++ [ VisitRecord.ofTopo (ofPyobj (co_name co));
       VisitRecord.ofTopo (ofPyobj (co_linetable co)) ].

(** The records of a function object after its closure. *)
Definition functionRestRecords (rt : PyRuntime) (h : addr) : list VisitRecord :=
  [ VisitRecord.ofTopo (ofPyobj (func_name (asFunction rt h)));
    VisitRecord.ofTopo (ofPyobj (PyFunction_GetCode rt h)) ]
  ++ dictOrTupleRecords rt (PyFunction_GetAnnotations rt h)
  ++ sequenceRecords rt (PyFunction_GetDefaults rt h)
  ++ dictOrTupleRecords rt (PyFunction_GetKwDefaults rt h)
  ++ [ VisitRecord.ofHash (ShaHashOf 1) ]
  ++ globalsRecords rt (asFunction rt h)
  ++ [ VisitRecord.ofHash (ShaHashOf 0) ].

(** The same code object with other flags and another file name. *)
Definition relocated (co : PyCodeObject) (flags : Z) (filename : addr) : PyCodeObject :=
  MkPyCodeObject (co_argcount co) (co_kwonlyargcount co) (co_nlocals co)
    (co_stacksize co) flags (co_firstlineno co) (co_code co) (co_consts co)
    (co_names co) (co_varnames co) (co_freevars co) (co_cellvars co)
    filename (co_name co) (co_linetable co).

(** The same interpreter, in which the code objects are read through [f]. *)
Definition withCode (rt : PyRuntime) (f : PyCodeObject -> PyCodeObject) : PyRuntime :=
  {| ob_type := ob_type rt;
     PyLong_Check := PyLong_Check rt;
     PyBytes_Check := PyBytes_Check rt;
     PyUnicode_Check := PyUnicode_Check rt;
     PyFloat_Check := PyFloat_Check rt;
     PyDict_Check := PyDict_Check rt;
     PyTuple_Check := PyTuple_Check rt;
     PySet_Check := PySet_Check rt;
     PyList_Check := PyList_Check rt;
     PyModule_Check := PyModule_Check rt;
     PyType_Check := PyType_Check rt;
     PyCode_Check := PyCode_Check rt;
     PyFunction_Check := PyFunction_Check rt;
     PyCell_Check := PyCell_Check rt;
     PyObject_HasAttrString := PyObject_HasAttrString rt;
     PyObject_GetAttrString := PyObject_GetAttrString rt;
     PyObject_GetAttr := PyObject_GetAttr rt;
     PyObject_GetItem := PyObject_GetItem rt;
     PyUnicode_AsUTF8 := PyUnicode_AsUTF8 rt;
     PyDict_GetItem := PyDict_GetItem rt;
     PyTuple_Size := PyTuple_Size rt;
     PyTuple_GetItem := PyTuple_GetItem rt;
     PyCell_Get := PyCell_Get rt;
     PyDescr_TYPE := PyDescr_TYPE rt;
     PyDescr_NAME := PyDescr_NAME rt;
     PyBytes_AsString := PyBytes_AsString rt;
     PyBytes_GET_SIZE := PyBytes_GET_SIZE rt;
     iterate := iterate rt;
     asCode := fun a => f (asCode rt a);
     asFunction := asFunction rt;
     asType := asType rt;
     extractTypeFrom := extractTypeFrom rt;
     visitCompilerVisibleInternals := visitCompilerVisibleInternals rt;
     visitCompilerVisibleGlobals := visitCompilerVisibleGlobals rt |}.

(** The round trip of the canonical-identity resolver fails: a lookup of
    the module qualifier or of the local name fails or gives something that
    is not a string, the module registry has no such module, the module has
    no such member, or the member is another object. *)
Definition roundTripFails (rt : PyRuntime) (h : addr) : Prop :=
  let moduleName := PyObject_GetAttrString rt h "__module__" in
  let clsName := PyObject_GetAttrString rt h "__name__" in
  let moduleObject := PyObject_GetItem rt Py.sysModuleModules moduleName in
  let obj := PyObject_GetAttr rt moduleObject clsName in
  PyObject_HasAttrString rt h "__module__" = false \/
  PyObject_HasAttrString rt h "__name__" = false \/
  moduleName = NULL \/ clsName = NULL \/
  PyUnicode_Check rt moduleName = false \/ PyUnicode_Check rt clsName = false \/
  moduleObject = NULL \/ obj = NULL \/ obj <> h.

(** The positional defaults of a function are no defaults ([NULL]) or a
    tuple: [PyFunction_SetDefaults] and the setter of [__defaults__]
    refuse anything else. *)
Definition defaultsAreTuple (rt : PyRuntime) (h : addr) : Prop :=
  let defaults := PyFunction_GetDefaults rt h in
  defaults = NULL \/
  (PyTuple_Check rt defaults = true /\ PyDict_Check rt defaults = false).

(** ** Two visitors on one walk *)

(** [a1] and [a2] keep the relation [R] between the states of two
    visitors. *)
Definition related {S1 S2 : Type} (R : S1 -> S2 -> Prop)
    (a1 : Act S1) (a2 : Act S2) : Prop :=
  forall s1 s2, R s1 s2 -> R (a1 s1) (a2 s2).

(** [emits a out]: run on the recorder's vector, [a] pushes the records
    [out] at its back and changes nothing else. *)
Definition emits (a : Act (list VisitRecord)) (out : list VisitRecord) : Prop :=
  forall records, a records = records ++ out.

(** Every record of the cache was built by one of the five constructors
    (as the records that [visit] stores are). *)
Definition cacheBuilt (st : VisitorState) : Prop :=
  forall node stored,
    mPastVisits st !! node = Some stored -> Forall VisitRecord.built stored.

(** The states that the visitor singleton can be in.  Its cache is
    private: it starts empty, [resetCache] empties it, and [visit] is all
    that fills it.  Walks advance the clock whether they fill the cache or
    not: those of a check that returned, of a [visit] that threw, of the
    static [recordWalk]. *)
Inductive reachable (w : World) : VisitorState -> Prop :=
| reachable_empty (now : nat) :
    reachable w (MkVisitorState ∅ now)
| reachable_visit {S : Type} (st st' : VisitorState) (obj : TypeOrPyobj)
    (visitor : Visitor S) (s s' : S) :
    reachable w st ->
    visit w st obj visitor s = inr (st', s') ->
    reachable w st'
| reachable_later (st : VisitorState) (walks : nat) :
    reachable w st ->
    reachable w (MkVisitorState (mPastVisits st) (clock st + walks)%nat).

(** The constants that the block of a rule can push as its first hash:
    the discriminants of [walk], read off its blocks.  Three blocks push
    none; the block of the method wrappers has one for each kind. *)
Definition discriminants (r : Rule) : list Z :=
  match r with
  | RuleType => [1]
  | RuleEnviron => [13]
  | RuleSimpleConstant => []
  | RuleInstance => [2]
  | RuleCanonicalModule => [12]
  | RuleGloballyIdentifiable => [2]
  | RuleWrappedType => [3]
  | RuleCode => [4]
  | RuleFunction => [5]
  | RuleClass => [6]
  | RuleMethodWrapper => [7; 8]
  | RuleTuple => [9]
  | RuleMutableContainer => [10]
  | RuleCell => [11]
  | RuleMethodDescr => []
  | RuleFallback => []
  end.

(** ** A small interpreter state to evaluate the walker on *)

Module Demo.

Local Open Scope N_scope.

(** The objects of the demo heap.
    - 100: the function [mymod.f], with closure tuple 110 = (cell 111,
      int 112), annotations dict 150, defaults tuple 160
    - 130: its code object
    - 200: the builtin [len]
    - 300: an instance of the typed_python class 301 (type-graph node 900)
    - 400, 401: two dicts with entries a -> 421, b -> 420, inserted in
      opposite orders
    - 500: a function whose [func_defaults] is the dict 400
    - 601: a copy of [f]: it names itself [mymod.f], but that name
      resolves to 100
    - 700: an instance of an ordinary class, [ty] *)
Definition utf8 (a : addr) : string :=
  match a with
  | 120 => "f" | 121 => "mymod" | 201 => "builtins" | 202 => "len"
  | 410 => "b" | 411 => "a" | 412 => "x" | _ => ""
  end.

Definition isStr (a : addr) : bool :=
  match a with
  | 120 | 121 | 201 | 202 | 410 | 411 | 412 => true | _ => false
  end.

Definition getattrString (h : addr) (name : string) : addr :=
  match h with
  | 100 | 500 | 601 =>
      if String.eqb name "__module__" then 121
      else if String.eqb name "__name__" then 120 else NULL
  | 200 =>
      if String.eqb name "__module__" then 201
      else if String.eqb name "__name__" then 202 else NULL
  | _ => NULL
  end.

Definition tupleItems (t : addr) : list addr :=
  match t with
  | 110 => [111; 112]
  | 131 => [112]
  | 133 => [412]
  | 160 => [112]
  | _ => []
  end.

Definition isTuple (t : addr) : bool :=
  match t with
  | 110 | 131 | 132 | 133 | 134 | 135 | 160 => true | _ => false
  end.

Definition isDict (d : addr) : bool :=
  match d with
  | 140 | 150 | 400 | 401 => true | _ => false
  end.

Definition dictKeys (d : addr) : list addr :=
  match d with
  | 150 => [412]
  | 400 => [410; 411]
  | 401 => [411; 410]
  | _ => []
  end.

Definition dictGet (d k : addr) : addr :=
  match d, k with
  | 150, 412 => 11
  | 400, 410 | 401, 410 => 420
  | 400, 411 | 401, 411 => 421
  | _, _ => NULL
  end.

Definition code130 : PyCodeObject :=
  MkPyCodeObject 1 0 2 3 67 10 137 131 132 133 134 135 138 120 136.

Definition func (h : addr) : PyFunctionObject :=
  match h with
  | 100 => MkPyFunctionObject 110 120 130 140 150 160 NULL
  | 500 => MkPyFunctionObject NULL 120 130 140 NULL 400 NULL
  | _ => MkPyFunctionObject NULL NULL NULL NULL NULL NULL NULL
  end.

(** The interpreter, with [ty] the class of object 700. *)
Definition runtime (ty : addr) : PyRuntime :=
  {| ob_type := fun a =>
       match a with
       | 100 | 500 | 601 => Py.PyFunction_Type
       | 200 => Py.PyCFunction_Type
       | 300 => 301
       | 700 => ty
       | 112 => Py.PyLong_Type
       | _ => Py.PyDict_Type_tp_base
       end;
     PyLong_Check := fun a => N.eqb a 112;
     PyBytes_Check := fun a => N.eqb a 136 || N.eqb a 137;
     PyUnicode_Check := isStr;
     PyFloat_Check := fun _ => false;
     PyDict_Check := isDict;
     PyTuple_Check := isTuple;
     PySet_Check := fun _ => false;
     PyList_Check := fun _ => false;
     PyModule_Check := fun a => N.eqb a 170 || N.eqb a Py.builtinsModule;
     PyType_Check := fun a => N.eqb a 301 || N.eqb a 701 || N.eqb a 702;
     PyCode_Check := fun a => N.eqb a 130;
     PyFunction_Check := fun a => N.eqb a 100 || N.eqb a 500 || N.eqb a 601;
     PyCell_Check := fun a => N.eqb a 111;
     PyObject_HasAttrString := fun h name => negb (isNull (getattrString h name));
     PyObject_GetAttrString := getattrString;
     PyObject_GetAttr := fun m n =>
       match m, n with
       | 170, 120 => 100
       | 4, 202 => 200
       | _, _ => NULL
       end;
     PyObject_GetItem := fun d k =>
       if N.eqb d Py.sysModuleModules then
         match k with 121 => 170 | 201 => Py.builtinsModule | _ => NULL end
       else NULL;
     PyUnicode_AsUTF8 := utf8;
     PyDict_GetItem := dictGet;
     PyTuple_Size := fun t =>
       if isTuple t then Z.of_nat (length (tupleItems t)) else (-1)%Z;
     PyTuple_GetItem := fun t k => nth (Z.to_nat k) (tupleItems t) NULL;
     PyCell_Get := fun c => match c with 111 => 112 | _ => NULL end;
     PyDescr_TYPE := fun _ => NULL;
     PyDescr_NAME := fun _ => NULL;
     PyBytes_AsString := fun b => match b with 137 => "dS" | _ => "" end;
     PyBytes_GET_SIZE := fun b => match b with 137 => 2%Z | _ => 0%Z end;
     iterate := dictKeys;
     asCode := fun _ => code130;
     asFunction := func;
     asType := fun _ => MkPyTypeObject "object" NULL NULL;
     extractTypeFrom := fun a => match a with 301 => 900 | _ => NULL end;
     visitCompilerVisibleInternals := fun _ => [];
     visitCompilerVisibleGlobals := fun _ _ => [] |}.

Definition rt : PyRuntime := runtime 701.

(** A world in which the class of object 700 is 701 at the first walk
    and 702 from then on. *)
Definition changing : World :=
  fun n => match n with O => runtime 701 | _ => runtime 702 end.

(** A world in which it is 702 at walk number 1 only. *)
Definition flickering : World :=
  fun n => match n with 1%nat => runtime 702 | _ => runtime 701 end.

Definition steady : World := fun _ => rt.

(** The visitor after object 700 has been visited once in a world where
    its class was 701: [now] walks made, one cache entry. *)
Definition visitedOnce (now : nat) : VisitorState :=
  MkVisitorState {[ ofPyobj 700 := [VisitRecord.ofTopo (ofPyobj 701)] ]} now.

End Demo.

(** ** PromotesTo.hpp *)

Module Promotion.

(** The eleven arithmetic types that [PromotesTo] is specialised on. *)
Inductive ctype : Type :=
| bool_ | int8_t | int16_t | int32_t | int64_t
| uint8_t | uint16_t | uint32_t | uint64_t | float_ | double_.

Global Instance ctype_eq_dec : EqDecision ctype.
Proof. solve_decision. Defined.

(** [PromotesTo<T1, T2>::result_type]: one case per specialisation, in the
  order of the header. *)
Definition PromotesTo (T1 T2 : ctype) : ctype :=
match T1, T2 with
| bool_, bool_ => bool_
| int8_t, bool_ => int8_t
| int16_t, bool_ => int16_t
| int32_t, bool_ => int32_t
| int64_t, bool_ => int64_t
| uint8_t, bool_ => uint8_t
| uint16_t, bool_ => uint16_t
| uint32_t, bool_ => uint32_t
| uint64_t, bool_ => uint64_t
| bool_, int8_t => int8_t
| bool_, int16_t => int16_t
| bool_, int32_t => int32_t
| bool_, int64_t => int64_t
| bool_, uint8_t => uint8_t
| bool_, uint16_t => uint16_t
| bool_, uint32_t => uint32_t
| bool_, uint64_t => uint64_t
| float_, bool_ => float_
| float_, int8_t => float_
| float_, int16_t => float_
| float_, int32_t => float_
| float_, int64_t => float_
| float_, uint8_t => float_
| float_, uint16_t => float_
| float_, uint32_t => float_
| float_, uint64_t => float_
| double_, bool_ => double_
| double_, int8_t => double_
| double_, int16_t => double_
| double_, int32_t => double_
| double_, int64_t => double_
| double_, uint8_t => double_
| double_, uint16_t => double_
| double_, uint32_t => double_
| double_, uint64_t => double_
| bool_, float_ => float_
| int8_t, float_ => float_
| int16_t, float_ => float_
| int32_t, float_ => float_
| int64_t, float_ => float_
| uint8_t, float_ => float_
| uint16_t, float_ => float_
| uint32_t, float_ => float_
| uint64_t, float_ => float_
| bool_, double_ => double_
| int8_t, double_ => double_
| int16_t, double_ => double_
| int32_t, double_ => double_
| int64_t, double_ => double_
| uint8_t, double_ => double_
| uint16_t, double_ => double_
| uint32_t, double_ => double_
| uint64_t, double_ => double_
| int8_t, int8_t => int8_t
| int16_t, int8_t => int16_t
| int8_t, int16_t => int16_t
| int16_t, int16_t => int16_t
| int32_t, int8_t => int32_t
| int8_t, int32_t => int32_t
| int32_t, int16_t => int32_t
| int16_t, int32_t => int32_t
| int32_t, int32_t => int32_t
| int64_t, int8_t => int64_t
| int8_t, int64_t => int64_t
| int64_t, int16_t => int64_t
| int64_t, int32_t => int64_t
| int16_t, int64_t => int64_t
| int32_t, int64_t => int64_t
| int64_t, int64_t => int64_t
| uint8_t, int8_t => int8_t
| uint16_t, int8_t => int16_t
| uint8_t, int16_t => int16_t
| uint16_t, int16_t => int16_t
| uint32_t, int8_t => int32_t
| uint8_t, int32_t => int32_t
| uint32_t, int16_t => int32_t
| uint16_t, int32_t => int32_t
| uint32_t, int32_t => int32_t
| uint64_t, int8_t => int64_t
| uint8_t, int64_t => int64_t
| uint64_t, int16_t => int64_t
| uint64_t, int32_t => int64_t
| uint16_t, int64_t => int64_t
| uint32_t, int64_t => int64_t
| uint64_t, int64_t => int64_t
| int8_t, uint8_t => int8_t
| int16_t, uint8_t => int16_t
| int8_t, uint16_t => int16_t
| int16_t, uint16_t => int16_t
| int32_t, uint8_t => int32_t
| int8_t, uint32_t => int32_t
| int32_t, uint16_t => int32_t
| int16_t, uint32_t => int32_t
| int32_t, uint32_t => int32_t
| int64_t, uint8_t => int64_t
| int8_t, uint64_t => int64_t
| int64_t, uint16_t => int64_t
| int64_t, uint32_t => int64_t
| int16_t, uint64_t => int64_t
| int32_t, uint64_t => int64_t
| int64_t, uint64_t => int64_t
| uint8_t, uint8_t => uint8_t
| uint16_t, uint8_t => uint16_t
| uint8_t, uint16_t => uint16_t
| uint16_t, uint16_t => uint16_t
| uint32_t, uint8_t => uint32_t
| uint8_t, uint32_t => uint32_t
| uint32_t, uint16_t => uint32_t
| uint16_t, uint32_t => uint32_t
| uint32_t, uint32_t => uint32_t
| uint64_t, uint8_t => uint64_t
| uint8_t, uint64_t => uint64_t
| uint64_t, uint16_t => uint64_t
| uint64_t, uint32_t => uint64_t
| uint16_t, uint64_t => uint64_t
| uint32_t, uint64_t => uint64_t
| uint64_t, uint64_t => uint64_t
| float_, double_ => double_
| double_, float_ => double_
| float_, float_ => float_
| double_, double_ => double_
end.

Definition isFloatingPoint (t : ctype) : bool :=
match t with float_ | double_ => true | _ => false end.

(** A signed integer type. *)
Definition isSigned (t : ctype) : bool :=
match t with int8_t | int16_t | int32_t | int64_t => true | _ => false end.


(** The width of a type in bits; [bool] counts as one bit. *)
Definition bits (t : ctype) : Z :=
match t with
| bool_ => 1
| int8_t | uint8_t => 8
| int16_t | uint16_t => 16
| int32_t | uint32_t | float_ => 32
| int64_t | uint64_t | double_ => 64
end.

(** The signed and the unsigned integer type of a width. *)
Definition signedOf (width : Z) : ctype :=
if width <=? 8 then int8_t else if width <=? 16 then int16_t
else if width <=? 32 then int32_t else int64_t.
Definition unsignedOf (width : Z) : ctype :=
if width <=? 8 then uint8_t else if width <=? 16 then uint16_t
else if width <=? 32 then uint32_t else uint64_t.

(** The rule behind the table: [double] wins over everything, [float]
  over every integer; [bool] gives way to everything; two integers give
  the wider width, signed if one of them is signed. *)
Definition promote (a b : ctype) : ctype :=
if bool_decide (a = double_) || bool_decide (b = double_) then double_
else if bool_decide (a = float_) || bool_decide (b = float_) then float_
else if bool_decide (a = bool_) then b
else if bool_decide (b = bool_) then a
else if isSigned a || isSigned b then signedOf (Z.max (bits a) (bits b))
else unsignedOf (Z.max (bits a) (bits b)).

End Promotion.

(** ** The diagnostics of the stability verifier *)

Module Diagnostics.

(** [PTRDIFF_MAX], which no implementation's [max_size()] of
  [std::string] exceeds. *)
Definition PTRDIFF_MAX : Z := 2 ^ 63 - 1.

(** [std::string(n, c)]; [None] stands for the [std::length_error] of a
  size that no string can have.  (A size between [max_size()] and
  [PTRDIFF_MAX] throws as well; [pad] asks for none.) *)
Definition string_fill (n : Z) (c : ascii) : option string :=
if n >? PTRDIFF_MAX then None
else Some (string_of_list_ascii (repeat c (Z.to_nat n))).

(** The lambda [pad] of [checkForInstability]: [s] cut or filled with
  spaces to [ct] characters.  [ct] is an [int]; it is compared with
  [s.size()] and handed to [substr] as a [size_t], and [ct - s.size()]
  is a difference of [size_t].  [None] is a [substr] or a fill that
  throws. *)
Definition pad (s : string) (ct : Z) : option string :=
if StdString.size s >? CInt.to_size_t ct
then StdString.substr s 0 (CInt.to_size_t ct)
else option_map (String.append s)
       (string_fill (StdString.size_t_sub (CInt.to_size_t ct) (StdString.size s))
          " "%char).



Section ToString.
(** [ShaHash::digestAsHexString] and [TypeOrPyobj::name], which are not
among the sources. *)
Context (digestAsHexString : ShaHash -> string) (name : TypeOrPyobj -> string).

(** [VisitRecord::toString]. *)
Definition toString (r : VisitRecord) : string :=
match VisitRecord.mKind r with
| VisitRecord.Error =>
  String.append "Err(" (String.append (VisitRecord.mErr r) ")")
| VisitRecord.String =>
  String.append "String(" (String.append (VisitRecord.mName r) ")")
| VisitRecord.Hash =>
  String.append "Hash("
    (String.append (digestAsHexString (VisitRecord.mHash r)) ")")
| VisitRecord.Topo =>
  String.append "Topo(" (String.append (name (VisitRecord.mTopo r)) ")")
| VisitRecord.NameValuePair =>
  String.append "NameValuePair("
    (String.append (VisitRecord.mName r)
       (String.append "=" (String.append (name (VisitRecord.mTopo r)) ")")))
end.

Definition stringifyVisitRecord (records : list VisitRecord) : list string :=
map toString records.

(** [recordWalkAsString]: one line per record. *)
Definition recordWalkAsString (rt : PyRuntime) (obj : TypeOrPyobj) : string :=
fold_left
(fun s record =>
   String.append s (String.append (toString record) (String (ascii_of_nat 10) "")))
(recordWalk rt obj) "".

End ToString.

End Diagnostics.

(** ** Caches that agree with the interpreter *)

(** Every record of the cache is what a walk of its object gives in the
    interpreter state [rt]. *)
Definition consistent (rt : PyRuntime) (st : VisitorState) : Prop :=
  forall node stored,
    mPastVisits st !! node = Some stored -> stored = recordWalk rt node.

(** ** A second interpreter state *)

Module Demo2.

Local Open Scope N_scope.

(** The demo heap, and in addition
  - 800: the module [os], registered under its name (string 801)
  - 810: a dict with the entries of dict 400 and, before them, an entry
    under the name [__loader__] (key 811)
  - the type-graph node 900, whose internals are a hash and a name. *)
Definition rt : PyRuntime :=
{| ob_type := ob_type Demo.rt;
   PyLong_Check := PyLong_Check Demo.rt;
   PyBytes_Check := PyBytes_Check Demo.rt;
   PyUnicode_Check := fun a =>
     match a with 801 | 811 => true | _ => PyUnicode_Check Demo.rt a end;
   PyFloat_Check := PyFloat_Check Demo.rt;
   PyDict_Check := fun a =>
     match a with 810 => true | _ => PyDict_Check Demo.rt a end;
   PyTuple_Check := PyTuple_Check Demo.rt;
   PySet_Check := PySet_Check Demo.rt;
   PyList_Check := PyList_Check Demo.rt;
   PyModule_Check := fun a =>
     match a with 800 => true | _ => PyModule_Check Demo.rt a end;
   PyType_Check := PyType_Check Demo.rt;
   PyCode_Check := PyCode_Check Demo.rt;
   PyFunction_Check := PyFunction_Check Demo.rt;
   PyCell_Check := PyCell_Check Demo.rt;
   PyObject_HasAttrString := fun h n =>
     match h with
     | 800 => String.eqb n "__name__"
     | _ => PyObject_HasAttrString Demo.rt h n
     end;
   PyObject_GetAttrString := fun h n =>
     match h with
     | 800 => if String.eqb n "__name__" then 801 else NULL
     | _ => PyObject_GetAttrString Demo.rt h n
     end;
   PyObject_GetAttr := PyObject_GetAttr Demo.rt;
   PyObject_GetItem := fun d k =>
     if N.eqb d Py.sysModuleModules && N.eqb k 801 then 800
     else PyObject_GetItem Demo.rt d k;
   PyUnicode_AsUTF8 := fun a =>
     match a with
     | 801 => "os" | 811 => "__loader__" | _ => PyUnicode_AsUTF8 Demo.rt a
     end;
   PyDict_GetItem := fun d k =>
     match d, k with
     | 810, 811 => 821
     | 810, _ => PyDict_GetItem Demo.rt 400 k
     | _, _ => PyDict_GetItem Demo.rt d k
     end;
   PyTuple_Size := PyTuple_Size Demo.rt;
   PyTuple_GetItem := PyTuple_GetItem Demo.rt;
   PyCell_Get := PyCell_Get Demo.rt;
   PyDescr_TYPE := PyDescr_TYPE Demo.rt;
   PyDescr_NAME := PyDescr_NAME Demo.rt;
   PyBytes_AsString := PyBytes_AsString Demo.rt;
   PyBytes_GET_SIZE := PyBytes_GET_SIZE Demo.rt;
   iterate := fun d =>
     match d with 810 => [811; 410; 411] | _ => iterate Demo.rt d end;
   asCode := asCode Demo.rt;
   asFunction := asFunction Demo.rt;
   asType := asType Demo.rt;
   extractTypeFrom := extractTypeFrom Demo.rt;
   visitCompilerVisibleInternals := fun t =>
     match t with
     | 900 => [CallHash (ShaHashOf 7); CallName "Int64"]
     | _ => []
     end;
   visitCompilerVisibleGlobals := visitCompilerVisibleGlobals Demo.rt |}.

Definition steady : World := fun _ => rt.

(** A rendering of hashes and of object names for the diagnostics. *)
Definition hex (h : ShaHash) : string :=
match h with ShaHashOf _ => "00" | SHA1 _ => "ff" end.
Definition objName (o : TypeOrPyobj) : string := "obj".

End Demo2.

(** ** Two keys with one name *)

(** The C string at a [char*] into the bytes [s]: the bytes before the
    first NUL.  It is what [std::string name = PyUnicode_AsUTF8(o)] keeps
    of the UTF-8 bytes of [o]. *)
Fixpoint c_str (s : string) : string :=
  match s with
  | EmptyString => EmptyString
  | String c s' =>
      if Ascii.eqb c "000"%char then EmptyString else String c (c_str s')
  end.

Module Demo3.

Local Open Scope N_scope.

(** The UTF-8 bytes of two [str] objects, each of three characters with a
  NUL in the middle. *)
Definition utf8 (a : addr) : string :=
match a with
| 430 => String "a" (String "000" (String "b" EmptyString))
| 431 => String "a" (String "000" (String "c" EmptyString))
| _ => ""
end.

(** The demo heap, and in addition the [str] objects 430 and 431 and
  - 440, 441: two dicts that hold the same two entries, 430 -> 450 and
    431 -> 451; in 440 the key 430 was inserted first, in 441 the key 431
  - 442: a dict with the entry 431 -> 451 only. *)
Definition rt : PyRuntime :=
{| ob_type := ob_type Demo.rt;
   PyLong_Check := PyLong_Check Demo.rt;
   PyBytes_Check := PyBytes_Check Demo.rt;
   PyUnicode_Check := fun a =>
     match a with 430 | 431 => true | _ => PyUnicode_Check Demo.rt a end;
   PyFloat_Check := PyFloat_Check Demo.rt;
   PyDict_Check := fun a =>
     match a with 440 | 441 | 442 => true | _ => PyDict_Check Demo.rt a end;
   PyTuple_Check := PyTuple_Check Demo.rt;
   PySet_Check := PySet_Check Demo.rt;
   PyList_Check := PyList_Check Demo.rt;
   PyModule_Check := PyModule_Check Demo.rt;
   PyType_Check := PyType_Check Demo.rt;
   PyCode_Check := PyCode_Check Demo.rt;
   PyFunction_Check := PyFunction_Check Demo.rt;
   PyCell_Check := PyCell_Check Demo.rt;
   PyObject_HasAttrString := PyObject_HasAttrString Demo.rt;
   PyObject_GetAttrString := PyObject_GetAttrString Demo.rt;
   PyObject_GetAttr := PyObject_GetAttr Demo.rt;
   PyObject_GetItem := PyObject_GetItem Demo.rt;
   PyUnicode_AsUTF8 := fun a =>
     match a with
     | 430 | 431 => c_str (utf8 a)
     | _ => PyUnicode_AsUTF8 Demo.rt a
     end;
   PyDict_GetItem := fun d k =>
     match d, k with
     | 440, 430 | 441, 430 => 450
     | 440, 431 | 441, 431 | 442, 431 => 451
     | _, _ => PyDict_GetItem Demo.rt d k
     end;
   PyTuple_Size := PyTuple_Size Demo.rt;
   PyTuple_GetItem := PyTuple_GetItem Demo.rt;
   PyCell_Get := PyCell_Get Demo.rt;
   PyDescr_TYPE := PyDescr_TYPE Demo.rt;
   PyDescr_NAME := PyDescr_NAME Demo.rt;
   PyBytes_AsString := PyBytes_AsString Demo.rt;
   PyBytes_GET_SIZE := PyBytes_GET_SIZE Demo.rt;
   iterate := fun d =>
     match d with
     | 440 => [430; 431]
     | 441 => [431; 430]
     | 442 => [431]
     | _ => iterate Demo.rt d
     end;
   asCode := asCode Demo.rt;
   asFunction := asFunction Demo.rt;
   asType := asType Demo.rt;
   extractTypeFrom := extractTypeFrom Demo.rt;
   visitCompilerVisibleInternals := visitCompilerVisibleInternals Demo.rt;
   visitCompilerVisibleGlobals := visitCompilerVisibleGlobals Demo.rt |}.

End Demo3.
(** * Properties *)

(** ** Strings *)

Lemma append_cons (c : ascii) (a b : string) :
  String.append (String c a) b = String c (String.append a b).
Proof. reflexivity. Qed.

Lemma append_nil (b : string) : String.append "" b = b.
Proof. reflexivity. Qed.

Lemma substring_all (s : string) : String.substring 0 (String.length s) s = s.
Proof. induction s as [|c s IH]; simpl; [done | by rewrite IH]. Qed.

Lemma substring_app_r (l t : string) :
  String.substring (String.length l) (String.length t) (String.append l t) = t.
Proof. induction l as [|c l IH]; simpl; [apply substring_all | exact IH]. Qed.

Lemma substring_split (s : string) (n m : nat) :
  (n + m)%nat = String.length s ->
  s = String.append (String.substring 0 n s) (String.substring n m s).
Proof.
  revert n; induction s as [|c s IH]; intros n Hlen; simpl in *.
  - destruct n, m; simpl in *; try lia; done.
  - destruct n as [|n]; simpl.
    + destruct m as [|m]; simpl in *; [lia|].
      f_equal. injection Hlen as Hlen. rewrite Hlen. by rewrite substring_all.
    + rewrite append_cons. f_equal. apply IH. lia.
Qed.

Lemma string_length_app (a b : string) :
  String.length (String.append a b) = (String.length a + String.length b)%nat.
Proof. induction a; simpl; [done | by f_equal]. Qed.

(** The last two characters of a name of at least two characters. *)
Lemma substring_suffix (name : string) :
  (2 <= String.length name)%nat ->
  String.substring (String.length name - 2) 2 name = "__" <->
  exists l, name = String.append l "__".
Proof.
  intros Hlen; split.
  - intros Htail. exists (String.substring 0 (String.length name - 2) name).
    pose proof (substring_split name (String.length name - 2) 2) as Hs.
    rewrite Htail in Hs. apply Hs. lia.
  - intros [l ->]. rewrite string_length_app; simpl.
    replace (String.length l + 2 - 2)%nat with (String.length l) by lia.
    apply (substring_app_r l "__").
Qed.

Lemma set_contains_In (set : list string) (s : string) :
  StdString.set_contains set s = true <-> In s set.
Proof.
  unfold StdString.set_contains. rewrite existsb_exists. split.
  - intros (x & Hin & Heq). apply String.eqb_eq in Heq. by subst.
  - intros Hin. exists s. split; [done | apply String.eqb_refl].
Qed.

(** Names of fewer than two characters: the first conjunct is false and
    the second [substr], which would throw, is not reached. *)
Lemma isSpecialIgnorableName_short (name : string) :
  (String.length name < 2)%nat -> isSpecialIgnorableName name = Some false.
Proof.
  destruct name as [|a [|b rest]]; simpl; intros; try lia; try done.
  unfold isSpecialIgnorableName; simpl.
  by destruct (Ascii.eqb a "_").
Qed.

Lemma isSpecialIgnorableName_long (name : string) :
  (2 <= String.length name)%nat ->
  isSpecialIgnorableName name =
  Some (String.eqb (String.substring 0 2 name) "__"
        && String.eqb (String.substring (String.length name - 2) 2 name) "__"
        && negb (StdString.set_contains canonicalMagicMethods name)).
Proof.
  intros Hlen. unfold isSpecialIgnorableName, StdString.substr, StdString.size_t_sub,
    StdString.size, StdString.npos.
  assert ((Z.of_nat (String.length name) <? 0) = false) as -> by lia.
  assert ((Z.of_nat (String.length name) <? 2) = false) as -> by lia.
  assert ((Z.of_nat (String.length name) <? Z.of_nat (String.length name) - 2) = false)
    as -> by lia.
  replace (Z.to_nat (Z.min 2 (Z.of_nat (String.length name) - 0))) with 2%nat by lia.
  replace (Z.to_nat (Z.of_nat (String.length name) - 2))
    with (String.length name - 2)%nat by lia.
  replace (Z.to_nat (Z.min (2 ^ 64 - 1)
             (Z.of_nat (String.length name) - (Z.of_nat (String.length name) - 2))))
    with 2%nat by lia.
  change (Z.to_nat 0) with 0%nat.
  destruct (String.eqb (String.substring 0 2 name) "__"); simpl; [|done].
  destruct (String.eqb _ "__"); simpl; done.
Qed.

Lemma substring_prefix (name : string) :
  String.substring 0 2 name = "__" <-> exists r, name = String.append "__" r.
Proof.
  split.
  - destruct name as [|a [|b rest]]; simpl; try discriminate.
    destruct rest; simpl; intros [= -> ->]; eexists; reflexivity.
  - intros [r ->]. simpl. by destruct r.
Qed.

(** ** C10 *)

(** C10: [isSpecialIgnorableName] returns a value on every name (it never
    throws); the value is true exactly when the name has at least two
    characters, begins with two underscores, ends with two underscores and
    is not one of the magic methods of the allow-list.  Prefix and suffix
    may overlap: the names of two and of three underscores are ignorable.
    A name of fewer than two characters is never ignorable. *)
Theorem isSpecialIgnorableName_total :
  (forall name : string,
      exists b : bool,
        isSpecialIgnorableName name = Some b /\
        (b = true <->
         (2 <= String.length name)%nat /\
         (exists r, name = String.append "__" r) /\
         (exists l, name = String.append l "__") /\
         ~ In name canonicalMagicMethods)) /\
  isSpecialIgnorableName "__" = Some true /\
  isSpecialIgnorableName "___" = Some true /\
  (forall name : string,
      (String.length name < 2)%nat -> isSpecialIgnorableName name = Some false).
Proof.
  split; [|split; [reflexivity|split; [reflexivity|apply isSpecialIgnorableName_short]]].
  intros name. destruct (le_lt_dec 2 (String.length name)) as [Hlen|Hlen].
  - eexists; split; [by apply isSpecialIgnorableName_long|].
    rewrite !andb_true_iff, negb_true_iff, !String.eqb_eq.
    rewrite substring_prefix, (substring_suffix _ Hlen).
    rewrite <- set_contains_In, not_true_iff_false. tauto.
  - exists false; split; [by apply isSpecialIgnorableName_short|].
    split; [discriminate | lia].
Qed.

Lemma isSpecialIgnorableName_total_witness :
  isSpecialIgnorableName "_" = Some false.
Proof.
  apply (proj2 (proj2 (proj2 isSpecialIgnorableName_total))). simpl. lia.
Defined.

(** ** Visit records *)

Lemma VisitRecord_eqb_refl (r : VisitRecord) : VisitRecord.eqb r r = true.
Proof.
  unfold VisitRecord.eqb. rewrite bool_decide_eq_true_2 by done. simpl.
  destruct (VisitRecord.mKind r);
    rewrite ?String.eqb_refl, ?bool_decide_eq_true_2; done.
Qed.

(** On records that the constructors built, [operator==] is equality. *)
Lemma VisitRecord_eqb_eq (a b : VisitRecord) :
  VisitRecord.built a -> VisitRecord.built b ->
  VisitRecord.eqb a b = true <-> a = b.
Proof.
  intros Ha Hb; split; [|intros ->; apply VisitRecord_eqb_refl].
  unfold VisitRecord.built in *.
  destruct Ha as [[? ->]|[[? ->]|[(? & ? & ->)|[[? ->]|[? ->]]]]];
  destruct Hb as [[? ->]|[[? ->]|[(? & ? & ->)|[[? ->]|[? ->]]]]];
    unfold VisitRecord.eqb; simpl; try discriminate;
    rewrite ?andb_true_iff, ?bool_decide_eq_true, ?String.eqb_eq;
    intros; destruct_and?; by subst.
Qed.

Lemma vector_eqb_refl (l : list VisitRecord) : VisitRecord.vector_eqb l l = true.
Proof. induction l; simpl; [done | by rewrite VisitRecord_eqb_refl]. Qed.

Lemma vector_eqb_eq (l r : list VisitRecord) :
  Forall VisitRecord.built l -> Forall VisitRecord.built r ->
  VisitRecord.vector_eqb l r = true <-> l = r.
Proof.
  intros Hl; revert r; induction Hl as [|a l Ha Hl IH]; intros r Hr.
  - destruct r; simpl; split; done.
  - destruct Hr as [|b r Hb Hr]; simpl; [split; done|].
    rewrite andb_true_iff, (VisitRecord_eqb_eq _ _ Ha Hb), (IH _ Hr).
    split; [by intros [-> ->] | by intros [= -> ->]].
Qed.

(** ** Two visitors on the same walk *)

(** Whatever two visitors do with a call, the walker hands both the same
    calls in the same order: a relation between the two captured states
    that every pair of callbacks keeps is kept by every block of [walk]. *)
Section Related.
Context {S1 S2 : Type} (v1 : Visitor S1) (v2 : Visitor S2).
Context (R : S1 -> S2 -> Prop).

Local Abbreviation rel := (related R).

Hypothesis Hhash : forall h, rel (visitHash v1 h) (visitHash v2 h).
Hypothesis Hname : forall n, rel (visitName v1 n) (visitName v2 n).
Hypothesis Htopo : forall o, rel (visitTopo v1 o) (visitTopo v2 o).
Hypothesis Hnamed :
  forall n o, rel (visitNamedTopo v1 n o) (visitNamedTopo v2 n o).
Hypothesis Herr : forall e, rel (visitErr v1 e) (visitErr v2 e).

Lemma related_skip : rel skip skip.
Proof. by intros s1 s2. Qed.

Lemma related_seq a1 a2 b1 b2 :
  rel a1 a2 -> rel b1 b2 -> rel (seq a1 b1) (seq a2 b2).
Proof. intros Ha Hb s1 s2 Hs. unfold seq. auto. Qed.

Lemma related_for_each {A} (l : list A) (f1 : A -> Act S1) (f2 : A -> Act S2) :
  (forall x, rel (f1 x) (f2 x)) -> rel (for_each l f1) (for_each l f2).
Proof.
  intros Hf. unfold for_each.
  induction l as [|x l IH]; intros s1 s2 Hs; simpl; [done|].
  apply IH. by apply Hf.
Qed.

Lemma related_deliver c : rel (deliver v1 c) (deliver v2 c).
Proof. destruct c; simpl; auto. Qed.

Ltac related_step :=
  lazymatch goal with
  | |- related _ (seq _ _) (seq _ _) => apply related_seq
  | |- related _ skip skip => apply related_skip
  | |- related _ (for_each _ _) (for_each _ _) => apply related_for_each; intros ?
  | |- related _ (deliver _ _) (deliver _ _) => apply related_deliver
  | |- related _ (visitHash _ _) _ => apply Hhash
  | |- related _ (visitName _ _) _ => apply Hname
  | |- related _ (visitTopo _ _) _ => apply Htopo
  | |- related _ (visitNamedTopo _ _ _) _ => apply Hnamed
  | |- related _ (visitErr _ _) _ => apply Herr
  | |- related _ (if ?b then _ else _) _ => destruct b
  | |- related _ (let x := _ in _) _ => cbv zeta
  end.
Ltac related_steps := repeat related_step.

Variable rt : PyRuntime.

Lemma visitDict_related d ign :
  rel (visitDict v1 rt d ign) (visitDict v2 rt d ign).
Proof. unfold visitDict. related_steps. Qed.

Lemma visitTuple_related t : rel (visitTuple v1 rt t) (visitTuple v2 rt t).
Proof. unfold visitTuple. related_steps. Qed.

Lemma visitDictOrTuple_related t :
  rel (visitDictOrTuple v1 rt t) (visitDictOrTuple v2 rt t).
Proof.
  unfold visitDictOrTuple. related_steps;
    auto using visitDict_related, visitTuple_related.
Qed.

Lemma walkCode_related h : rel (walkCode v1 rt h) (walkCode v2 rt h).
Proof.
  unfold walkCode. cbv zeta.
  repeat first [apply visitTuple_related | related_step].
Qed.

Lemma walkClosure_related c : rel (walkClosure v1 rt c) (walkClosure v2 rt c).
Proof. unfold walkClosure. related_steps. Qed.

Lemma walkGlobals_related f : rel (walkGlobals v1 rt f) (walkGlobals v2 rt f).
Proof. unfold walkGlobals. related_steps. Qed.

Lemma walkFunctionRest_related h :
  rel (walkFunctionRest v1 rt h) (walkFunctionRest v2 rt h).
Proof.
  unfold walkFunctionRest. cbv zeta.
  repeat first [apply visitTuple_related | apply visitDictOrTuple_related
               | apply walkGlobals_related | related_step].
Qed.

Lemma walkFunction_related h :
  rel (walkFunction v1 rt h) (walkFunction v2 rt h).
Proof.
  unfold walkFunction.
  repeat first [apply walkClosure_related | apply walkFunctionRest_related
               | related_step].
Qed.

Lemma walkClass_related h : rel (walkClass v1 rt h) (walkClass v2 rt h).
Proof.
  unfold walkClass. cbv zeta.
  repeat first [apply visitDict_related | related_step].
Qed.

(** The two visitors of a walk stay related. *)
Lemma walk_related obj : rel (walk v1 rt obj) (walk v2 rt obj).
Proof.
  unfold walk. cbv zeta. destruct (dispatch rt obj).
  - unfold walkType. related_steps.
  - unfold walkEnviron. related_steps.
  - apply related_skip.
  - unfold walkInstance. related_steps.
  - unfold walkCanonicalModule. related_steps.
  - unfold walkGloballyIdentifiable. related_steps.
  - unfold walkWrappedType. related_steps.
  - apply walkCode_related.
  - apply walkFunction_related.
  - apply walkClass_related.
  - unfold walkMethodWrapper. related_steps.
  - unfold walkTuple. related_steps.
  - unfold walkMutableContainer. related_steps.
  - unfold walkCell. related_steps.
  - unfold walkMethodDescr. related_steps.
  - unfold walkFallback. related_steps.
Qed.

End Related.

(** ** What the recorder has pushed *)

Lemma emits_skip : emits skip [].
Proof. intros r. unfold skip. by rewrite app_nil_r. Qed.

Lemma emits_seq a b o1 o2 : emits a o1 -> emits b o2 -> emits (seq a b) (o1 ++ o2).
Proof. intros Ha Hb r. unfold seq. by rewrite Ha, Hb, app_assoc. Qed.

Lemma emits_for_each {A} (l : list A) (body : A -> Act (list VisitRecord))
    (out : A -> list VisitRecord) :
  (forall x, emits (body x) (out x)) ->
  emits (for_each l body) (concat (map out l)).
Proof.
  intros Hbody. unfold for_each.
  induction l as [|x l IH]; intros r; simpl; [by rewrite app_nil_r|].
  by rewrite IH, Hbody, app_assoc.
Qed.

Lemma emits_hash h : emits (visitHash recorder h) [VisitRecord.ofHash h].
Proof. by intros r. Qed.
Lemma emits_name n : emits (visitName recorder n) [VisitRecord.ofName n].
Proof. by intros r. Qed.
Lemma emits_topo o : emits (visitTopo recorder o) [VisitRecord.ofTopo o].
Proof. by intros r. Qed.
Lemma emits_named n o :
  emits (visitNamedTopo recorder n o) [VisitRecord.ofNameAndTopo n o].
Proof. by intros r. Qed.
Lemma emits_err e : emits (visitErr recorder e) [VisitRecord.Err e].
Proof. by intros r. Qed.

Lemma emits_eq a o1 o2 : emits a o1 -> o1 = o2 -> emits a o2.
Proof. by intros H <-. Qed.

Lemma emits_run a out : emits a out -> a [] = out.
Proof. intros H. by rewrite H. Qed.

(** Every block of the walk only pushes at the back of the vector. *)
Lemma walk_emits (rt : PyRuntime) (obj : TypeOrPyobj) :
  emits (walk recorder rt obj) (recordWalk rt obj).
Proof.
  intros records. unfold recordWalk.
  apply (walk_related recorder recorder (fun s1 s2 => s1 = records ++ s2));
    try (intros; intros s1 s2 ->; simpl; by rewrite app_assoc).
  by rewrite app_nil_r.
Qed.

Lemma walkFunctionRest_emits (rt : PyRuntime) (h : addr) :
  emits (walkFunctionRest recorder rt h) (walkFunctionRest recorder rt h []).
Proof.
  intros records.
  apply (walkFunctionRest_related recorder recorder
           (fun s1 s2 => s1 = records ++ s2));
    try (intros; intros s1 s2 ->; simpl; by rewrite app_assoc).
  by rewrite app_nil_r.
Qed.

(** The records a walk pushes are all built by the constructors. *)
Lemma recordWalk_built (rt : PyRuntime) (obj : TypeOrPyobj) :
  Forall VisitRecord.built (recordWalk rt obj).
Proof.
  unfold recordWalk.
  refine (walk_related recorder recorder
            (fun s1 _ => Forall VisitRecord.built s1) _ _ _ _ _ rt obj [] [] _);
    [| | | | |by constructor];
    intros; intros s1 _ Hs; simpl; apply Forall_app; (split; [done|]);
    (constructor; [|by constructor]);
    unfold VisitRecord.built; eauto 10.
Qed.

(** ** The walk cache *)

(** Every visitor is handed the calls that the tracer logs. *)
Lemma walk_delivers {S} (visitor : Visitor S) (rt : PyRuntime)
    (obj : TypeOrPyobj) (s : S) :
  walk visitor rt obj s = for_each (walk tracer rt obj []) (deliver visitor) s.
Proof.
  apply (walk_related visitor tracer
           (fun s1 calls => s1 = for_each calls (deliver visitor) s));
    try done;
    intros; intros s1 calls ->; simpl; unfold for_each; by rewrite fold_left_app.
Qed.

Lemma trace_records (rt : PyRuntime) (obj : TypeOrPyobj) :
  map recordOfCall (walk tracer rt obj []) = recordWalk rt obj.
Proof.
  unfold recordWalk.
  apply (walk_related tracer recorder
           (fun calls records => map recordOfCall calls = records));
    try done;
    intros; intros calls records <-; simpl; by rewrite map_app.
Qed.

(** The first loop of [checkForInstability] finds something exactly when
    some cached object, walked at its turn, no longer gives its records. *)
Lemma findUnstable_cons (w : World) (entries : list (TypeOrPyobj * list VisitRecord)) :
  forall now,
    fst (findUnstable w now entries) <> [] <->
    (exists (i : nat) node stored,
        entries !! i = Some (node, stored) /\
        VisitRecord.vector_eqb stored (recordWalk (w (now + i)%nat) node) = false).
Proof.
  induction entries as [|[node stored] rest IH]; intros now; simpl.
  - split; [done | by intros (i & ? & ? & Hi & _); destruct i].
  - specialize (IH (Datatypes.S now)).
    destruct (findUnstable w (Datatypes.S now) rest) as [unstable now'] eqn:E.
    simpl in *.
    destruct (VisitRecord.vector_eqb stored (recordWalk (w now) node)) eqn:Eq;
      simpl.
    + rewrite IH. split.
      * intros (i & n' & s' & Hi & Hne). exists (Datatypes.S i), n', s'.
        by rewrite Nat.add_succ_r.
      * intros ([|i] & n' & s' & Hi & Hne); simpl in Hi.
        -- injection Hi as <- <-. rewrite Nat.add_0_r in Hne. congruence.
        -- exists i, n', s'. by rewrite Nat.add_succ_r in Hne.
    + split; [|done]. intros _. exists 0%nat, node, stored.
      by rewrite Nat.add_0_r.
Qed.

(** The scan makes one walk per cache entry. *)
Lemma findUnstable_clock (w : World) (entries : list (TypeOrPyobj * list VisitRecord)) :
  forall now, snd (findUnstable w now entries) = (now + length entries)%nat.
Proof.
  induction entries as [|[node stored] rest IH]; intros now; simpl; [lia|].
  specialize (IH (Datatypes.S now)).
  destruct (findUnstable w (Datatypes.S now) rest); simpl in *. lia.
Qed.

(** What [visit] stores keeps the cache built. *)
Lemma visit_keeps_built {S : Type} (w : World) (st st' : VisitorState)
    (obj : TypeOrPyobj) (visitor : Visitor S) (s s' : S) :
  cacheBuilt st -> visit w st obj visitor s = inr (st', s') -> cacheBuilt st'.
Proof.
  intros Hbuilt. unfold visit. simpl.
  destruct (mPastVisits st !! obj) as [stored|] eqn:Hobj.
  - destruct (VisitRecord.vector_eqb stored _); simpl.
    + intros [= <- <-]. exact Hbuilt.
    + destruct (checkForInstability w (tick st)); discriminate.
  - intros [= <- <-] node stored. simpl.
    destruct (decide (obj = node)) as [->|Hne].
    + rewrite lookup_insert_eq. intros [= <-]. apply recordWalk_built.
    + rewrite lookup_insert_ne by done. apply Hbuilt.
Qed.

(** On a built cache, the records' [operator!=] is plain difference. *)
Lemma someUnstable_differs (w : World) (st : VisitorState) :
  cacheBuilt st ->
  someUnstable w st <->
  exists (i : nat) node stored,
    map_to_list (mPastVisits st) !! i = Some (node, stored) /\
    stored <> recordWalk (w (clock st + i)%nat) node.
Proof.
  intros Hbuilt. unfold someUnstable.
  split; intros (i & node & stored & Hi & Hne); exists i, node, stored;
    (split; [exact Hi|]);
    assert (Forall VisitRecord.built stored) as Hs
      by (apply (Hbuilt node), elem_of_map_to_list, list_elem_of_lookup; eauto).
  - intros Heq. apply (vector_eqb_eq _ _ Hs (recordWalk_built _ _)) in Heq.
    congruence.
  - apply not_true_iff_false. intros Heq. apply Hne.
    by apply (vector_eqb_eq _ _ Hs (recordWalk_built _ _)).
Qed.

(** When the interpreter does not change during the scan, the turn of an
    object does not matter: the scan finds something exactly when the
    cache holds an object whose walk no longer gives its records. *)
Lemma someUnstable_steady (rt : PyRuntime) (st : VisitorState) :
  someUnstable (fun _ => rt) st <->
  exists node stored,
    mPastVisits st !! node = Some stored /\
    VisitRecord.vector_eqb stored (recordWalk rt node) = false.
Proof.
  unfold someUnstable. split.
  - intros (i & node & stored & Hi & Hne). exists node, stored.
    split; [|exact Hne]. apply elem_of_map_to_list, list_elem_of_lookup. eauto.
  - intros (node & stored & Hin & Hne).
    apply elem_of_map_to_list, list_elem_of_lookup in Hin as [i Hi]. eauto.
Qed.

(** The state after a scan that finds nothing. *)
Lemma checkForInstability_returns (w : World) (st st' : VisitorState) :
  checkForInstability w st = inr st' ->
  st' = MkVisitorState (mPastVisits st)
          (clock st + length (map_to_list (mPastVisits st)))%nat.
Proof.
  unfold checkForInstability.
  pose proof (findUnstable_clock w (map_to_list (mPastVisits st)) (clock st)) as Hc.
  destruct (findUnstable w (clock st) (map_to_list (mPastVisits st)))
    as [unstable now]; simpl in *.
  destruct unstable; simpl; [|discriminate]. intros [= <-]. by rewrite Hc.
Qed.

Lemma someUnstable_findUnstable (w : World) (st : VisitorState) :
  someUnstable w st <->
  fst (findUnstable w (clock st) (map_to_list (mPastVisits st))) <> [].
Proof. by rewrite findUnstable_cons. Qed.

(** The scan throws exactly when it finds something, and returns with
    the cache as it was when it finds nothing. *)
Lemma checkForInstability_scan (w : World) (st : VisitorState) :
  ((exists e, checkForInstability w st = inl e) <-> someUnstable w st) /\
  ((exists st', checkForInstability w st = inr st' /\
                mPastVisits st' = mPastVisits st) <-> ~ someUnstable w st).
Proof.
  rewrite someUnstable_findUnstable. unfold checkForInstability.
  destruct (findUnstable w (clock st) (map_to_list (mPastVisits st)))
    as [unstable now]; simpl.
  destruct unstable as [|node unstable]; simpl.
  - split; split.
    + intros [e He]; discriminate.
    + done.
    + intros _ H; by apply H.
    + intros _; eauto.
  - split; split.
    + done.
    + intros _; eauto.
    + intros (st' & Hst' & _); discriminate.
    + intros H; exfalso; by apply H.
Qed.

(** Every state within reach has a cache of built records. *)
Lemma reachable_built (w : World) (st : VisitorState) :
  reachable w st -> cacheBuilt st.
Proof.
  induction 1 as [now | S st st' obj visitor s s' _ IH Hvisit | st walks _ IH].
  - intros node stored. simpl. rewrite lookup_empty. discriminate.
  - exact (visit_keeps_built w st st' obj visitor s s' IH Hvisit).
  - exact IH.
Qed.

(** ** C3 *)

(** C3: in every state of the visitor, [checkForInstability] throws if and
    only if some object of the walk cache, walked again at its turn of the
    scan, gives records other than the ones stored for it; and it returns
    normally, with the cache as it was, if and only if every cached object
    walks to its stored records.  While the interpreter does not change
    the turn does not matter: the check throws if and only if the cache
    holds an object whose walk gives other records than the stored
    ones. *)
Theorem checkForInstability_raises_iff (w : World) (st : VisitorState) :
  reachable w st ->
  ((exists e, checkForInstability w st = inl e) <->
   exists (i : nat) node stored,
     map_to_list (mPastVisits st) !! i = Some (node, stored) /\
     recordWalk (w (clock st + i)%nat) node <> stored) /\
  ((exists st', checkForInstability w st = inr st' /\
                mPastVisits st' = mPastVisits st) <->
   forall (i : nat) node stored,
     map_to_list (mPastVisits st) !! i = Some (node, stored) ->
     recordWalk (w (clock st + i)%nat) node = stored) /\
  (forall rt : PyRuntime,
      (forall n, w n = rt) ->
      ((exists e, checkForInstability w st = inl e) <->
       exists node stored,
         mPastVisits st !! node = Some stored /\ recordWalk rt node <> stored)).
Proof.
  intros Hreach. pose proof (reachable_built w st Hreach) as Hbuilt.
  destruct (checkForInstability_scan w st) as [Hthrows Hreturns].
  assert ((exists e, checkForInstability w st = inl e) <->
          exists (i : nat) node stored,
            map_to_list (mPastVisits st) !! i = Some (node, stored) /\
            recordWalk (w (clock st + i)%nat) node <> stored) as Hdiffers.
  { rewrite Hthrows, (someUnstable_differs w st Hbuilt).
    split; intros (i & node & stored & Hi & Hne); exists i, node, stored;
      (split; [exact Hi | congruence]). }
  split; [exact Hdiffers|]. split.
  - rewrite Hreturns. split.
    + intros Hstable i node stored Hi.
      assert (Forall VisitRecord.built stored) as Hs
        by (apply (Hbuilt node), elem_of_map_to_list, list_elem_of_lookup; eauto).
      symmetry. apply (vector_eqb_eq _ _ Hs (recordWalk_built _ _)).
      apply not_false_iff_true. intros Hne. apply Hstable.
      exists i, node, stored. by split.
    + intros Hsame (i & node & stored & Hi & Hne).
      rewrite (Hsame i node stored Hi), vector_eqb_refl in Hne. discriminate.
  - intros rt Hsteady. rewrite Hdiffers. split.
    + intros (i & node & stored & Hi & Hne). exists node, stored.
      rewrite Hsteady in Hne. split; [|exact Hne].
      apply elem_of_map_to_list, list_elem_of_lookup. eauto.
    + intros (node & stored & Hin & Hne).
      apply elem_of_map_to_list, list_elem_of_lookup in Hin as [i Hi].
      exists i, node, stored. by rewrite Hsteady.
Qed.

(** Object 700 was visited once, in a world where its class has changed
    since: the scan of the cache throws. *)
Lemma checkForInstability_raises_iff_witness :
  exists e, checkForInstability Demo.changing (Demo.visitedOnce 2) = inl e.
Proof.
  assert (reachable Demo.changing (Demo.visitedOnce 2)) as Hreach.
  { apply (reachable_visit Demo.changing (MkVisitorState ∅ 0) (Demo.visitedOnce 2)
             (ofPyobj 700%N) tracer [] [CallTopo (ofPyobj 702%N)]
             (reachable_empty Demo.changing 0)).
    vm_compute. reflexivity. }
  apply (proj2 (proj1 (checkForInstability_raises_iff Demo.changing
                         (Demo.visitedOnce 2) Hreach))).
  exists 0%nat, (ofPyobj 700%N), [VisitRecord.ofTopo (ofPyobj 701%N)].
  split; vm_compute; [reflexivity | discriminate].
Defined.

(** In a steady world the scan of the same cache returns. *)
Example checkForInstability_all_clear :
  checkForInstability Demo.steady (Demo.visitedOnce 2) =
  inr (MkVisitorState (mPastVisits (Demo.visitedOnce 2)) 3).
Proof. vm_compute. reflexivity. Qed.

(** ** C2 *)

(** C2: when the object is in the cache and the records of the fresh walk
    differ from the stored ones, [visit] runs [checkForInstability] and
    then throws: the exception of the check if the check throws, its own
    otherwise.  It does not return. *)
Theorem visit_mismatch_is_fatal {S : Type} (w : World) (st : VisitorState)
    (obj : TypeOrPyobj) (visitor : Visitor S) (s : S) (stored : list VisitRecord) :
  mPastVisits st !! obj = Some stored ->
  VisitRecord.vector_eqb stored (recordWalk (w (clock st)) obj) = false ->
  visit w st obj visitor s =
    match checkForInstability w (tick st) with
    | inl e => inl e
    | inr _ => inl (InstabilityCheckDidNotThrow obj)
    end
  /\ exists e, visit w st obj visitor s = inl e.
Proof.
  intros Hcached Hdiff.
  assert (visit w st obj visitor s =
          match checkForInstability w (tick st) with
          | inl e => inl e
          | inr _ => inl (InstabilityCheckDidNotThrow obj)
          end) as Hvisit.
  { unfold visit. simpl. rewrite Hcached, Hdiff. reflexivity. }
  split; [exact Hvisit|].
  rewrite Hvisit. destruct (checkForInstability w (tick st)); eauto.
Qed.

Lemma visit_mismatch_is_fatal_witness :
  exists e, visit Demo.changing (Demo.visitedOnce 2) (ofPyobj 700%N) tracer [] = inl e.
Proof.
  apply (visit_mismatch_is_fatal Demo.changing (Demo.visitedOnce 2) (ofPyobj 700%N)
           tracer [] [VisitRecord.ofTopo (ofPyobj 701%N)]).
  - reflexivity.
  - reflexivity.
Defined.

(** The scan throws when the object is still unstable at its turn ... *)
Example visit_mismatch_scan_throws :
  visit Demo.changing (Demo.visitedOnce 2) (ofPyobj 700%N) tracer [] =
  inl (FoundUnstableObjects 1
         [(ofPyobj 700%N, [VisitRecord.ofTopo (ofPyobj 702%N)],
           [VisitRecord.ofTopo (ofPyobj 701%N)])]).
Proof. vm_compute. reflexivity. Qed.

(** ... and when the scan finds every object back to its stored records,
    [visit] throws all the same. *)
Example visit_mismatch_scan_passes :
  checkForInstability Demo.flickering (tick (Demo.visitedOnce 1)) =
    inr (MkVisitorState (mPastVisits (Demo.visitedOnce 1)) 3) /\
  visit Demo.flickering (Demo.visitedOnce 1) (ofPyobj 700%N) tracer [] =
    inl (InstabilityCheckDidNotThrow (ofPyobj 700%N)).
Proof. split; vm_compute; reflexivity. Qed.

(** A first visit stores the records and streams the walk. *)
Example visit_first :
  visit Demo.steady (MkVisitorState ∅ 0) (ofPyobj 700%N) tracer [] =
  inr (Demo.visitedOnce 2, [CallTopo (ofPyobj 701%N)]).
Proof. vm_compute. reflexivity. Qed.

(** A first visit stores the records of its first walk. *)
Lemma visit_first_stores {S : Type} (w : World) (st : VisitorState)
    (obj : TypeOrPyobj) (visitor : Visitor S) (s : S) :
  mPastVisits st !! obj = None ->
  exists st' s',
    visit w st obj visitor s = inr (st', s') /\
    mPastVisits st' !! obj = Some (recordWalk (w (clock st)) obj) /\
    s' = walk visitor (w (Datatypes.S (clock st))) obj s.
Proof.
  intros Hnew. unfold visit. simpl. rewrite Hnew.
  eexists _, _. split; [reflexivity|]. simpl. by rewrite lookup_insert_eq.
Qed.

(** ** C8 *)

(** What a [visit] that returns has streamed is the walk of the object
    in the interpreter state that its second walk reads. *)
Lemma visit_streams_walk {S : Type} (w : World) (st st' : VisitorState)
    (obj : TypeOrPyobj) (visitor : Visitor S) (s s' : S) :
  visit w st obj visitor s = inr (st', s') ->
  s' = walk visitor (w (Datatypes.S (clock st))) obj s.
Proof.
  unfold visit. simpl.
  destruct (mPastVisits st !! obj) as [stored|].
  - destruct (VisitRecord.vector_eqb stored _); simpl.
    + by intros [= <- <-].
    + destruct (checkForInstability w (tick st)); discriminate.
  - by intros [= <- <-].
Qed.

(** C8, for an interpreter that is the same at the two walks of [visit]:
    when the record that [recordWalk] captures for the object is
    [records], and the cache has no other record for the object, [visit]
    returns, and the calls that it has streamed, each read as the record
    that [recordWalk] pushes for it, are [records], entry by entry.  Any
    visitor is handed these calls, in this order; and [records] is what a
    first visit leaves in the cache. *)
Theorem visit_streams_the_record {S : Type} (w : World) (st : VisitorState)
    (obj : TypeOrPyobj) (records : list VisitRecord) (visitor : Visitor S) (s : S) :
  recordWalk (w (clock st)) obj = records ->
  w (Datatypes.S (clock st)) = w (clock st) ->
  (forall stored, mPastVisits st !! obj = Some stored -> stored = records) ->
  exists (st' : VisitorState) (calls : list VisitCall),
    visit w st obj tracer [] = inr (st', calls) /\
    map recordOfCall calls = records /\
    visit w st obj visitor s = inr (st', for_each calls (deliver visitor) s) /\
    (mPastVisits st !! obj = None -> mPastVisits st' !! obj = Some records).
Proof.
  intros <- Hsame Hmatch.
  exists (match mPastVisits st !! obj with
          | Some _ => tick (tick st)
          | None => tick (MkVisitorState
                            (<[obj := recordWalk (w (clock st)) obj]> (mPastVisits st))
                            (Datatypes.S (clock st)))
          end), (walk tracer (w (clock st)) obj []).
  unfold visit. simpl. rewrite Hsame.
  destruct (mPastVisits st !! obj) as [stored|] eqn:Hobj.
  - rewrite (Hmatch stored eq_refl), vector_eqb_refl. simpl.
    split; [reflexivity|]. split; [by rewrite trace_records|].
    split; [by rewrite <- walk_delivers | discriminate].
  - split; [reflexivity|]. split; [by rewrite trace_records|].
    split; [by rewrite <- walk_delivers|].
    intros _. simpl. by rewrite lookup_insert_eq.
Qed.

Lemma visit_streams_the_record_witness :
  exists (st' : VisitorState) (calls : list VisitCall),
    visit Demo.steady (MkVisitorState ∅ 0) (ofPyobj 700%N) tracer [] = inr (st', calls) /\
    map recordOfCall calls = [VisitRecord.ofTopo (ofPyobj 701%N)] /\
    visit Demo.steady (MkVisitorState ∅ 0) (ofPyobj 700%N) recorder []
      = inr (st', for_each calls (deliver recorder) []) /\
    (mPastVisits (MkVisitorState ∅ 0) !! ofPyobj 700%N = None ->
     mPastVisits st' !! ofPyobj 700%N = Some [VisitRecord.ofTopo (ofPyobj 701%N)]).
Proof.
  apply (visit_streams_the_record Demo.steady (MkVisitorState ∅ 0) (ofPyobj 700%N)
           [VisitRecord.ofTopo (ofPyobj 701%N)] recorder []).
  - reflexivity.
  - reflexivity.
  - intros stored. simpl. rewrite lookup_empty. discriminate.
Defined.

(** C8 as stated fails when the interpreter changes between the two
    walks of [visit]: the class of object 700 is 701 when the record is
    captured and 702 when the walk is streamed.  The visit returns; the
    record that it has captured and stored names 701, the calls that it
    has streamed name 702. *)
Lemma visit_streams_another_record :
  visit Demo.changing (MkVisitorState ∅ 0) (ofPyobj 700%N) tracer [] =
    inr (MkVisitorState
           {[ ofPyobj 700%N := recordWalk (Demo.changing 0%nat) (ofPyobj 700%N) ]} 2,
         [CallTopo (ofPyobj 702%N)]) /\
  recordWalk (Demo.changing 0%nat) (ofPyobj 700%N) = [VisitRecord.ofTopo (ofPyobj 701%N)] /\
  map recordOfCall [CallTopo (ofPyobj 702%N)]
  <> recordWalk (Demo.changing 0%nat) (ofPyobj 700%N).
Proof.
  split; [|split].
  - vm_compute. reflexivity.
  - reflexivity.
  - vm_compute. discriminate.
Qed.

(** ** The blocks of the walker, as records *)

Ltac emits_step :=
  lazymatch goal with
  | |- emits (seq _ _) _ => eapply emits_seq
  | |- emits skip _ => apply emits_skip
  | |- emits (visitHash recorder _) _ => apply emits_hash
  | |- emits (visitName recorder _) _ => apply emits_name
  | |- emits (visitTopo recorder _) _ => apply emits_topo
  | |- emits (visitNamedTopo recorder _ _) _ => apply emits_named
  | |- emits (visitErr recorder _) _ => apply emits_err
  end.

Lemma concat_map_singleton {A B} (f : A -> B) (l : list A) :
  concat (map (fun x => [f x]) l) = map f l.
Proof. induction l; simpl; [done | by f_equal]. Qed.

Lemma concat_map_filter {A B} (p : A -> bool) (f : A -> B) (l : list A) :
  concat (map (fun x => if p x then [f x] else []) l) = map f (List.filter p l).
Proof.
  induction l as [|x l IH]; simpl; [done|].
  destruct (p x); simpl; by rewrite IH.
Qed.

Lemma visitTuple_emits (rt : PyRuntime) (t : addr) :
  emits (visitTuple recorder rt t) (sequenceRecords rt t).
Proof.
  unfold visitTuple, sequenceRecords. destruct (isNull t); [apply emits_hash|].
  eapply emits_eq.
  - eapply emits_seq; [apply emits_hash|].
    apply (emits_for_each _ _
             (fun k => [VisitRecord.ofTopo (ofPyobj (PyTuple_GetItem rt t k))])).
    intros k. apply emits_topo.
  - simpl. f_equal. rewrite concat_map_singleton. unfold tupleItems.
    by rewrite map_map.
Qed.

Lemma visitDict_emits (rt : PyRuntime) (d : addr) (ign : bool) :
  emits (visitDict recorder rt d ign) (dictRecords rt d ign).
Proof.
  unfold visitDict, dictRecords. destruct (isNull d); [apply emits_hash|].
  destruct (negb (PyDict_Check rt d)); [apply emits_err|].
  cbv zeta. eapply emits_eq.
  - eapply emits_seq; [apply emits_hash|].
    apply (emits_for_each _ _
             (fun nameAndO =>
                [pairRecord (fst nameAndO, PyDict_GetItem rt d (snd nameAndO))])).
    intros [name o]. unfold pairRecord. simpl.
    destruct (isNull (PyDict_GetItem rt d o)); [apply emits_err | apply emits_named].
  - simpl. f_equal. apply concat_map_singleton.
Qed.

Lemma visitDictOrTuple_emits (rt : PyRuntime) (t : addr) :
  emits (visitDictOrTuple recorder rt t) (dictOrTupleRecords rt t).
Proof.
  unfold visitDictOrTuple, dictOrTupleRecords.
  destruct (isNull t); [apply emits_hash|].
  destruct (PyDict_Check rt t); [apply visitDict_emits|].
  destruct (PyTuple_Check rt t); [apply visitTuple_emits | apply emits_err].
Qed.

Lemma walkClosure_emits (rt : PyRuntime) (c : addr) :
  emits (walkClosure recorder rt c) (closureRecords rt c).
Proof.
  unfold walkClosure, closureRecords. destruct (isNull c); simpl; [apply emits_hash|].
  eapply emits_eq.
  - eapply emits_seq; [apply emits_hash|].
    apply (emits_for_each _ _
             (fun k =>
                if negb (isNull (PyTuple_GetItem rt c k))
                   && PyCell_Check rt (PyTuple_GetItem rt c k)
                then [VisitRecord.ofTopo (ofPyobj (PyTuple_GetItem rt c k))]
                else [])).
    intros k. cbv zeta.
    destruct (negb (isNull (PyTuple_GetItem rt c k))
              && PyCell_Check rt (PyTuple_GetItem rt c k));
      [apply emits_topo | apply emits_skip].
  - simpl. f_equal. unfold tupleItems.
    rewrite <- (concat_map_filter
                  (fun o => negb (isNull o) && PyCell_Check rt o)
                  (fun o => VisitRecord.ofTopo (ofPyobj o))).
    by rewrite map_map.
Qed.

Lemma walkGlobals_emits (rt : PyRuntime) (f : PyFunctionObject) :
  emits (walkGlobals recorder rt f) (globalsRecords rt f).
Proof.
  unfold walkGlobals, globalsRecords.
  destruct (negb (isNull (func_globals f)) && PyDict_Check rt (func_globals f));
    [|apply emits_skip].
  eapply emits_eq.
  - apply (emits_for_each _ _
             (fun p =>
                if negb (default false (isSpecialIgnorableName (fst p)))
                then [VisitRecord.ofNameAndTopo (fst p) (ofPyobj (snd p))]
                else [])).
    intros p.
    destruct (negb (default false (isSpecialIgnorableName (fst p))));
      [apply emits_named | apply emits_skip].
  - apply (concat_map_filter
             (fun p => negb (default false (isSpecialIgnorableName (fst p))))
             (fun p => VisitRecord.ofNameAndTopo (fst p) (ofPyobj (snd p)))).
Qed.

Lemma walkCode_emits (rt : PyRuntime) (h : addr) :
  emits (walkCode recorder rt h) (codeRecords rt (asCode rt h)).
Proof.
  unfold walkCode. cbv zeta. eapply emits_eq.
  - repeat first [apply visitTuple_emits | emits_step].
  - reflexivity.
Qed.

Lemma walkFunctionRest_records (rt : PyRuntime) (h : addr) :
  emits (walkFunctionRest recorder rt h) (functionRestRecords rt h).
Proof.
  unfold walkFunctionRest. cbv zeta. eapply emits_eq.
  - repeat first [apply visitTuple_emits | apply visitDictOrTuple_emits
                 | apply walkGlobals_emits | emits_step].
  - reflexivity.
Qed.

Lemma walkFunction_emits (rt : PyRuntime) (h : addr) :
  emits (walkFunction recorder rt h)
    (VisitRecord.ofHash (ShaHashOf 5)
       :: closureRecords rt (func_closure (asFunction rt h))
       ++ functionRestRecords rt h).
Proof.
  unfold walkFunction. eapply emits_eq.
  - repeat first [apply walkClosure_emits | apply walkFunctionRest_records
                 | emits_step].
  - reflexivity.
Qed.

Lemma recordWalk_dispatch (rt : PyRuntime) (obj : TypeOrPyobj) (r : Rule) :
  dispatch rt obj = r ->
  recordWalk rt obj =
  match r with
  | RuleCode => walkCode recorder rt (mPyObj obj) []
  | RuleFunction => walkFunction recorder rt (mPyObj obj) []
  | RuleInstance => walkInstance recorder rt (mPyObj obj) []
  | RuleGloballyIdentifiable => walkGloballyIdentifiable recorder rt (mPyObj obj) []
  | _ => recordWalk rt obj
  end.
Proof. intros <-. unfold recordWalk, walk. by destruct (dispatch rt obj). Qed.

(** ** C5 *)

(** C5: the records of a code object are its discriminant 4; the argument
    count, the keyword-only argument count, the number of local slots, the
    stack size, the first line number and the SHA1 of the instruction
    bytes, as hashes; the tables of constants, names, variable names, free
    variables and cell variables, each as an ordered sequence; a reference
    to the bare name and one to the line-number table.  The flags and the
    file name of the code object do not enter: changing them leaves the
    records as they are. *)
Theorem walk_code_object (rt : PyRuntime) (obj : TypeOrPyobj) :
  dispatch rt obj = RuleCode ->
  let co := asCode rt (mPyObj obj) in
  recordWalk rt obj =
    [ VisitRecord.ofHash (ShaHashOf 4);
      VisitRecord.ofHash (ShaHashOf (co_argcount co));
      VisitRecord.ofHash (ShaHashOf (co_kwonlyargcount co));
      VisitRecord.ofHash (ShaHashOf (co_nlocals co));
      VisitRecord.ofHash (ShaHashOf (co_stacksize co));
      VisitRecord.ofHash (ShaHashOf (co_firstlineno co));
      VisitRecord.ofHash (SHA1 (codeBytes rt co)) ]
    ++ sequenceRecords rt (co_consts co)
    ++ sequenceRecords rt (co_names co)
    ++ sequenceRecords rt (co_varnames co)
    ++ sequenceRecords rt (co_freevars co)
    ++ sequenceRecords rt (co_cellvars co)
    ++ [ VisitRecord.ofTopo (ofPyobj (co_name co));
         VisitRecord.ofTopo (ofPyobj (co_linetable co)) ]
  /\ forall (flags : Z) (filename : addr),
       recordWalk (withCode rt (fun c => relocated c flags filename)) obj =
       recordWalk rt obj.
Proof.
  intros Hrule co. split.
  - rewrite (recordWalk_dispatch _ _ _ Hrule).
    apply (emits_run _ _ (walkCode_emits rt (mPyObj obj))).
  - intros flags filename.
    assert (dispatch (withCode rt (fun c => relocated c flags filename)) obj
            = RuleCode) as Hrule' by exact Hrule.
    rewrite (recordWalk_dispatch _ _ _ Hrule), (recordWalk_dispatch _ _ _ Hrule').
    rewrite (emits_run _ _ (walkCode_emits rt (mPyObj obj))).
    rewrite (emits_run _ _ (walkCode_emits _ (mPyObj obj))).
    reflexivity.
Qed.

Lemma walk_code_object_witness :
  recordWalk Demo.rt (ofPyobj 130%N) =
    [ VisitRecord.ofHash (ShaHashOf 4);
      VisitRecord.ofHash (ShaHashOf 1);
      VisitRecord.ofHash (ShaHashOf 0);
      VisitRecord.ofHash (ShaHashOf 2);
      VisitRecord.ofHash (ShaHashOf 3);
      VisitRecord.ofHash (ShaHashOf 10);
      VisitRecord.ofHash (SHA1 "dS");
      VisitRecord.ofHash (ShaHashOf 1); VisitRecord.ofTopo (ofPyobj 112%N);
      VisitRecord.ofHash (ShaHashOf 0);
      VisitRecord.ofHash (ShaHashOf 1); VisitRecord.ofTopo (ofPyobj 412%N);
      VisitRecord.ofHash (ShaHashOf 0);
      VisitRecord.ofHash (ShaHashOf 0);
      VisitRecord.ofTopo (ofPyobj 120%N);
      VisitRecord.ofTopo (ofPyobj 136%N) ].
Proof.
  exact (proj1 (walk_code_object Demo.rt (ofPyobj 130%N) eq_refl)).
Defined.

(** ** C9 *)

(** C9: the records of a function object whose closure tuple is not null
    start with the discriminant 5 and the length of the whole closure
    tuple; then comes one reference for each item of the tuple that is a
    cell, in order, and nothing for an item that is not a cell: no
    reference and no error entry.  The rest of the function block
    follows. *)
Theorem walk_function_closure (rt : PyRuntime) (obj : TypeOrPyobj) :
  dispatch rt obj = RuleFunction ->
  let func_closure := func_closure (asFunction rt (mPyObj obj)) in
  let cells :=
    List.filter (fun o => negb (isNull o) && PyCell_Check rt o)
      (tupleItems rt func_closure) in
  func_closure <> NULL ->
  recordWalk rt obj =
    VisitRecord.ofHash (ShaHashOf 5)
      :: VisitRecord.ofHash (ShaHashOf (PyTuple_Size rt func_closure))
      :: map (fun o => VisitRecord.ofTopo (ofPyobj o)) cells
      ++ walkFunctionRest recorder rt (mPyObj obj) []
  /\ Forall (fun r => VisitRecord.mKind r = VisitRecord.Topo)
       (map (fun o => VisitRecord.ofTopo (ofPyobj o)) cells).
Proof.
  intros Hrule c cells Hc. split.
  - rewrite (recordWalk_dispatch _ _ _ Hrule).
    rewrite (emits_run _ _ (walkFunction_emits rt (mPyObj obj))).
    rewrite (emits_run _ _ (walkFunctionRest_records rt (mPyObj obj))).
    unfold closureRecords. fold c.
    assert (isNull c = false) as -> by (by apply N.eqb_neq).
    reflexivity.
  - apply Forall_forall. intros r Hr. apply list_elem_of_In, in_map_iff in Hr.
    by destruct Hr as (o & <- & _).
Qed.

(** The closure of the demo function holds a cell and an integer: the
    length 2 is pushed, and one reference. *)
Lemma walk_function_closure_witness :
  recordWalk Demo.rt (ofPyobj 100%N) =
    VisitRecord.ofHash (ShaHashOf 5)
      :: VisitRecord.ofHash (ShaHashOf 2)
      :: [VisitRecord.ofTopo (ofPyobj 111%N)]
      ++ walkFunctionRest recorder Demo.rt 100%N [].
Proof.
  refine (proj1 (walk_function_closure Demo.rt (ofPyobj 100%N) eq_refl _)).
  discriminate.
Defined.

(** ** C6 *)

(** The records of the function block, attribute by attribute.  The
    positional defaults go to [visitTuple], the annotations and the
    keyword-only defaults to [visitDictOrTuple]. *)
Lemma walk_function_records (rt : PyRuntime) (obj : TypeOrPyobj) :
  dispatch rt obj = RuleFunction ->
  let h := mPyObj obj in
  recordWalk rt obj =
    VisitRecord.ofHash (ShaHashOf 5)
      :: closureRecords rt (func_closure (asFunction rt h))
      ++ [ VisitRecord.ofTopo (ofPyobj (func_name (asFunction rt h)));
           VisitRecord.ofTopo (ofPyobj (PyFunction_GetCode rt h)) ]
      ++ dictOrTupleRecords rt (PyFunction_GetAnnotations rt h)
      ++ sequenceRecords rt (PyFunction_GetDefaults rt h)
      ++ dictOrTupleRecords rt (PyFunction_GetKwDefaults rt h)
      ++ [ VisitRecord.ofHash (ShaHashOf 1) ]
      ++ globalsRecords rt (asFunction rt h)
      ++ [ VisitRecord.ofHash (ShaHashOf 0) ].
Proof.
  intros Hrule h. rewrite (recordWalk_dispatch _ _ _ Hrule).
  apply (emits_run _ _ (walkFunction_emits rt (mPyObj obj))).
Qed.

(** On what the positional defaults of a function can be, a tuple or
    nothing, [visitTuple] records what [visitDictOrTuple] would. *)
Lemma sequenceRecords_defaults (rt : PyRuntime) (h : addr) :
  defaultsAreTuple rt h ->
  sequenceRecords rt (PyFunction_GetDefaults rt h)
  = dictOrTupleRecords rt (PyFunction_GetDefaults rt h).
Proof.
  unfold defaultsAreTuple, dictOrTupleRecords. cbv zeta.
  intros [-> | [-> ->]]; [reflexivity|].
  destruct (isNull (PyFunction_GetDefaults rt h)) eqn:Hnull; [|reflexivity].
  unfold sequenceRecords. by rewrite Hnull.
Qed.

(** C6: the records of a function object are the discriminant 5, the
    closure, a reference to the name and one to the code object; then the
    annotations, the positional defaults and the keyword-only defaults,
    each decomposed by its shape; then the globals between the markers 1
    and 0.  Decomposed by its shape, a mapping gives what [visitDict]
    records for it and an ordered sequence what [visitTuple] records, its
    length and a reference to each item; an absent attribute gives a zero
    marker.  The positional defaults are a tuple or absent in every
    function object ([defaultsAreTuple]); the annotations and the
    keyword-only defaults are of any shape. *)
Theorem walk_function_attributes (rt : PyRuntime) (obj : TypeOrPyobj) :
  dispatch rt obj = RuleFunction ->
  defaultsAreTuple rt (mPyObj obj) ->
  let h := mPyObj obj in
  recordWalk rt obj =
    VisitRecord.ofHash (ShaHashOf 5)
      :: closureRecords rt (func_closure (asFunction rt h))
      ++ [ VisitRecord.ofTopo (ofPyobj (func_name (asFunction rt h)));
           VisitRecord.ofTopo (ofPyobj (PyFunction_GetCode rt h)) ]
      ++ dictOrTupleRecords rt (PyFunction_GetAnnotations rt h)
      ++ dictOrTupleRecords rt (PyFunction_GetDefaults rt h)
      ++ dictOrTupleRecords rt (PyFunction_GetKwDefaults rt h)
      ++ [ VisitRecord.ofHash (ShaHashOf 1) ]
      ++ globalsRecords rt (asFunction rt h)
      ++ [ VisitRecord.ofHash (ShaHashOf 0) ]
  /\ (forall t, t <> NULL -> PyDict_Check rt t = true ->
       dictOrTupleRecords rt t = visitDict recorder rt t false [])
  /\ (forall t, t <> NULL -> PyDict_Check rt t = false ->
       PyTuple_Check rt t = true ->
       dictOrTupleRecords rt t = visitTuple recorder rt t [] /\
       dictOrTupleRecords rt t =
         VisitRecord.ofHash (ShaHashOf (PyTuple_Size rt t))
           :: map (fun o => VisitRecord.ofTopo (ofPyobj o)) (tupleItems rt t))
  /\ dictOrTupleRecords rt NULL = [VisitRecord.ofHash (ShaHashOf 0)].
Proof.
  intros Hrule Hdefaults h. split; [|split; [|split]].
  - rewrite (walk_function_records _ _ Hrule).
    by rewrite (sequenceRecords_defaults _ _ Hdefaults).
  - intros t Ht Hdict. rewrite (emits_run _ _ (visitDict_emits rt t false)).
    unfold dictOrTupleRecords. apply N.eqb_neq in Ht. unfold isNull.
    by rewrite Ht, Hdict.
  - intros t Ht Hdict Htuple. rewrite (emits_run _ _ (visitTuple_emits rt t)).
    unfold dictOrTupleRecords, sequenceRecords. apply N.eqb_neq in Ht.
    unfold isNull. by rewrite Ht, Hdict, Htuple.
  - reflexivity.
Qed.

(** The demo function has its annotations in a dict and its positional
    defaults in a tuple; it has no keyword-only defaults. *)
Lemma walk_function_attributes_witness :
  recordWalk Demo.rt (ofPyobj 100%N) =
    [ VisitRecord.ofHash (ShaHashOf 5);
      VisitRecord.ofHash (ShaHashOf 2); VisitRecord.ofTopo (ofPyobj 111%N);
      VisitRecord.ofTopo (ofPyobj 120%N); VisitRecord.ofTopo (ofPyobj 130%N);
      VisitRecord.ofHash (ShaHashOf 1);
      VisitRecord.ofNameAndTopo "x" (ofPyobj 11%N);
      VisitRecord.ofHash (ShaHashOf 1); VisitRecord.ofTopo (ofPyobj 112%N);
      VisitRecord.ofHash (ShaHashOf 0);
      VisitRecord.ofHash (ShaHashOf 1);
      VisitRecord.ofHash (ShaHashOf 0) ].
Proof.
  exact (proj1 (walk_function_attributes Demo.rt (ofPyobj 100%N) eq_refl
                  (or_intror (conj eq_refl eq_refl)))).
Defined.

(** ** C1 *)

Lemma emits_deliver (c : VisitCall) : emits (deliver recorder c) [recordOfCall c].
Proof. destruct c; intros r; reflexivity. Qed.

Lemma emits_head (a : Act (list VisitRecord)) (x : VisitRecord) (out : list VisitRecord) :
  emits a out -> head out = Some x -> head (a []) = Some x.
Proof. intros H Hout. by rewrite H. Qed.

Ltac emits_block :=
  repeat first
    [ emits_step
    | apply visitDict_emits
    | apply visitTuple_emits
    | apply emits_deliver
    | lazymatch goal with
      | |- emits (for_each _ (deliver recorder)) _ =>
          apply (emits_for_each _ _ (fun c => [recordOfCall c])); intros ?
      | |- emits (for_each _ (fun x => visitTopo recorder (@?f x))) _ =>
          apply (emits_for_each _ _ (fun x => [VisitRecord.ofTopo (f x)])); intros ?
      end ].

(** The first record of a walk is the discriminant of its block: one of
    the constants that [discriminants] lists for the rule, when it lists
    any. *)
Lemma walk_leading_discriminant (rt : PyRuntime) (obj : TypeOrPyobj) :
  discriminants (dispatch rt obj) <> [] ->
  exists n : Z,
    In n (discriminants (dispatch rt obj)) /\
    head (recordWalk rt obj) = Some (VisitRecord.ofHash (ShaHashOf n)).
Proof.
  unfold recordWalk, walk. cbv zeta.
  destruct (dispatch rt obj); cbn [discriminants]; intros Hsome; try done.
  - exists 1; split; [simpl; auto|].
    eapply emits_head; [unfold walkType; emits_block | reflexivity].
  - exists 13; split; [simpl; auto|]. reflexivity.
  - exists 2; split; [simpl; auto|]. reflexivity.
  - exists 12; split; [simpl; auto|]. reflexivity.
  - exists 2; split; [simpl; auto|]. reflexivity.
  - exists 3; split; [simpl; auto|]. reflexivity.
  - exists 4; split; [simpl; auto|].
    eapply emits_head; [apply walkCode_emits | reflexivity].
  - exists 5; split; [simpl; auto|].
    eapply emits_head; [apply walkFunction_emits | reflexivity].
  - exists 6; split; [simpl; auto|]. unfold walkClass. cbv zeta.
    destruct (negb (isNull (tp_dict (asType rt (mPyObj obj)))));
      destruct (negb (isNull (tp_bases (asType rt (mPyObj obj)))));
      (eapply emits_head; [emits_block | reflexivity]).
  - unfold walkMethodWrapper, seq.
    destruct (N.eqb (ob_type rt (mPyObj obj)) Py.PyStaticMethod_Type);
      [exists 7 | exists 8]; (split; [simpl; auto|]);
      by destruct (isNull (PyObject_GetAttrString rt (mPyObj obj) "__func__")).
  - exists 9; split; [simpl; auto|].
    eapply emits_head; [unfold walkTuple; emits_block | reflexivity].
  - exists 10; split; [simpl; auto|]. reflexivity.
  - exists 11; split; [simpl; auto|]. unfold walkCell, seq.
    by destruct (negb (isNull (PyCell_Get rt (mPyObj obj)))).
Qed.

(** Two different rules share a discriminant only if they are the rule of
    the instances of type-graph types and the rule of the objects with a
    stable global name, which share the constant 2. *)
Lemma discriminants_shared (r1 r2 : Rule) (n : Z) :
  r1 <> r2 -> In n (discriminants r1) -> In n (discriminants r2) ->
  n = 2 /\
  (r1 = RuleInstance /\ r2 = RuleGloballyIdentifiable \/
   r1 = RuleGloballyIdentifiable /\ r2 = RuleInstance).
Proof.
  destruct r1, r2; simpl; intros Hne H1 H2; try done;
    repeat match goal with
           | H : _ \/ _ |- _ => destruct H
           | H : False |- _ => destruct H
           end; subst; try discriminate; auto.
Qed.

(** C1 (the walker breaks it): an instance of a type-graph type and an
    object with a stable global name are handled by two different blocks,
    and the records of both start with the same discriminant, 2. *)
Theorem discriminant_collision :
  dispatch Demo.rt (ofPyobj 300%N) = RuleInstance /\
  dispatch Demo.rt (ofPyobj 200%N) = RuleGloballyIdentifiable /\
  recordWalk Demo.rt (ofPyobj 300%N) =
    [VisitRecord.ofHash (ShaHashOf 2); VisitRecord.ofTopo (ofType 900%N)] /\
  recordWalk Demo.rt (ofPyobj 200%N) =
    [VisitRecord.ofHash (ShaHashOf 2); VisitRecord.ofName "builtins|len"].
Proof. repeat split; reflexivity. Qed.

(** The collision does not depend on the interpreter state. *)
Lemma discriminant_collision_everywhere (rt : PyRuntime) (a b : TypeOrPyobj) :
  dispatch rt a = RuleInstance -> dispatch rt b = RuleGloballyIdentifiable ->
  head (recordWalk rt a) = Some (VisitRecord.ofHash (ShaHashOf 2)) /\
  head (recordWalk rt b) = Some (VisitRecord.ofHash (ShaHashOf 2)).
Proof.
  intros Ha Hb.
  by rewrite (recordWalk_dispatch _ _ _ Ha), (recordWalk_dispatch _ _ _ Hb).
Qed.

(** ** The canonical-identity resolver *)

(** The resolver answers true exactly when the round trip does not fail,
    and it never leaves an exception pending. *)
Lemma isPyObjectGloballyIdentifiable_spec (rt : PyRuntime) (h : addr) :
  exists b : bool,
    isPyObjectGloballyIdentifiable rt h false = (b, false) /\
    (b = false <-> roundTripFails rt h).
Proof.
  unfold isPyObjectGloballyIdentifiable, roundTripFails, py_bind, py_ret,
    hasAttrString, orRaise, PyErr_Clear, isNull, NULL.
  destruct (PyObject_HasAttrString rt h "__module__"); simpl;
    [|exists false; split; [done | tauto]].
  destruct (PyObject_HasAttrString rt h "__name__"); simpl;
    [|exists false; split; [done | tauto]].
  destruct (N.eqb_spec (PyObject_GetAttrString rt h "__module__") 0) as [Hm|Hm];
    simpl; [exists false; split; [done | tauto]|].
  destruct (N.eqb_spec (PyObject_GetAttrString rt h "__name__") 0) as [Hn|Hn];
    simpl; [exists false; split; [done | tauto]|].
  destruct (PyUnicode_Check rt (PyObject_GetAttrString rt h "__module__")); simpl;
    [|exists false; split; [done | tauto]].
  destruct (PyUnicode_Check rt (PyObject_GetAttrString rt h "__name__")); simpl;
    [|exists false; split; [done | tauto]].
  destruct (N.eqb_spec (PyObject_GetItem rt Py.sysModuleModules
                          (PyObject_GetAttrString rt h "__module__")) 0)
    as [Hmo|Hmo]; simpl; [exists false; split; [done | tauto]|].
  destruct (N.eqb_spec (PyObject_GetAttr rt
                          (PyObject_GetItem rt Py.sysModuleModules
                             (PyObject_GetAttrString rt h "__module__"))
                          (PyObject_GetAttrString rt h "__name__")) 0)
    as [Ho|Ho]; simpl; [exists false; split; [done | tauto]|].
  destruct (N.eqb_spec (PyObject_GetAttr rt
                          (PyObject_GetItem rt Py.sysModuleModules
                             (PyObject_GetAttrString rt h "__module__"))
                          (PyObject_GetAttrString rt h "__name__")) h)
    as [Hid|Hid]; simpl.
  - exists true. split; [done|]. split; [done|].
    intros [?|[?|[?|[?|[?|[?|[?|[?|?]]]]]]]]; done.
  - exists false. split; [done|]. tauto.
Qed.

(** ** C7 *)

(** C7: when the round trip of a dynamic node fails (a lookup of the
    module qualifier or of the local name fails or gives a non-string, the
    module registry or the module has no such entry, or the entry is
    another object), the resolver answers that the node is not globally
    identifiable, with no exception left pending; the node is then not
    globally identifiable and stable either, and the walker goes on to the
    guards of the structural blocks, unless a block before the name check
    had already taken the node. *)
Theorem round_trip_failure_falls_through (rt : PyRuntime) (h : addr) :
  roundTripFails rt h ->
  isPyObjectGloballyIdentifiable rt h false = (false, false) /\
  isPyObjectGloballyIdentifiableAndStable rt h = false /\
  dispatch rt (ofPyobj h) <> RuleGloballyIdentifiable /\
  (dispatch rt (ofPyobj h) = dispatchStructural rt h \/
   In (dispatch rt (ofPyobj h))
      [RuleEnviron; RuleSimpleConstant; RuleInstance; RuleCanonicalModule]).
Proof.
  intros Hfails.
  destruct (isPyObjectGloballyIdentifiable_spec rt h) as (b & Hrun & Hb).
  apply Hb in Hfails. subst b.
  assert (isPyObjectGloballyIdentifiableAndStable rt h = false) as Hstable.
  { unfold isPyObjectGloballyIdentifiableAndStable, evalPy. by rewrite Hrun. }
  split; [exact Hrun|]. split; [exact Hstable|].
  unfold dispatch.
  change (negb (isNull (mType (ofPyobj h)))) with false.
  change (mPyObj (ofPyobj h)) with h.
  cbv iota zeta. rewrite Hstable.
  destruct (N.eqb (ob_type rt h) Py.environType);
    [split; [done | right; simpl; tauto]|].
  destruct (isSimpleConstant rt h); [split; [done | right; simpl; tauto]|].
  destruct (negb (isNull (extractTypeFrom rt (ob_type rt h))));
    [split; [done | right; simpl; tauto]|].
  destruct (isCanonicalModule rt h); [split; [done | right; simpl; tauto]|].
  split; [|by left].
  unfold dispatchStructural.
  repeat match goal with
         | |- (if ?b then _ else _) <> _ => destruct b; [done|]
         end.
  done.
Qed.

(** Object 601 names itself [mymod.f], but [mymod.f] is object 100: it is
    walked as a function. *)
Lemma round_trip_failure_falls_through_witness :
  isPyObjectGloballyIdentifiable Demo.rt 601%N false = (false, false) /\
  isPyObjectGloballyIdentifiableAndStable Demo.rt 601%N = false /\
  dispatch Demo.rt (ofPyobj 601%N) <> RuleGloballyIdentifiable /\
  (dispatch Demo.rt (ofPyobj 601%N) = dispatchStructural Demo.rt 601%N \/
   In (dispatch Demo.rt (ofPyobj 601%N))
      [RuleEnviron; RuleSimpleConstant; RuleInstance; RuleCanonicalModule]).
Proof.
  apply (round_trip_failure_falls_through Demo.rt 601%N).
  unfold roundTripFails. simpl. do 8 right. discriminate.
Defined.

(** A lookup that fails after [PyObject_HasAttrString] had found the
    attribute sets an exception; the resolver clears it. *)
Example failed_lookup_is_cleared (rt : PyRuntime) (h : addr) :
  PyObject_HasAttrString rt h "__module__" = true ->
  PyObject_HasAttrString rt h "__name__" = true ->
  PyObject_GetAttrString rt h "__module__" = NULL ->
  orRaise (PyObject_GetAttrString rt h "__module__") false = (NULL, true) /\
  isPyObjectGloballyIdentifiable rt h false = (false, false).
Proof.
  intros Hm Hn Hnull. split.
  - by rewrite Hnull.
  - unfold isPyObjectGloballyIdentifiable, py_bind, py_ret, hasAttrString,
      orRaise, PyErr_Clear.
    by rewrite Hm, Hn, Hnull.
Qed.

(** ** The order of names *)

Lemma lt_asym (a b : string) : StdString.lt a b -> StdString.lt b a -> False.
Proof.
  unfold StdString.lt. intros Hab Hba.
  rewrite String.compare_antisym, Hba in Hab. discriminate.
Qed.

Lemma lt_irrefl (a : string) : ~ StdString.lt a a.
Proof. intros H. exact (lt_asym a a H H). Qed.

Lemma lt_le (a b : string) : StdString.lt a b -> String.le a b.
Proof. unfold StdString.lt, String.le, String.leb. by intros ->. Qed.

Lemma lt_trans (a b c : string) :
  StdString.lt a b -> StdString.lt b c -> StdString.lt a c.
Proof.
  intros Hab Hbc.
  assert (String.le a c) as Hac by (transitivity b; by apply lt_le).
  unfold StdString.lt, String.le, String.leb in *.
  destruct (String.compare a c) eqn:E; [|done|done].
  apply String.compare_eq_iff in E. subst c.
  exfalso. exact (lt_asym a b Hab Hbc).
Qed.

Lemma compare_Gt_lt (a b : string) : String.compare a b = Gt -> StdString.lt b a.
Proof.
  unfold StdString.lt. intros H. by rewrite String.compare_antisym, H.
Qed.

(** ** [std::map] assignment *)

Lemma map_assign_names (names : list (string * addr)) (k : string) (v : addr) (x : string) :
  In x (map fst (map_assign names k v)) -> x = k \/ In x (map fst names).
Proof.
  induction names as [|[k' v'] rest IH]; simpl.
  - intros [<-|[]]; auto.
  - destruct (String.compare k k') eqn:E; simpl.
    + apply String.compare_eq_iff in E. subst k'. intuition auto.
    + intuition auto.
    + intros [<-|H]; [tauto|]. destruct (IH H); auto.
Qed.

Lemma map_assign_sorted (names : list (string * addr)) (k : string) (v : addr) :
  StronglySorted byName names -> StronglySorted byName (map_assign names k v).
Proof.
  induction 1 as [|[k' v'] rest Hsorted IH Hall]; simpl.
  - repeat constructor.
  - destruct (String.compare k k') eqn:E.
    + apply String.compare_eq_iff in E. subst k'. by constructor.
    + constructor; [by constructor|]. constructor; [exact E|].
      eapply Forall_impl; [exact Hall|]. intros [k'' v''] Hlt.
      unfold byName in *; simpl in *. eapply lt_trans; [exact E | exact Hlt].
    + constructor; [exact IH|].
      apply Forall_forall. intros [k'' v''] Hin.
      apply list_elem_of_In in Hin.
      assert (In k'' (map fst (map_assign rest k v))) as Hk
        by (apply in_map_iff; by exists (k'', v'')).
      apply map_assign_names in Hk as [->|Hk].
      * by apply compare_Gt_lt.
      * apply in_map_iff in Hk as ([k3 v3] & <- & Hin3).
        rewrite Forall_forall in Hall. apply (Hall (k3, v3)).
        by apply list_elem_of_In.
Qed.

Lemma map_assign_fresh (names : list (string * addr)) (k : string) (v : addr) :
  ~ In k (map fst names) -> Permutation (map_assign names k v) ((k, v) :: names).
Proof.
  induction names as [|[k' v'] rest IH]; simpl; intros Hfresh; [done|].
  destruct (String.compare k k') eqn:E.
  - apply String.compare_eq_iff in E. subst k'. exfalso. apply Hfresh. by left.
  - done.
  - rewrite IH by tauto. apply perm_swap.
Qed.

(** ** The names that [visitDict] collects *)

Section Collect.
Context (rt : PyRuntime) (d : addr) (ign : bool).

Lemma valued_names names : map fst (valued rt d names) = map fst names.
Proof. unfold valued. rewrite map_map. by apply map_ext. Qed.

Lemma valued_sorted names :
  StronglySorted byName names -> StronglySorted byName (valued rt d names).
Proof.
  unfold valued. induction 1 as [|p rest Hs IH Hall]; simpl; constructor.
  - exact IH.
  - apply Forall_forall. intros q Hq.
    apply list_elem_of_In, in_map_iff in Hq as (q' & <- & Hq').
    rewrite Forall_forall in Hall. apply (Hall q'). by apply list_elem_of_In.
Qed.

Lemma collectName_survives names o :
  collectName rt ign names o =
  if survives rt ign o then map_assign names (PyUnicode_AsUTF8 rt o) o else names.
Proof.
  unfold collectName, survives. destruct (PyUnicode_Check rt o); [|done].
  by destruct (negb _).
Qed.

Lemma survivingOf_cons o keys :
  survivingOf rt d ign (o :: keys) =
  if survives rt ign o
  then (PyUnicode_AsUTF8 rt o, PyDict_GetItem rt d o) :: survivingOf rt d ign keys
  else survivingOf rt d ign keys.
Proof. unfold survivingOf. simpl. by destruct (survives rt ign o). Qed.

Lemma collect_fold (keys : list addr) :
  forall acc,
    StronglySorted byName acc ->
    NoDup (map fst acc ++ map fst (survivingOf rt d ign keys)) ->
    StronglySorted byName (fold_left (collectName rt ign) keys acc) /\
    Permutation (valued rt d (fold_left (collectName rt ign) keys acc))
                (valued rt d acc ++ survivingOf rt d ign keys).
Proof.
  induction keys as [|o keys IH]; intros acc Hsorted Hnodup.
  - split; [done | by rewrite app_nil_r].
  - change (fold_left (collectName rt ign) (o :: keys) acc)
      with (fold_left (collectName rt ign) keys (collectName rt ign acc o)).
    rewrite collectName_survives. rewrite survivingOf_cons in *.
    destruct (survives rt ign o); [|by apply IH].
    set (name := PyUnicode_AsUTF8 rt o) in *.
    assert (~ In name (map fst acc)) as Hfresh.
    { intros Hin. apply NoDup_app in Hnodup as (_ & Hdisj & _).
      apply (Hdisj name); [by apply list_elem_of_In | by left]. }
    pose proof (map_assign_fresh acc name o Hfresh) as Hperm.
    destruct (IH (map_assign acc name o)) as [Hs Hp].
    + by apply map_assign_sorted.
    + rewrite (Permutation_map fst Hperm). simpl in *.
      by rewrite <- Permutation_middle in Hnodup.
    + split; [exact Hs|]. rewrite Hp.
      unfold valued at 1. rewrite (Permutation_map _ Hperm). simpl.
      apply Permutation_middle.
Qed.

(** The collected names are sorted, and with their values they are the
    surviving entries of the dict. *)
Lemma collectNames_sorted_perm :
  NoDup (map fst (survivingEntries rt d ign)) ->
  StronglySorted byName (valued rt d (collectNames rt d ign)) /\
  Permutation (valued rt d (collectNames rt d ign)) (survivingEntries rt d ign).
Proof.
  intros Hnodup.
  destruct (collect_fold (iterate rt d) []) as [Hs Hp].
  - constructor.
  - exact Hnodup.
  - split; [by apply valued_sorted | exact Hp].
Qed.

Lemma dictRecords_valued :
  d <> NULL -> PyDict_Check rt d = true ->
  dictRecords rt d ign =
  VisitRecord.ofHash
    (ShaHashOf (Z.of_nat (length (valued rt d (collectNames rt d ign)))))
    :: map pairRecord (valued rt d (collectNames rt d ign)).
Proof.
  intros Hd Hdict. unfold dictRecords.
  assert (isNull d = false) as -> by (by apply N.eqb_neq).
  rewrite Hdict. simpl. unfold valued. by rewrite length_map, map_map.
Qed.

End Collect.

(** ** C4 *)

(** C4, for mappings in which no two surviving keys have the same name:
    what [visitDict] records for such a mapping depends only on the
    (name, value) pairs that survive the filter, not on the order in which
    the mapping yields them.  The count of the surviving names comes
    first, then one entry per name, in increasing order of the names.  So
    two such mappings with the same surviving pairs in different orders
    have identical records. *)
Theorem visitDict_order_independent (rt1 rt2 : PyRuntime) (d1 d2 : addr) (ign : bool) :
  d1 <> NULL -> d2 <> NULL ->
  PyDict_Check rt1 d1 = true -> PyDict_Check rt2 d2 = true ->
  NoDup (map fst (survivingEntries rt1 d1 ign)) ->
  Permutation (survivingEntries rt1 d1 ign) (survivingEntries rt2 d2 ign) ->
  visitDict recorder rt1 d1 ign [] = visitDict recorder rt2 d2 ign [] /\
  exists sorted : list (string * addr),
    Permutation sorted (survivingEntries rt1 d1 ign) /\
    StronglySorted byName sorted /\
    visitDict recorder rt1 d1 ign [] =
      VisitRecord.ofHash (ShaHashOf (Z.of_nat (length sorted)))
        :: map pairRecord sorted.
Proof.
  intros Hd1 Hd2 Hdict1 Hdict2 Hnodup Hperm.
  assert (NoDup (map fst (survivingEntries rt2 d2 ign))) as Hnodup2.
  { by rewrite <- (Permutation_map fst Hperm). }
  destruct (collectNames_sorted_perm rt1 d1 ign Hnodup) as [Hs1 Hp1].
  destruct (collectNames_sorted_perm rt2 d2 ign Hnodup2) as [Hs2 Hp2].
  rewrite (emits_run _ _ (visitDict_emits rt1 d1 ign)).
  rewrite (emits_run _ _ (visitDict_emits rt2 d2 ign)).
  rewrite (dictRecords_valued rt1 d1 ign Hd1 Hdict1).
  rewrite (dictRecords_valued rt2 d2 ign Hd2 Hdict2).
  split; [|eauto].
  match goal with
  | |- _ :: map _ ?l1 = _ :: map _ ?l2 => assert (l1 = l2) as ->; [|done]
  end.
  apply (StronglySorted_unique_strong byName); [|done|done|].
  - intros p q _ _ Hpq Hqp. exfalso. exact (lt_asym _ _ Hpq Hqp).
  - by rewrite Hp1, Hp2.
Qed.

Lemma visitDict_order_independent_witness :
  visitDict recorder Demo.rt 400%N true [] = visitDict recorder Demo.rt 401%N true [].
Proof.
  refine (proj1 (visitDict_order_independent Demo.rt Demo.rt 400%N 401%N true
                   _ _ _ _ _ _)).
  - discriminate.
  - discriminate.
  - reflexivity.
  - reflexivity.
  - refine (bool_decide_unpack _ _). vm_compute. exact I.
  - vm_compute. apply perm_swap.
Defined.

(** C4 as stated fails for a mapping with two string keys of one name:
    the walker enters the two under that name, and keeps the one that the
    mapping yields last.  The dicts 440 and 441 hold the same two entries,
    under the keys ['a\0b'] and ['a\0c'], which both read ["a"]; each has
    one record entry, 440 for its second key and 441 for its first. *)
Lemma visitDict_same_name_order :
  Demo3.utf8 430%N <> Demo3.utf8 431%N /\
  PyUnicode_AsUTF8 Demo3.rt 430%N = "a" /\
  PyUnicode_AsUTF8 Demo3.rt 431%N = "a" /\
  iterate Demo3.rt 440%N = [430%N; 431%N] /\
  iterate Demo3.rt 441%N = [431%N; 430%N] /\
  (forall k : addr, PyDict_GetItem Demo3.rt 440%N k = PyDict_GetItem Demo3.rt 441%N k) /\
  Permutation (survivingEntries Demo3.rt 440%N false)
              (survivingEntries Demo3.rt 441%N false) /\
  visitDict recorder Demo3.rt 440%N false [] =
    [ VisitRecord.ofHash (ShaHashOf 1);
      VisitRecord.ofNameAndTopo "a" (ofPyobj 451%N) ] /\
  visitDict recorder Demo3.rt 441%N false [] =
    [ VisitRecord.ofHash (ShaHashOf 1);
      VisitRecord.ofNameAndTopo "a" (ofPyobj 450%N) ] /\
  visitDict recorder Demo3.rt 440%N false [] <> visitDict recorder Demo3.rt 441%N false [].
Proof.
  split; [discriminate|]. split; [reflexivity|]. split; [reflexivity|].
  split; [reflexivity|]. split; [reflexivity|]. split.
  { intros k. simpl.
    destruct k as [|p]; [reflexivity|].
    do 9 (destruct p as [p|p|]; try reflexivity). }
  split; [vm_compute; apply perm_swap|].
  split; [reflexivity|]. split; [reflexivity|].
  vm_compute. discriminate.
Qed.

(** * Further properties *)

(** ** [isCanonicalName] *)

Lemma find_dot_append (root rest : string) :
  StdString.find_dot root = None ->
  StdString.find_dot (String.append root (String "."%char rest))
  = Some (String.length root).
Proof.
  induction root as [|c root IH]; simpl; [done|].
  rewrite ?append_cons. simpl.
  destruct (Ascii.eqb c "."%char); [done|].
  destruct (StdString.find_dot root); [done|]. intros _. by rewrite IH.
Qed.

Lemma substring_append_l (s t : string) :
  String.substring 0 (String.length s) (String.append s t) = s.
Proof.
  induction s as [|c s IH]; simpl.
  - by destruct t.
  - rewrite ?append_cons. simpl. by rewrite IH.
Qed.

Lemma canonical_names_dotless :
  Forall (fun root => StdString.find_dot root = None /\ StdString.size root < 2 ^ 31)
         canonicalPythonModuleNames.
Proof. refine (bool_decide_unpack _ _). vm_compute. exact I. Qed.

(** A name without a dot is looked up whole: [find] gives [npos], which
    is [-1] as an [int] and [npos] again as a [size_t]. *)
Lemma isCanonicalName_dotless (name : string) :
  StdString.find_dot name = None ->
  isCanonicalName name = StdString.set_contains canonicalPythonModuleNames name.
Proof. intros Hdot. unfold isCanonicalName. rewrite Hdot. reflexivity. Qed.

(** A position below [2 ^ 31] is the same as an [int] and back. *)
Lemma of_size_t_small (n : Z) :
  0 <= n < 2 ^ 31 -> CInt.to_size_t (CInt.of_size_t n) = n.
Proof.
  intros Hn. unfold CInt.of_size_t, CInt.to_size_t.
  rewrite (Z.mod_small (n + 2 ^ 31)) by lia. rewrite Z.mod_small; lia.
Qed.

(** Only the part of a module name before its first dot counts, when that
    dot is at a position that an [int] holds: a submodule is canonical
    exactly when its top-level package is.  So every module of the
    allow-list is canonical with all its submodules, however deep.  A
    name that starts with a dot is not canonical. *)
Theorem isCanonicalName_root :
  (forall root rest : string,
      StdString.find_dot root = None ->
      StdString.size root < 2 ^ 31 ->
      isCanonicalName (String.append root (String "."%char rest))
      = isCanonicalName root) /\
  (forall root rest : string,
      In root canonicalPythonModuleNames ->
      isCanonicalName root = true /\
      isCanonicalName (String.append root (String "."%char rest)) = true) /\
  (forall rest : string, isCanonicalName (String "."%char rest) = false).
Proof.
  assert (forall root rest : string,
             StdString.find_dot root = None ->
             StdString.size root < 2 ^ 31 ->
             isCanonicalName (String.append root (String "."%char rest))
             = isCanonicalName root) as Hroot.
  { intros root rest Hdot Hshort.
    rewrite (isCanonicalName_dotless root Hdot).
    unfold isCanonicalName. rewrite (find_dot_append _ _ Hdot).
    unfold StdString.size in *.
    rewrite of_size_t_small by lia.
    assert ((Z.of_nat (String.length root) =? StdString.npos) = false) as ->
      by (apply Z.eqb_neq; unfold StdString.npos; lia).
    cbn [negb].
    rewrite string_length_app. cbn [String.length].
    replace (Z.to_nat (Z.min (Z.of_nat (String.length root))
                         (Z.of_nat (String.length root + Datatypes.S (String.length rest)))))
      with (String.length root) by lia.
    by rewrite substring_append_l. }
  split; [exact Hroot|]. split.
  - intros root rest Hin.
    assert (StdString.find_dot root = None /\ StdString.size root < 2 ^ 31)
      as [Hdot Hshort].
    { pose proof canonical_names_dotless as Hall.
      rewrite Forall_forall in Hall. by apply Hall, list_elem_of_In. }
    assert (isCanonicalName root = true) as Hcanon.
    { rewrite (isCanonicalName_dotless root Hdot). by apply set_contains_In. }
    split; [exact Hcanon|]. by rewrite Hroot.
  - intros rest. unfold isCanonicalName. cbn [StdString.find_dot].
    change (Ascii.eqb "." ".") with true. cbv iota.
    change (Z.of_nat 0) with 0. rewrite of_size_t_small by lia.
    change (0 =? StdString.npos) with false. cbn [negb].
    replace (Z.to_nat (Z.min 0 (StdString.size (String "."%char rest))))
      with 0%nat by (unfold StdString.size; lia).
    reflexivity.
Qed.

Lemma isCanonicalName_root_witness :
  isCanonicalName "os.path" = isCanonicalName "os".
Proof.
  apply (proj1 isCanonicalName_root "os" "path"); [reflexivity|].
  vm_compute. reflexivity.
Defined.

(** ** The print of the unstable objects *)

Lemma length_spaces (n : nat) (c : ascii) :
  String.length (string_of_list_ascii (repeat c n)) = n.
Proof. induction n as [|k IH]; simpl; [done | by rewrite IH]. Qed.

Lemma length_substring_0 (n : nat) (s : string) :
  (n <= String.length s)%nat -> String.length (String.substring 0 n s) = n.
Proof.
  revert n; induction s as [|c s IH]; intros [|n]; simpl; intros; try lia; try done.
  rewrite IH; lia.
Qed.

(** A width that is not negative: [pad] returns a string of that width. *)
Lemma pad_spec (s : string) (ct : Z) :
  0 <= ct < 2 ^ 31 ->
  exists r : string,
    Diagnostics.pad s ct = Some r /\
    String.length r = Z.to_nat ct /\
    (StdString.size s <= ct ->
     r = String.append s
           (string_of_list_ascii (repeat " "%char (Z.to_nat (ct - StdString.size s))))) /\
    (ct < StdString.size s -> r = String.substring 0 (Z.to_nat ct) s).
Proof.
  intros Hct. unfold Diagnostics.pad, CInt.to_size_t.
  rewrite (Z.mod_small ct) by lia.
  unfold StdString.substr, StdString.size_t_sub, StdString.size.
  destruct (Z.gtb_spec (Z.of_nat (String.length s)) ct) as [Hlong|Hfits].
  - assert ((Z.of_nat (String.length s) <? 0) = false) as -> by lia.
    replace (Z.to_nat (Z.min ct (Z.of_nat (String.length s) - 0)))
      with (Z.to_nat ct) by lia.
    change (Z.to_nat 0) with 0%nat.
    eexists; split; [reflexivity|]. split; [|split].
    + apply length_substring_0. lia.
    + lia.
    + done.
  - assert ((ct <? Z.of_nat (String.length s)) = false) as -> by lia.
    unfold Diagnostics.string_fill, Diagnostics.PTRDIFF_MAX.
    assert ((ct - Z.of_nat (String.length s) >? 2 ^ 63 - 1) = false) as -> by lia.
    eexists; split; [reflexivity|]. split; [|split].
    + rewrite string_length_app, length_spaces. lia.
    + done.
    + lia.
Qed.

(** The width of [pad] is an [int].  For a width that is not negative
    [pad] does not throw, and what it returns has exactly [ct]
    characters: [s] followed by spaces when [s] fits, the first [ct]
    characters of [s] when it does not.  For a negative width [pad]
    throws (on a string of fewer than [2 ^ 62] characters): as a [size_t]
    the width is beyond the string, and the fill has a size that no
    string can have. *)
Theorem pad_width (s : string) (ct : Z) :
  - 2 ^ 31 <= ct < 2 ^ 31 ->
  (0 <= ct ->
   exists r : string,
     Diagnostics.pad s ct = Some r /\
     String.length r = Z.to_nat ct /\
     (StdString.size s <= ct ->
      r = String.append s
            (string_of_list_ascii (repeat " "%char (Z.to_nat (ct - StdString.size s))))) /\
     (ct < StdString.size s -> r = String.substring 0 (Z.to_nat ct) s)) /\
  (ct < 0 -> StdString.size s < 2 ^ 62 -> Diagnostics.pad s ct = None).
Proof.
  intros Hint. split.
  - intros Hct. apply pad_spec. lia.
  - intros Hneg Hsize. unfold Diagnostics.pad, CInt.to_size_t.
    replace (ct mod 2 ^ 64) with (ct + 2 ^ 64)
      by (apply Z.mod_unique with (q := -1); lia).
    assert ((StdString.size s >? ct + 2 ^ 64) = false) as -> by lia.
    unfold StdString.size_t_sub.
    assert ((ct + 2 ^ 64 <? StdString.size s) = false) as -> by lia.
    unfold Diagnostics.string_fill, Diagnostics.PTRDIFF_MAX.
    assert ((ct + 2 ^ 64 - StdString.size s >? 2 ^ 63 - 1) = true) as -> by lia.
    reflexivity.
Qed.

Lemma pad_width_witness :
  (exists r : string,
     Diagnostics.pad "Topo(obj)" 4 = Some r /\
     String.length r = Z.to_nat 4 /\
     (StdString.size "Topo(obj)" <= 4 ->
      r = String.append "Topo(obj)"
            (string_of_list_ascii
               (repeat " "%char (Z.to_nat (4 - StdString.size "Topo(obj)"))))) /\
     (4 < StdString.size "Topo(obj)" ->
      r = String.substring 0 (Z.to_nat 4) "Topo(obj)")) /\
  Diagnostics.pad "Topo(obj)" (-1) = None.
Proof.
  split.
  - apply (pad_width "Topo(obj)" 4); lia.
  - apply (pad_width "Topo(obj)" (-1)); [lia | lia | vm_compute; reflexivity].
Defined.



(** The print of a record starts with the name of its kind: two records
    of different kinds are never printed alike, whatever the hashes and
    the object names print as. *)
Theorem toString_kind (digestAsHexString : ShaHash -> string)
    (name : TypeOrPyobj -> string) (a b : VisitRecord) :
  Diagnostics.toString digestAsHexString name a
  = Diagnostics.toString digestAsHexString name b ->
  VisitRecord.mKind a = VisitRecord.mKind b.
Proof.
  unfold Diagnostics.toString.
  destruct (VisitRecord.mKind a), (VisitRecord.mKind b);
    rewrite ?append_cons; intros H; try reflexivity; discriminate.
Qed.

Lemma toString_kind_witness :
  VisitRecord.mKind (VisitRecord.ofHash (ShaHashOf 4))
  = VisitRecord.mKind (VisitRecord.ofHash (ShaHashOf 5)).
Proof.
  apply (toString_kind Demo2.hex Demo2.objName). reflexivity.
Defined.

(** ** Equality of visit records *)

(** [operator==] of [VisitRecord] is an equivalence relation.  It looks at
    the kind and at the member that the kind uses, and at nothing else:
    two hash records with the same hash are equal whatever their other
    members hold. *)
Theorem VisitRecord_eqb_equivalence :
  (forall a : VisitRecord, VisitRecord.eqb a a = true) /\
  (forall a b : VisitRecord, VisitRecord.eqb a b = VisitRecord.eqb b a) /\
  (forall a b c : VisitRecord,
      VisitRecord.eqb a b = true -> VisitRecord.eqb b c = true ->
      VisitRecord.eqb a c = true) /\
  (forall (h : ShaHash) (n n' e e' : string) (o o' : TypeOrPyobj),
      VisitRecord.eqb (VisitRecord.Mk VisitRecord.Hash n e h o)
                      (VisitRecord.Mk VisitRecord.Hash n' e' h o') = true).
Proof.
  split; [exact VisitRecord_eqb_refl|]. split; [|split].
  - intros [ka na ea ha oa] [kb nb eb hb ob]. unfold VisitRecord.eqb. simpl.
    destruct (decide (ka = kb)) as [->|Hk].
    + rewrite (bool_decide_eq_true_2 (kb = kb)) by done. simpl.
      assert (bool_decide (ha = hb) = bool_decide (hb = ha)) as Hh
        by (apply bool_decide_ext; split; congruence).
      assert (bool_decide (oa = ob) = bool_decide (ob = oa)) as Ho
        by (apply bool_decide_ext; split; congruence).
      destruct kb;
        by rewrite ?Hh, ?Ho, ?(String.eqb_sym na nb), ?(String.eqb_sym ea eb).
    + rewrite (bool_decide_eq_false_2 (ka = kb)) by done.
      rewrite (bool_decide_eq_false_2 (kb = ka)) by congruence. done.
  - intros [ka na ea ha oa] [kb nb eb hb ob] [kc nc ec hc oc].
    unfold VisitRecord.eqb. simpl.
    destruct (decide (ka = kb)) as [->|Hk];
      [|by rewrite (bool_decide_eq_false_2 (ka = kb)) by done].
    destruct (decide (kb = kc)) as [->|Hk];
      [|by rewrite (bool_decide_eq_false_2 (kb = kc)) by done].
    rewrite (bool_decide_eq_true_2 (kc = kc)) by done. simpl.
    destruct kc;
      rewrite ?andb_true_iff, ?bool_decide_eq_true, ?String.eqb_eq;
      intros; destruct_and?; split_and?; congruence.
  - intros. unfold VisitRecord.eqb. simpl.
    by rewrite (bool_decide_eq_true_2 (h = h)).
Qed.

(** On the records of two walks, [operator==] of the vectors is equality
    of the entry sequences. *)
Theorem recordWalk_eqb (rt1 rt2 : PyRuntime) (a b : TypeOrPyobj) :
  VisitRecord.vector_eqb (recordWalk rt1 a) (recordWalk rt2 b) = true <->
  recordWalk rt1 a = recordWalk rt2 b.
Proof. apply vector_eqb_eq; apply recordWalk_built. Qed.

(** ** The life of the cache *)

(** A visit that returns has made two walks, has left every entry of the
    cache as it was and has an entry for the visited object; it adds no
    other entry. *)
Theorem visit_cache_grows {S : Type} (w : World) (st st' : VisitorState)
    (obj : TypeOrPyobj) (visitor : Visitor S) (s s' : S) :
  visit w st obj visitor s = inr (st', s') ->
  (forall node stored,
      mPastVisits st !! node = Some stored ->
      mPastVisits st' !! node = Some stored) /\
  is_Some (mPastVisits st' !! obj) /\
  (forall node, node <> obj -> mPastVisits st' !! node = mPastVisits st !! node) /\
  clock st' = (clock st + 2)%nat.
Proof.
  unfold visit. simpl.
  destruct (mPastVisits st !! obj) as [stored|] eqn:Hobj.
  - destruct (VisitRecord.vector_eqb stored _); simpl.
    + intros [= <- <-]. simpl. repeat split; eauto. lia.
    + destruct (checkForInstability w (tick st)); discriminate.
  - intros [= <- <-]. simpl. repeat split.
    + intros node stored Hnode. rewrite lookup_insert_ne; [done | congruence].
    + rewrite lookup_insert_eq. eauto.
    + intros node Hne. by rewrite lookup_insert_ne.
    + lia.
Qed.

Lemma visit_cache_grows_witness :
  is_Some (mPastVisits (Demo.visitedOnce 2) !! ofPyobj 700%N).
Proof.
  refine (proj1 (proj2 (visit_cache_grows Demo.steady (MkVisitorState ∅ 0)
                          (Demo.visitedOnce 2) (ofPyobj 700%N) tracer []
                          [CallTopo (ofPyobj 701%N)] _))).
  vm_compute. reflexivity.
Defined.

(** No false alarm: while the interpreter does not change, a visit of an
    object that a cache in agreement with the interpreter already holds
    does not throw.  It returns after two walks, having streamed the walk
    of the object, and the cache is as it was. *)
Theorem visit_steady {S : Type} (rt : PyRuntime) (st : VisitorState)
    (obj : TypeOrPyobj) (stored : list VisitRecord) (visitor : Visitor S) (s : S) :
  consistent rt st ->
  mPastVisits st !! obj = Some stored ->
  visit (fun _ => rt) st obj visitor s =
    inr (MkVisitorState (mPastVisits st) (clock st + 2)%nat, walk visitor rt obj s).
Proof.
  intros Hcons Hobj. unfold visit. simpl. rewrite Hobj.
  rewrite (Hcons _ _ Hobj), vector_eqb_refl. simpl.
  replace (clock st + 2)%nat with (Datatypes.S (Datatypes.S (clock st))) by lia.
  reflexivity.
Qed.

Lemma visit_steady_witness :
  visit (fun _ => Demo.rt) (Demo.visitedOnce 2) (ofPyobj 700%N) tracer [] =
    inr (MkVisitorState (mPastVisits (Demo.visitedOnce 2)) (2 + 2)%nat,
         walk tracer Demo.rt (ofPyobj 700%N) []).
Proof.
  apply (visit_steady Demo.rt (Demo.visitedOnce 2) (ofPyobj 700%N)
           [VisitRecord.ofTopo (ofPyobj 701%N)] tracer []).
  - intros node stored. unfold Demo.visitedOnce. simpl.
    destruct (decide (node = ofPyobj 700%N)) as [->|Hne].
    + rewrite lookup_singleton_eq. intros [= <-]. reflexivity.
    + rewrite lookup_singleton_ne by done. discriminate.
  - reflexivity.
Defined.

(** While the interpreter does not change, the scan of a cache that
    agrees with it finds nothing: [checkForInstability] returns, after one
    walk per entry. *)
Theorem checkForInstability_steady (rt : PyRuntime) (st : VisitorState) :
  consistent rt st ->
  checkForInstability (fun _ => rt) st =
  inr (MkVisitorState (mPastVisits st) (clock st + size (mPastVisits st))%nat).
Proof.
  intros Hcons.
  assert (~ someUnstable (fun _ => rt) st) as Hstable.
  { rewrite someUnstable_steady. intros (node & stored & Hnode & Hne).
    rewrite (Hcons _ _ Hnode), vector_eqb_refl in Hne. discriminate. }
  rewrite someUnstable_findUnstable in Hstable.
  pose proof (findUnstable_clock (fun _ => rt) (map_to_list (mPastVisits st))
                (clock st)) as Hclock.
  unfold checkForInstability.
  destruct (findUnstable (fun _ => rt) (clock st) (map_to_list (mPastVisits st)))
    as [unstable now]; simpl in *.
  destruct unstable; [|by exfalso; apply Hstable].
  simpl. by rewrite Hclock, length_map_to_list.
Qed.

Lemma checkForInstability_steady_witness :
  checkForInstability (fun _ => Demo.rt) (Demo.visitedOnce 2) =
  inr (MkVisitorState (mPastVisits (Demo.visitedOnce 2))
         (2 + size (mPastVisits (Demo.visitedOnce 2)))%nat).
Proof.
  apply (checkForInstability_steady Demo.rt (Demo.visitedOnce 2)).
  intros node stored. unfold Demo.visitedOnce. simpl.
  destruct (decide (node = ofPyobj 700%N)) as [->|Hne].
  - rewrite lookup_singleton_eq. intros [= <-]. reflexivity.
  - rewrite lookup_singleton_ne by done. discriminate.
Defined.

(** A change is not missed: when an object is visited for the first time
    and its walk at the next visit gives other records, the first visit
    returns and the second throws. *)
Theorem visit_detects_change {S : Type} (w : World) (st : VisitorState)
    (obj : TypeOrPyobj) (v1 v2 : Visitor S) (s1 s2 : S) :
  mPastVisits st !! obj = None ->
  recordWalk (w (clock st)) obj <> recordWalk (w (clock st + 2)%nat) obj ->
  exists (st1 : VisitorState) (s1' : S),
    visit w st obj v1 s1 = inr (st1, s1') /\
    exists e : runtime_error, visit w st1 obj v2 s2 = inl e.
Proof.
  intros Hnew Hchanged.
  eexists _, _. split.
  - unfold visit. simpl. rewrite Hnew. reflexivity.
  - unfold visit. simpl. rewrite lookup_insert_eq.
    replace (Datatypes.S (Datatypes.S (clock st))) with (clock st + 2)%nat by lia.
    assert (VisitRecord.vector_eqb (recordWalk (w (clock st)) obj)
              (recordWalk (w (clock st + 2)%nat) obj) = false) as ->.
    { apply not_true_iff_false.
      by rewrite (vector_eqb_eq _ _ (recordWalk_built _ _) (recordWalk_built _ _)). }
    simpl. match goal with |- context [checkForInstability ?w' ?st'] =>
             destruct (checkForInstability w' st') end; eauto.
Qed.

Lemma visit_detects_change_witness :
  exists (st1 : VisitorState) (s1' : list VisitCall),
    visit Demo.changing (MkVisitorState ∅ 0) (ofPyobj 700%N) tracer [] = inr (st1, s1') /\
    exists e : runtime_error, visit Demo.changing st1 (ofPyobj 700%N) tracer [] = inl e.
Proof.
  apply (visit_detects_change Demo.changing (MkVisitorState ∅ 0) (ofPyobj 700%N)
           tracer tracer [] []).
  - reflexivity.
  - vm_compute. discriminate.
Defined.

(** ** The report of the scan *)

Lemma findUnstable_nodes (w : World) (entries : list (TypeOrPyobj * list VisitRecord)) :
  forall now,
    (length (fst (findUnstable w now entries)) <= length entries)%nat /\
    forall node, In node (fst (findUnstable w now entries)) ->
                 exists stored, In (node, stored) entries.
Proof.
  induction entries as [|[node stored] rest IH]; intros now; simpl.
  - split; [lia | done].
  - specialize (IH (Datatypes.S now)).
    destruct (findUnstable w (Datatypes.S now) rest) as [unstable now'].
    simpl in *. destruct IH as [Hlen Hin].
    destruct (negb _); simpl.
    + split; [lia|]. intros n [<-|Hn]; [eauto|].
      destruct (Hin n Hn) as [s' Hs']. eauto.
    + split; [lia|]. intros n Hn. destruct (Hin n Hn) as [s' Hs']. eauto.
Qed.

Lemma reportUnstable_shape (w : World) (cache : gmap TypeOrPyobj (list VisitRecord))
    (unstable : list TypeOrPyobj) :
  forall now,
    (forall node, In node unstable -> is_Some (cache !! node)) ->
    length (reportUnstable w now cache unstable) = length unstable /\
    Forall (fun entry => cache !! (fst (fst entry)) = Some (snd entry))
           (reportUnstable w now cache unstable).
Proof.
  induction unstable as [|node rest IH]; intros now Hin; simpl.
  - split; [done | constructor].
  - destruct (IH (Datatypes.S now)) as [Hlen Hall]; [intros; apply Hin; by right|].
    split; [by rewrite Hlen|]. constructor; [|exact Hall].
    simpl. destruct (Hin node) as [stored Hs]; [by left|]. by rewrite Hs.
Qed.

(** When [checkForInstability] throws, its exception carries the number
    of unstable objects, which is at least one and at most the size of the
    cache, and a report of the first thousand of them; every reported
    object is in the cache, with the stored records that the report shows
    beside the new ones. *)
Theorem checkForInstability_report (w : World) (st : VisitorState)
    (e : runtime_error) :
  checkForInstability w st = inl e ->
  exists count report,
    e = FoundUnstableObjects count report /\
    (1 <= count <= size (mPastVisits st))%nat /\
    length report = Nat.min count 1000 /\
    Forall (fun entry => mPastVisits st !! (fst (fst entry)) = Some (snd entry))
           report.
Proof.
  unfold checkForInstability.
  pose proof (findUnstable_nodes w (map_to_list (mPastVisits st)) (clock st))
    as [Hlen Hin].
  destruct (findUnstable w (clock st) (map_to_list (mPastVisits st)))
    as [unstable now]; cbn [fst] in *.
  destruct unstable as [|node unstable]; [discriminate|].
  change (Nat.eqb (length (node :: unstable)) 0) with false. cbv iota.
  intros [= <-]. eexists _, _. split; [reflexivity|].
  rewrite length_map_to_list in Hlen.
  destruct (reportUnstable_shape w (mPastVisits st)
              (take 1000 (node :: unstable)) now) as [Hrlen Hall].
  { intros n Hn. apply list_elem_of_In, elem_of_take in Hn as (i & Hi & _).
    apply list_elem_of_lookup_2, list_elem_of_In, Hin in Hi as [stored Hs].
    apply list_elem_of_In, elem_of_map_to_list in Hs. eauto. }
  split; [cbn [length] in *; lia|]. split; [|exact Hall].
  transitivity (length (take 1000 (node :: unstable))); [exact Hrlen|].
  rewrite length_take. cbn [length]. lia.
Qed.

Lemma checkForInstability_report_witness :
  exists count report,
    FoundUnstableObjects 1
      [(ofPyobj 700%N, [VisitRecord.ofTopo (ofPyobj 702%N)],
        [VisitRecord.ofTopo (ofPyobj 701%N)])]
      = FoundUnstableObjects count report /\
    (1 <= count <= size (mPastVisits (Demo.visitedOnce 2)))%nat /\
    length report = Nat.min count 1000 /\
    Forall (fun entry =>
              mPastVisits (Demo.visitedOnce 2) !! (fst (fst entry)) = Some (snd entry))
           report.
Proof.
  apply (checkForInstability_report Demo.changing (Demo.visitedOnce 2)).
  vm_compute. reflexivity.
Defined.

(** ** Type-graph nodes *)

(** The records of a type-graph node are the discriminant 1 and what the
    type's own enumeration of its internals calls; nothing of the
    interpreter enters: two interpreter states in which the type
    enumerates the same give the same records. *)
Theorem walk_type_node (rt : PyRuntime) (obj : TypeOrPyobj) :
  mType obj <> NULL ->
  recordWalk rt obj =
    VisitRecord.ofHash (ShaHashOf 1)
      :: map recordOfCall (visitCompilerVisibleInternals rt (mType obj)) /\
  forall rt' : PyRuntime,
    visitCompilerVisibleInternals rt' (mType obj)
    = visitCompilerVisibleInternals rt (mType obj) ->
    recordWalk rt' obj = recordWalk rt obj.
Proof.
  intros Htype.
  assert (forall r : PyRuntime,
             recordWalk r obj =
             VisitRecord.ofHash (ShaHashOf 1)
               :: map recordOfCall (visitCompilerVisibleInternals r (mType obj)))
    as Hrec.
  { intros r. unfold recordWalk, walk, dispatch.
    assert (negb (isNull (mType obj)) = true) as ->
      by (apply negb_true_iff; by apply N.eqb_neq).
    cbv zeta iota.
    eapply emits_run, emits_eq.
    - unfold walkType. emits_block.
    - simpl. by rewrite concat_map_singleton. }
  split; [apply Hrec|]. intros rt' Hsame. by rewrite !Hrec, Hsame.
Qed.

Lemma walk_type_node_witness :
  recordWalk Demo2.rt (ofType 900%N) =
    [ VisitRecord.ofHash (ShaHashOf 1);
      VisitRecord.ofHash (ShaHashOf 7);
      VisitRecord.ofName "Int64" ].
Proof.
  refine (proj1 (walk_type_node Demo2.rt (ofType 900%N) _)). discriminate.
Defined.

(** ** The names of a mapping *)

Lemma map_assign_In (names : list (string * addr)) (k : string) (v : addr)
    (p : string * addr) :
  In p (map_assign names k v) -> p = (k, v) \/ In p names.
Proof.
  induction names as [|[k' v'] rest IH]; simpl.
  - intros [<-|[]]; auto.
  - destruct (String.compare k k'); simpl; intuition auto.
Qed.

Lemma collect_fold_invariant (rt : PyRuntime) (ign : bool) (keys : list addr) :
  forall acc,
    StronglySorted byName acc ->
    StronglySorted byName (fold_left (collectName rt ign) keys acc) /\
    forall p, In p (fold_left (collectName rt ign) keys acc) ->
              In p acc \/
              (In (snd p) keys /\ survives rt ign (snd p) = true /\
               PyUnicode_AsUTF8 rt (snd p) = fst p).
Proof.
  induction keys as [|o keys IH]; intros acc Hsorted.
  - split; [done | auto].
  - change (fold_left (collectName rt ign) (o :: keys) acc)
      with (fold_left (collectName rt ign) keys (collectName rt ign acc o)).
    rewrite collectName_survives.
    destruct (survives rt ign o) eqn:Hsurv.
    + destruct (IH (map_assign acc (PyUnicode_AsUTF8 rt o) o)) as [Hs Hin];
        [by apply map_assign_sorted|].
      split; [exact Hs|]. intros p Hp.
      destruct (Hin p Hp) as [Hacc|(Hk & Hsv & Hname)].
      * apply map_assign_In in Hacc as [->|Hacc]; [|by left].
        right. simpl. auto.
      * right. simpl. auto.
    + destruct (IH acc Hsorted) as [Hs Hin]. split; [exact Hs|].
      intros p Hp. destruct (Hin p Hp) as [Hacc|(Hk & Hsv & Hname)]; [by left|].
      right. simpl. auto.
Qed.

(** A key that [visitDict] does not enter (it is not a string, or special
    names are ignored and its name is ignorable) leaves no trace: a mapping
    with such a key, anywhere in its iteration order, has the records of
    the mapping without it. *)
Theorem visitDict_skips_key (rt : PyRuntime) (d1 d2 : addr) (ign : bool)
    (l1 l2 : list addr) (o : addr) :
  d1 <> NULL -> d2 <> NULL ->
  PyDict_Check rt d1 = true -> PyDict_Check rt d2 = true ->
  iterate rt d1 = l1 ++ l2 ->
  iterate rt d2 = l1 ++ o :: l2 ->
  survives rt ign o = false ->
  (forall k, In k (l1 ++ l2) -> PyDict_GetItem rt d1 k = PyDict_GetItem rt d2 k) ->
  visitDict recorder rt d1 ign [] = visitDict recorder rt d2 ign [].
Proof.
  intros Hd1 Hd2 Hdict1 Hdict2 Hkeys1 Hkeys2 Hskip Hvalues.
  assert (collectNames rt d2 ign = collectNames rt d1 ign) as Hnames.
  { unfold collectNames. rewrite Hkeys1, Hkeys2, !fold_left_app. simpl.
    by rewrite collectName_survives, Hskip. }
  rewrite (emits_run _ _ (visitDict_emits rt d1 ign)).
  rewrite (emits_run _ _ (visitDict_emits rt d2 ign)).
  unfold dictRecords.
  assert (isNull d1 = false) as -> by (by apply N.eqb_neq).
  assert (isNull d2 = false) as -> by (by apply N.eqb_neq).
  rewrite Hdict1, Hdict2, Hnames. simpl. f_equal.
  apply map_ext_in. intros [name k] Hin. simpl.
  destruct (collect_fold_invariant rt ign (iterate rt d1) []) as [_ Hfrom];
    [constructor|].
  destruct (Hfrom _ Hin) as [[]|(Hk & _)]. simpl in Hk.
  rewrite Hkeys1 in Hk. by rewrite (Hvalues k Hk).
Qed.

(** The dict 810 has the entries of the dict 400 and one under
    [__loader__]: as the dict of a class, it has the records of 400. *)
Lemma visitDict_skips_key_witness :
  visitDict recorder Demo2.rt 400%N true [] = visitDict recorder Demo2.rt 810%N true [].
Proof.
  apply (visitDict_skips_key Demo2.rt 400%N 810%N true [] [410%N; 411%N] 811%N).
  - discriminate.
  - discriminate.
  - reflexivity.
  - reflexivity.
  - reflexivity.
  - reflexivity.
  - reflexivity.
  - intros k [<-|[<-|[]]]; reflexivity.
Defined.

(** ** Keys of one name *)

Lemma compare_refl (a : string) : String.compare a a = Eq.
Proof.
  pose proof (String.compare_antisym a a) as H.
  by destruct (String.compare a a).
Qed.

Lemma compare_Lt_Gt (a b : string) : String.compare a b = Lt -> String.compare b a = Gt.
Proof. intros H. by rewrite String.compare_antisym, H. Qed.

Lemma compare_Gt_Lt (a b : string) : String.compare a b = Gt -> String.compare b a = Lt.
Proof. intros H. by rewrite String.compare_antisym, H. Qed.

Lemma compare_Lt_trans (a b c : string) :
  String.compare a b = Lt -> String.compare b c = Lt -> String.compare a c = Lt.
Proof. apply lt_trans. Qed.

(** [names[k] = v; names[k] = v'] is [names[k] = v']. *)
Lemma map_assign_overwrite (names : list (string * addr)) (k : string) (v v' : addr) :
  map_assign (map_assign names k v) k v' = map_assign names k v'.
Proof.
  induction names as [|[k' w] rest IH]; simpl.
  - by rewrite compare_refl.
  - destruct (String.compare k k') eqn:E; simpl.
    + by rewrite compare_refl.
    + by rewrite compare_refl.
    + by rewrite E, IH.
Qed.

(** Rewriting with what is known of the order of two keys. *)
Ltac compare_known :=
  repeat first
    [ rewrite compare_refl
    | match goal with
      | H : String.compare ?a ?b = _ |- context [String.compare ?a ?b] => rewrite H
      | H : String.compare ?a ?b = Lt |- context [String.compare ?b ?a] =>
          rewrite (compare_Lt_Gt _ _ H)
      | H : String.compare ?a ?b = Gt |- context [String.compare ?b ?a] =>
          rewrite (compare_Gt_Lt _ _ H)
      end
    | progress cbn [map_assign] ].

(** What is known of the order of some keys is contradictory. *)
Ltac order_false :=
  exfalso;
  repeat match goal with
         | H : String.compare _ _ = Gt |- _ => apply compare_Gt_Lt in H
         end;
  match goal with
  | H1 : String.compare ?a ?b = Lt, H2 : String.compare ?b ?a = Lt |- _ =>
      exact (lt_asym a b H1 H2)
  | H1 : String.compare ?a ?b = Lt, H2 : String.compare ?b ?c = Lt,
    H3 : String.compare ?c ?a = Lt |- _ =>
      exact (lt_asym a c (lt_trans a b c H1 H2) H3)
  end.

(** Assignments under two different keys can be made in either order. *)
Lemma map_assign_comm (names : list (string * addr)) (k1 k2 : string) (v1 v2 : addr) :
  k1 <> k2 ->
  map_assign (map_assign names k1 v1) k2 v2 = map_assign (map_assign names k2 v2) k1 v1.
Proof.
  intros Hne.
  induction names as [|[k' w] rest IH]; cbn [map_assign].
  - destruct (String.compare k1 k2) eqn:E12;
      [by apply String.compare_eq_iff in E12 | by compare_known | by compare_known].
  - destruct (String.compare k1 k2) eqn:E12;
      [by apply String.compare_eq_iff in E12 | |];
      destruct (String.compare k1 k') eqn:E1; destruct (String.compare k2 k') eqn:E2;
      try (apply String.compare_eq_iff in E1; subst);
      try (apply String.compare_eq_iff in E2; subst);
      try congruence; try (by order_false);
      compare_known; try done; by rewrite IH.
Qed.

(** What is entered under a name is lost when a later key is entered
    under the same name. *)
Lemma collect_shadowed (rt : PyRuntime) (ign : bool) (later : list addr) :
  forall (names : list (string * addr)) (o o' : addr),
    In o' later -> survives rt ign o' = true ->
    PyUnicode_AsUTF8 rt o' = PyUnicode_AsUTF8 rt o ->
    fold_left (collectName rt ign) later (map_assign names (PyUnicode_AsUTF8 rt o) o)
    = fold_left (collectName rt ign) later names.
Proof.
  induction later as [|x later IH]; intros names o o' Hin Hsurv Hname; [done|].
  cbn [fold_left]. rewrite !collectName_survives.
  destruct (survives rt ign x) eqn:Hx.
  - destruct (decide (PyUnicode_AsUTF8 rt x = PyUnicode_AsUTF8 rt o)) as [Hsame|Hdiff].
    + by rewrite Hsame, map_assign_overwrite.
    + rewrite map_assign_comm by congruence.
      destruct Hin as [->|Hin]; [congruence|]. by apply (IH _ _ o').
  - destruct Hin as [->|Hin]; [congruence|]. by apply (IH _ _ o').
Qed.

(** Of the keys of a mapping that have one name the last one counts: a
    key that a later key of the mapping follows under the same name
    leaves no trace, neither in the count nor in the entries.  A mapping
    with such a key, anywhere before the later one, has the records of
    the mapping without it. *)
Theorem visitDict_last_name_wins (rt : PyRuntime) (d1 d2 : addr) (ign : bool)
    (l1 l2 : list addr) (o o' : addr) :
  d1 <> NULL -> d2 <> NULL ->
  PyDict_Check rt d1 = true -> PyDict_Check rt d2 = true ->
  iterate rt d1 = l1 ++ l2 ->
  iterate rt d2 = l1 ++ o :: l2 ->
  In o' l2 -> survives rt ign o' = true ->
  PyUnicode_AsUTF8 rt o' = PyUnicode_AsUTF8 rt o ->
  (forall k, In k (l1 ++ l2) -> PyDict_GetItem rt d1 k = PyDict_GetItem rt d2 k) ->
  visitDict recorder rt d1 ign [] = visitDict recorder rt d2 ign [].
Proof.
  intros Hd1 Hd2 Hdict1 Hdict2 Hkeys1 Hkeys2 Hin Hsurv Hname Hvalues.
  assert (collectNames rt d2 ign = collectNames rt d1 ign) as Hnames.
  { unfold collectNames. rewrite Hkeys1, Hkeys2, !fold_left_app.
    cbn [fold_left]. rewrite collectName_survives.
    destruct (survives rt ign o); [|done]. by apply (collect_shadowed _ _ _ _ _ o'). }
  rewrite (emits_run _ _ (visitDict_emits rt d1 ign)).
  rewrite (emits_run _ _ (visitDict_emits rt d2 ign)).
  unfold dictRecords.
  assert (isNull d1 = false) as -> by (by apply N.eqb_neq).
  assert (isNull d2 = false) as -> by (by apply N.eqb_neq).
  rewrite Hdict1, Hdict2, Hnames. simpl. f_equal.
  apply map_ext_in. intros [name k] Hk. simpl.
  destruct (collect_fold_invariant rt ign (iterate rt d1) []) as [_ Hfrom];
    [constructor|].
  destruct (Hfrom _ Hk) as [[]|(Hkey & _)]. simpl in Hkey.
  rewrite Hkeys1 in Hkey. by rewrite (Hvalues k Hkey).
Qed.

(** The dict 440 has the keys ['a\0b'] and ['a\0c'], in this order, which
    both read ["a"]: it has the records of the dict 442, which has the
    second key only. *)
Lemma visitDict_last_name_wins_witness :
  visitDict recorder Demo3.rt 442%N false [] = visitDict recorder Demo3.rt 440%N false [].
Proof.
  apply (visitDict_last_name_wins Demo3.rt 442%N 440%N false [] [431%N] 430%N 431%N).
  - discriminate.
  - discriminate.
  - reflexivity.
  - reflexivity.
  - reflexivity.
  - reflexivity.
  - by left.
  - reflexivity.
  - reflexivity.
  - intros k [<-|[]]. reflexivity.
Defined.

(** ** Blocks that record no error *)

Lemma sequenceRecords_no_error (rt : PyRuntime) (t : addr) :
  Forall (fun r => VisitRecord.mKind r <> VisitRecord.Error) (sequenceRecords rt t).
Proof.
  unfold sequenceRecords. destruct (isNull t); [by repeat constructor|].
  constructor; [done|]. apply Forall_forall. intros r Hr.
  apply list_elem_of_In, in_map_iff in Hr as (o & <- & _). done.
Qed.

Lemma walkTuple_emits (rt : PyRuntime) (h : addr) :
  emits (walkTuple recorder rt h)
    (VisitRecord.ofHash (ShaHashOf 9)
       :: VisitRecord.ofHash (ShaHashOf (PyTuple_Size rt h))
       :: map (fun o => VisitRecord.ofTopo (ofPyobj o)) (tupleItems rt h)).
Proof.
  eapply emits_eq.
  - unfold walkTuple. emits_block.
  - simpl. rewrite concat_map_singleton. unfold tupleItems. by rewrite map_map.
Qed.

(** Only four blocks of [walk] can record an error entry: the blocks of
    the type-graph nodes (whose type may report one), of the functions, of
    the classes and of the method wrappers.  The records of every other
    node hold no error entry. *)
Theorem walk_without_errors (rt : PyRuntime) (obj : TypeOrPyobj) :
  ~ In (dispatch rt obj) [RuleType; RuleFunction; RuleClass; RuleMethodWrapper] ->
  Forall (fun r => VisitRecord.mKind r <> VisitRecord.Error) (recordWalk rt obj).
Proof.
  unfold recordWalk, walk. cbv zeta.
  destruct (dispatch rt obj); intros Hrule;
    try (exfalso; apply Hrule; simpl; tauto);
    try (by repeat constructor).
  - rewrite (emits_run _ _ (walkCode_emits rt (mPyObj obj))).
    unfold codeRecords.
    repeat (apply Forall_app; split);
      try apply sequenceRecords_no_error; by repeat constructor.
  - rewrite (emits_run _ _ (walkTuple_emits rt (mPyObj obj))).
    constructor; [done|]. constructor; [done|].
    apply Forall_forall. intros r Hr.
    apply list_elem_of_In, in_map_iff in Hr as (o & <- & _). done.
  - unfold walkCell, seq.
    destruct (negb (isNull (PyCell_Get rt (mPyObj obj)))); by repeat constructor.
Qed.

Lemma walk_without_errors_witness :
  Forall (fun r => VisitRecord.mKind r <> VisitRecord.Error)
         (recordWalk Demo.rt (ofPyobj 130%N)).
Proof.
  apply (walk_without_errors Demo.rt (ofPyobj 130%N)).
  vm_compute. intuition discriminate.
Defined.

(** ** Nodes that are summed up by a name *)

Lemma dispatchStructural_not_by_name (rt : PyRuntime) (h : addr) :
  dispatchStructural rt h <> RuleGloballyIdentifiable /\
  dispatchStructural rt h <> RuleCanonicalModule.
Proof.
  unfold dispatchStructural.
  repeat match goal with
         | |- (if ?b then _ else _) <> _ /\ _ => destruct b; [done|]
         end.
  done.
Qed.

(** The resolver answers true exactly when the whole round trip works:
    the object has both attributes, both are strings, the module registry
    has the module, and the module's member of that name is the object
    itself.  Its answer does not depend on an exception that was pending
    before the call, and it never returns with an exception pending that
    was not pending before. *)
Theorem isPyObjectGloballyIdentifiable_round_trip (rt : PyRuntime) (h : addr)
    (pending : PyErr) :
  (fst (isPyObjectGloballyIdentifiable rt h pending) = true <->
   ~ roundTripFails rt h) /\
  (snd (isPyObjectGloballyIdentifiable rt h pending) = true -> pending = true).
Proof.
  unfold isPyObjectGloballyIdentifiable, roundTripFails, py_bind, py_ret,
    hasAttrString, orRaise, PyErr_Clear, isNull, NULL.
  destruct (PyObject_HasAttrString rt h "__module__"); simpl;
    [|split; [split; [done | tauto] | done]].
  destruct (PyObject_HasAttrString rt h "__name__"); simpl;
    [|split; [split; [done | tauto] | done]].
  destruct (N.eqb_spec (PyObject_GetAttrString rt h "__module__") 0) as [Hm|Hm];
    simpl; [split; [split; [done | tauto] | done]|].
  destruct (N.eqb_spec (PyObject_GetAttrString rt h "__name__") 0) as [Hn|Hn];
    simpl; [split; [split; [done | tauto] | done]|].
  destruct (PyUnicode_Check rt (PyObject_GetAttrString rt h "__module__")); simpl;
    [|split; [split; [done | tauto] | done]].
  destruct (PyUnicode_Check rt (PyObject_GetAttrString rt h "__name__")); simpl;
    [|split; [split; [done | tauto] | done]].
  destruct (N.eqb_spec (PyObject_GetItem rt Py.sysModuleModules
                          (PyObject_GetAttrString rt h "__module__")) 0)
    as [Hmo|Hmo]; simpl; [split; [split; [done | tauto] | done]|].
  destruct (N.eqb_spec (PyObject_GetAttr rt
                          (PyObject_GetItem rt Py.sysModuleModules
                             (PyObject_GetAttrString rt h "__module__"))
                          (PyObject_GetAttrString rt h "__name__")) 0)
    as [Ho|Ho]; simpl; [split; [split; [done | tauto] | done]|].
  destruct (N.eqb_spec (PyObject_GetAttr rt
                          (PyObject_GetItem rt Py.sysModuleModules
                             (PyObject_GetAttrString rt h "__module__"))
                          (PyObject_GetAttrString rt h "__name__")) h)
    as [Hid|Hid]; simpl.
  - split; [|done]. split; [|done]. intros _.
    intros [?|[?|[?|[?|[?|[?|[?|[?|?]]]]]]]]; done.
  - split; [|done]. split; [done | tauto].
Qed.

Lemma isPyObjectGloballyIdentifiable_round_trip_witness :
  fst (isPyObjectGloballyIdentifiable Demo.rt 200%N true) = true.
Proof.
  apply (proj1 (isPyObjectGloballyIdentifiable_round_trip Demo.rt 200%N true)).
  unfold roundTripFails. simpl.
  intros [?|[?|[?|[?|[?|[?|[?|[?|?]]]]]]]]; done.
Defined.

(** A node is summed up by its qualified name only when the name has
    been checked: its round trip works, and its module is canonical or
    the node is a builtin function.  Its records are then the
    discriminant and the name [module|name], and nothing of its
    contents. *)
Theorem walk_global_name (rt : PyRuntime) (obj : TypeOrPyobj) :
  dispatch rt obj = RuleGloballyIdentifiable ->
  let h := mPyObj obj in
  let moduleName := PyUnicode_AsUTF8 rt (PyObject_GetAttrString rt h "__module__") in
  let clsName := PyUnicode_AsUTF8 rt (PyObject_GetAttrString rt h "__name__") in
  ~ roundTripFails rt h /\
  (isCanonicalName moduleName = true \/ ob_type rt h = Py.PyCFunction_Type) /\
  recordWalk rt obj =
    [ VisitRecord.ofHash (ShaHashOf 2);
      VisitRecord.ofName (String.append moduleName (String.append "|" clsName)) ].
Proof.
  intros Hrule h moduleName clsName.
  assert (isPyObjectGloballyIdentifiableAndStable rt h = true) as Hstable.
  { revert Hrule. unfold dispatch. fold h. cbv zeta.
    repeat match goal with
           | |- (if ?b then _ else _) = _ -> _ =>
               destruct b eqn:?; [try discriminate|]
           end; try done.
    intros Hs. by destruct (dispatchStructural_not_by_name rt h). }
  split; [|split].
  - unfold isPyObjectGloballyIdentifiableAndStable, evalPy in Hstable.
    destruct (isPyObjectGloballyIdentifiable_spec rt h) as (b & Hrun & Hb).
    rewrite Hrun in Hstable. simpl in Hstable.
    destruct b; [|discriminate]. intros Hfails. by apply Hb in Hfails.
  - unfold isPyObjectGloballyIdentifiableAndStable in Hstable.
    destruct (evalPy (isPyObjectGloballyIdentifiable rt h)); [|discriminate].
    fold moduleName in Hstable.
    destruct (isCanonicalName moduleName); [by left|]. right.
    destruct (N.eqb_spec (ob_type rt h) Py.PyCFunction_Type); [done|discriminate].
  - by rewrite (recordWalk_dispatch _ _ _ Hrule).
Qed.

Lemma walk_global_name_witness :
  recordWalk Demo.rt (ofPyobj 200%N) =
    [ VisitRecord.ofHash (ShaHashOf 2); VisitRecord.ofName "builtins|len" ].
Proof.
  exact (proj2 (proj2 (walk_global_name Demo.rt (ofPyobj 200%N) eq_refl))).
Defined.

(** A module is summed up by its name only when it is the module that the
    registry holds under that name and the name is canonical.  Its
    records are then two, the discriminant and the name, whatever the
    module holds. *)
Theorem walk_canonical_module (rt : PyRuntime) (obj : TypeOrPyobj) :
  dispatch rt obj = RuleCanonicalModule ->
  let h := mPyObj obj in
  let name := PyObject_GetAttrString rt h "__name__" in
  PyModule_Check rt h = true /\
  PyUnicode_Check rt name = true /\
  PyObject_GetItem rt Py.sysModuleModules name = h /\
  isCanonicalName (PyUnicode_AsUTF8 rt name) = true /\
  recordWalk rt obj =
    [ VisitRecord.ofHash (ShaHashOf 12);
      VisitRecord.ofName (PyUnicode_AsUTF8 rt name) ].
Proof.
  intros Hrule h name.
  assert (isCanonicalModule rt h = true) as Hmodule.
  { revert Hrule. unfold dispatch. fold h. cbv zeta.
    repeat match goal with
           | |- (if ?b then _ else _) = _ -> _ =>
               destruct b eqn:?; [try discriminate|]
           end; try done.
    intros Hs. by destruct (dispatchStructural_not_by_name rt h). }
  unfold isCanonicalModule in Hmodule. fold name in Hmodule.
  cbv zeta in Hmodule.
  rewrite !andb_true_iff in Hmodule.
  destruct Hmodule as (Hcheck & (_ & Hstr) & (_ & Hsame) & Hcanonical).
  apply N.eqb_eq in Hsame.
  repeat split; try done.
  unfold recordWalk, walk. by rewrite Hrule.
Qed.

Lemma walk_canonical_module_witness :
  recordWalk Demo2.rt (ofPyobj 800%N) =
    [ VisitRecord.ofHash (ShaHashOf 12); VisitRecord.ofName "os" ].
Proof.
  exact (proj2 (proj2 (proj2 (proj2
           (walk_canonical_module Demo2.rt (ofPyobj 800%N) eq_refl))))).
Defined.

(** ** The promotion table *)

Section PromotionLaws.
Import Promotion.

(** The result of a promotion does not depend on the order of the two
  types, nor, for three types, on which two are promoted first; a type
  promotes to itself. *)
Theorem PromotesTo_semilattice :
(forall a b : ctype, PromotesTo a b = PromotesTo b a) /\
(forall a b c : ctype,
    PromotesTo (PromotesTo a b) c = PromotesTo a (PromotesTo b c)) /\
(forall a : ctype, PromotesTo a a = a).
Proof.
split; [|split].
- intros a b; destruct a, b; reflexivity.
- intros a b c; destruct a, b, c; reflexivity.
- intros a; destruct a; reflexivity.
Qed.

(** The table is the rule [promote]: floating point wins over integers
  and [double] over [float], [bool] gives way, and two integers give the
  wider of the two widths, signed as soon as one of them is signed. *)
Theorem PromotesTo_rule (a b : ctype) : PromotesTo a b = promote a b.
Proof. destruct a, b; reflexivity. Qed.


(** Two types that are not floating point promote to a type that is not
  floating point, as wide as the wider of the two, and signed exactly
  when one of the two is signed (so a signed integer wins over an
  unsigned one of the same width). *)
Theorem PromotesTo_integer_width (a b : ctype) :
isFloatingPoint a = false -> isFloatingPoint b = false ->
isFloatingPoint (PromotesTo a b) = false /\
bits (PromotesTo a b) = Z.max (bits a) (bits b) /\
(isSigned (PromotesTo a b) = isSigned a || isSigned b).
Proof. destruct a, b; simpl; intros; try discriminate; repeat split. Qed.

Lemma PromotesTo_integer_width_witness :
isFloatingPoint (PromotesTo uint16_t int8_t) = false /\
bits (PromotesTo uint16_t int8_t) = Z.max (bits uint16_t) (bits int8_t) /\
(isSigned (PromotesTo uint16_t int8_t) = isSigned uint16_t || isSigned int8_t).
Proof. apply (PromotesTo_integer_width uint16_t int8_t); reflexivity. Defined.

End PromotionLaws.
